(** * Fuzzer session orchestration (scripts/fuzzing/lib/fuzzer.py)

    A shallow embedding of the [Fuzzer] class: liveness checks, launch,
    log symbolization, monitor, stop and reproduce.  The class drives a
    device, a host and a build environment through method calls; here
    every such call appends an [Event] to a history, and what the outside
    world answers is an arbitrary function of the history so far. *)

From Stdlib Require Import List String Ascii ZArith Lia Bool Arith.
From Stdlib Require Import DecimalString DecimalZ OrderedTypeEx.
Import ListNotations.
Open Scope string_scope.

(* ================================================================= *)
(** ** Text: characters, lines and the three log patterns *)

Module Text.

(** Characters are code points below 256. *)
Definition NL : ascii := "010"%char.

Definition code (c : ascii) : nat := nat_of_ascii c.

(** The class [[0-9]] of the patterns. *)
Definition is_digit (c : ascii) : bool :=
  (48 <=? code c)%nat && (code c <=? 57)%nat.

(** What [\s] matches and [str.strip] removes: tab to carriage return,
    the four separators 28..31, space, NEL and the no-break space. *)
Definition is_space (c : ascii) : bool :=
  let n := code c in
  ((9 <=? n)%nat && (n <=? 13)%nat) || ((28 <=? n)%nat && (n <=? 32)%nat)
  || (n =? 133)%nat || (n =? 160)%nat.

Fixpoint span (p : ascii -> bool) (s : string) : string * string :=
  match s with
  | EmptyString => (EmptyString, EmptyString)
  | String c r =>
      if p c then let (a, b) := span p r in (String c a, b)
      else (EmptyString, s)
  end.

Fixpoint drop (n : nat) (s : string) : string :=
  match n, s with
  | O, _ => s
  | S _, EmptyString => EmptyString
  | S k, String _ r => drop k r
  end.

Fixpoint lstrip (s : string) : string :=
  match s with
  | EmptyString => EmptyString
  | String c r => if is_space c then lstrip r else s
  end.

Fixpoint rstrip (s : string) : string :=
  match s with
  | EmptyString => EmptyString
  | String c r =>
      match rstrip r with
      | EmptyString => if is_space c then EmptyString else String c EmptyString
      | r' => String c r'
      end
  end.

(** [str.strip()] *)
Definition strip (s : string) : string := rstrip (lstrip s).

(** [' '.join(words)] *)
Definition join_spaces (words : list string) : string := String.concat " " words.

(** [int(digits)] on a string of decimal digits. *)
Fixpoint int_acc (acc : Z) (s : string) : Z :=
  match s with
  | EmptyString => acc
  | String c r => int_acc (10 * acc + (Z.of_nat (code c) - 48)) r
  end.
Definition int (s : string) : Z := int_acc 0 s.

(** [str(n)] for an integer. *)
Definition str (z : Z) : string := NilZero.string_of_int (Z.to_int z).

(** [re.compile(r'^==([0-9]+)==').search(line)]: group 1, when the line
    starts with two equal signs, one or more digits and two equal signs. *)
Definition pid_pattern (line : string) : option string :=
  match line with
  | String "="%char (String "="%char r) =>
      match span is_digit r with
      | (EmptyString, _) => None
      | (digits, r') => if prefix "==" r' then Some digits else None
      end
  | _ => None
  end.

(** [re.compile(r'^MS: [0-9]*').search(line)]: the digits are optional,
    so the pattern matches exactly the lines that start with [MS: ]. *)
Definition mut_pattern (line : string) : bool := prefix "MS: " line.

Definition art_marker : string := "Test unit written to data/".

(** [art_pattern.search(line)], the pattern being the marker text
    followed by the group [data/] plus any number of [\S]: group 1 of
    the leftmost match, that is [data/] and the longest run of
    characters that are not white space after it. *)
Fixpoint art_pattern (line : string) : option string :=
  if prefix art_marker line
  then Some ("data/" ++ fst (span (fun c => negb (is_space c)) (drop 26 line)))
  else match line with
       | EmptyString => None
       | String _ r => art_pattern r
       end.

(** The successive results of [readline()] on a text: every line keeps
    its newline, the last one may lack it. *)
Fixpoint readlines (s : string) : list string :=
  match s with
  | EmptyString => []
  | String c r =>
      if Ascii.eqb c NL then String c EmptyString :: readlines r
      else match readlines r with
           | [] => [String c EmptyString]
           | l :: ls => String c l :: ls
           end
  end.

(** [iter(fd_in.readline, '')]: the results of [readline()] up to the
    first empty one. *)
Fixpoint iter_readline (fd_in : list string) : list string :=
  match fd_in with
  | [] => []
  | EmptyString :: _ => []
  | l :: ls => l :: iter_readline ls
  end.

(** [os.path.join(a, b)] on POSIX paths. *)
Definition ends_with_slash (a : string) : bool :=
  match get (String.length a - 1) a with
  | Some c => Ascii.eqb c "/"%char
  | None => false
  end.

Definition os_path_join (a b : string) : string :=
  if prefix "/" b then b
  else if (a =? "") || ends_with_slash a then a ++ b
  else a ++ "/" ++ b.

End Text.

(* ================================================================= *)
(** ** Wildcard patterns *)

Module Glob.

(** A pattern made of literal characters and classes [[lo-hi]], which is
    all that the log pattern uses. *)
Inductive Item : Type :=
| Lit (c : ascii)
| Range (lo hi : ascii).


Definition in_range (lo hi c : ascii) : bool :=
  (Text.code lo <=? Text.code c)%nat && (Text.code c <=? Text.code hi)%nat.

(** Every item stands for exactly one character of the name. *)
Fixpoint matches (items : list Item) (name : string) : bool :=
  match items, name with
  | [], EmptyString => true
  | Lit c :: items', String d r => Ascii.eqb c d && matches items' r
  | Range lo hi :: items', String d r => in_range lo hi d && matches items' r
  | _, _ => false
  end.


End Glob.

(* ================================================================= *)
(** ** The outside world: events, answers, exceptions *)

(** One constructor per call that leaves the [Fuzzer] object. *)
Inductive Event : Type :=
| HostMkdir (path : string)                    (* host.mkdir *)
| HostSleep (millis : N)                       (* host.sleep: 0.5 s and 2 s *)
| HostOpen (path mode : string)                (* host.open *)
| FdWrite (path text : string)                 (* fd_out.write *)
| HostLink (src dst : string)                  (* host.link *)
| HostEcho (text : string)                     (* host.echo *)
| HostGlob (pattern : string)                  (* host.glob *)
| HostRemove (path : string)                   (* host.remove *)
| DevRunningQuery (url : string)               (* the device asked which components run *)
| DevIsfile (path : string)                    (* device.isfile *)
| DevSshPopen (cmd : list string)              (* device.ssh(cmd).popen() *)
| DevSshCheckCall (cmd : list string)          (* device.ssh(cmd).check_call() *)
| ProcPoll                                     (* proc.poll() *)
| ProcWait                                     (* proc.wait() *)
| ProcCommunicate                              (* p.communicate() *)
| DevGuessPid                                  (* device.guess_pid() *)
| DevDumpLog (args : list string)              (* device.dump_log(...) *)
| BuildSymbolize (raw : string)                (* buildenv.symbolize(raw) *)
| NsLs (path : string)                         (* ns.ls *)
| NsRemove (path : string)                     (* ns.remove *)
| NsFetch (dst : string) (srcs : list string)  (* ns.fetch *)
| NsStore (dst : string) (srcs : list string)  (* ns.store *)
| ClockNow.                                    (* datetime.datetime.now() *)

(** The calls made so far, the earliest first. *)
Definition History : Type := list Event.

Inductive Exn : Type :=
| HostError (lines : list string)                       (* host.error: the command exits *)
| CalledProcessError (rc : Z) (cmd : string) (out : string).

Inductive Result (A : Type) : Type :=
| Ok (a : A)
| Raise (e : Exn)
| OutOfFuel.
Arguments Ok {A} a.
Arguments Raise {A} e.
Arguments OutOfFuel {A}.

(** What the device, the host and the build answer.  Each answer may depend
    on everything that happened before, the call being answered included
    (it is the last event of the history). *)
Record Env : Type := {
  device_reachable  : History -> bool;
  device_isfile     : History -> bool;
  remote_running    : History -> bool;
  proc_poll         : History -> option Z;
  proc_wait         : History -> Z;
  proc_communicate  : History -> Z * string;
  proc_stderr       : History -> list string;
  check_call_rc     : History -> Z;
  dev_guess_pid     : History -> Z;
  dev_dump_log      : History -> string;
  build_symbolize   : History -> string;
  remote_ls         : History -> list string;
  remote_store      : History -> Result (list string);
  host_glob         : History -> list string;
  host_readlines    : History -> list string;
  clock_strftime    : History -> string;
  dictionary_nspath : History -> option string;
  corpus_nspaths    : History -> list string;
  buildenv_abspath  : string -> string;
  ns_base_abspath   : string -> string
}.

(** A fuzz target, as fixed by [__init__]. *)
Record Target : Type := {
  package        : string;
  executable     : string;
  package_url    : string;
  executable_url : string
}.

(** [dict] with string keys and values, in insertion order. *)
Definition Dict : Type := list (string * string).

(** The mutable attributes of a [Fuzzer], the history, and the device's
    cached liveness answer. *)
Record World : Type := mkWorld {
  trace             : History;
  run_state         : option bool;
  _package_path     : option string;
  _options          : Dict;
  _libfuzzer_opts   : Dict;
  _libfuzzer_inputs : list string;
  _subprocess_args  : list string;
  _debug            : bool;
  _foreground       : bool;
  _output           : option string;
  _logbase          : option string;
  _last_known_pid   : Z
}.

Definition with_trace (t : History) (w : World) : World :=
  mkWorld t (run_state w) (_package_path w) (_options w) (_libfuzzer_opts w)
    (_libfuzzer_inputs w) (_subprocess_args w) (_debug w) (_foreground w)
    (_output w) (_logbase w) (_last_known_pid w).

Definition with_run_state (c : option bool) (w : World) : World :=
  mkWorld (trace w) c (_package_path w) (_options w) (_libfuzzer_opts w)
    (_libfuzzer_inputs w) (_subprocess_args w) (_debug w) (_foreground w)
    (_output w) (_logbase w) (_last_known_pid w).

Definition with_package_path (p : option string) (w : World) : World :=
  mkWorld (trace w) (run_state w) p (_options w) (_libfuzzer_opts w)
    (_libfuzzer_inputs w) (_subprocess_args w) (_debug w) (_foreground w)
    (_output w) (_logbase w) (_last_known_pid w).

Definition with_options (o : Dict) (w : World) : World :=
  mkWorld (trace w) (run_state w) (_package_path w) o (_libfuzzer_opts w)
    (_libfuzzer_inputs w) (_subprocess_args w) (_debug w) (_foreground w)
    (_output w) (_logbase w) (_last_known_pid w).

Definition with_libfuzzer_inputs (i : list string) (w : World) : World :=
  mkWorld (trace w) (run_state w) (_package_path w) (_options w) (_libfuzzer_opts w)
    i (_subprocess_args w) (_debug w) (_foreground w)
    (_output w) (_logbase w) (_last_known_pid w).

Definition with_foreground (f : bool) (w : World) : World :=
  mkWorld (trace w) (run_state w) (_package_path w) (_options w) (_libfuzzer_opts w)
    (_libfuzzer_inputs w) (_subprocess_args w) (_debug w) f
    (_output w) (_logbase w) (_last_known_pid w).

Definition with_output (o : option string) (w : World) : World :=
  mkWorld (trace w) (run_state w) (_package_path w) (_options w) (_libfuzzer_opts w)
    (_libfuzzer_inputs w) (_subprocess_args w) (_debug w) (_foreground w)
    o (_logbase w) (_last_known_pid w).

Definition with_logbase (l : option string) (w : World) : World :=
  mkWorld (trace w) (run_state w) (_package_path w) (_options w) (_libfuzzer_opts w)
    (_libfuzzer_inputs w) (_subprocess_args w) (_debug w) (_foreground w)
    (_output w) l (_last_known_pid w).

Definition with_last_known_pid (p : Z) (w : World) : World :=
  mkWorld (trace w) (run_state w) (_package_path w) (_options w) (_libfuzzer_opts w)
    (_libfuzzer_inputs w) (_subprocess_args w) (_debug w) (_foreground w)
    (_output w) (_logbase w) p.

(* ================================================================= *)
(** ** Computations: state, exceptions, fuel *)

Definition M (A : Type) : Type := World -> Result A * World.

Definition ret {A} (a : A) : M A := fun w => (Ok a, w).

Definition bind {A B} (m : M A) (k : A -> M B) : M B :=
  fun w =>
    match m w with
    | (Ok a, w') => k a w'
    | (Raise e, w') => (Raise e, w')
    | (OutOfFuel, w') => (OutOfFuel, w')
    end.

Declare Scope fz_scope.
Delimit Scope fz_scope with fz.
Notation "x <- m ;; k" := (bind m (fun x => k))
  (at level 61, m at next level, right associativity) : fz_scope.
Notation "m ;; k" := (bind m (fun _ => k))
  (at level 61, right associativity) : fz_scope.
Open Scope fz_scope.

Definition raise {A} (e : Exn) : M A := fun w => (Raise e, w).
Definition out_of_fuel {A} : M A := fun w => (OutOfFuel, w).
Definition gets {A} (f : World -> A) : M A := fun w => (Ok (f w), w).
Definition modify (f : World -> World) : M unit := fun w => (Ok tt, f w).

(** A call is recorded ... *)
Definition emit (e : Event) : M unit := modify (fun w => with_trace (trace w ++ [e])%list w).
(** ... and then answered. *)
Definition ask {A} (answer : History -> A) : M A := gets (fun w => answer (trace w)).
Definition lift {A} (r : Result A) : M A := fun w => (r, w).

Definition when (b : bool) (m : M unit) : M unit := if b then m else ret tt.

(** [for x in xs: body(x)] *)
Fixpoint for_each {A} (xs : list A) (body : A -> M unit) : M unit :=
  match xs with
  | [] => ret tt
  | x :: xs' => body x ;; for_each xs' body
  end.


(** The events a computation added to the history of [w0]. *)
Definition events_since (w0 w : World) : list Event :=
  skipn (List.length (trace w0)) (trace w).

(** Truth value of a string or [None]: empty and [None] are false. *)
Definition truthy (s : option string) : bool :=
  match s with
  | None => false
  | Some EmptyString => false
  | Some _ => true
  end.

(** [d[k] = v] *)
Fixpoint dict_set (k v : string) (d : Dict) : Dict :=
  match d with
  | [] => [(k, v)]
  | (k', v') :: d' => if (k' =? k)%string then (k, v) :: d' else (k', v') :: dict_set k v d'
  end.

(** [d.update(other)] *)
Definition dict_update (d other : Dict) : Dict :=
  fold_left (fun acc kv => dict_set (fst kv) (snd kv) acc) other d.

(** Order of tuples of strings. *)
Definition item_leb (a b : string * string) : bool :=
  match String.compare (fst a) (fst b) with
  | Lt => true
  | Gt => false
  | Eq => String.leb (snd a) (snd b)
  end.

Fixpoint insert_item (a : string * string) (l : Dict) : Dict :=
  match l with
  | [] => [a]
  | b :: l' => if item_leb a b then a :: l else b :: insert_item a l'
  end.

(** [sorted(d.items())] *)
Definition sorted_items (d : Dict) : Dict := fold_right insert_item [] d.

(* ================================================================= *)
(** ** The [Fuzzer] methods *)

Module Fuzzer.

(** Options that stop libFuzzer from attaching as a debugger. *)
Definition DEBUG_OPTIONS : list string :=
  ["handle_segv"; "handle_bus"; "handle_ill"; "handle_fpe"; "handle_abrt"].

(** Wildcard pattern for fuzzer logs. *)
Definition LOG_PATTERN : string := "fuzz-[0-9].log".

(** A process started by [popen()]. *)
Record Proc : Type := { proc_cmd : list string; stderr_piped : bool }.

(** The local variables of the symbolizing loop. *)
Record LogVars : Type := mkVars {
  pid       : Z;
  sym       : option string;
  artifacts : list string
}.

Definition double_quote : string := String "034"%char EmptyString.

(** Modelled from the spec: [Namespace.data], which is not part of the
    sources.  Artifact paths are written [data/<name>], and the command
    lines the tests expect show the namespace the same way
    ([-artifact_prefix=data/], [data/corpus]). *)
Definition ns_data (relpath : string) : string := "data/" ++ relpath.

(** The search for [Package on disk: yes (path=<group>)] in the output
    of the status query, the group being any run of characters other
    than a newline.  Once the text before the group has matched, the
    group is the longest such run that a closing parenthesis follows. *)
Fixpoint path_group (s : string) : option string :=
  match s with
  | EmptyString => None
  | String c r =>
      if Ascii.eqb c Text.NL then None
      else match path_group r with
           | Some g => Some (String c g)
           | None => if Ascii.eqb c ")"%char then Some EmptyString else None
           end
  end.

Definition on_disk_marker : string := "Package on disk: yes (path=".

Fixpoint package_on_disk (out : string) : option string :=
  match (if prefix on_disk_marker out then path_group (Text.drop 27 out) else None) with
  | Some g => Some g
  | None => match out with
            | EmptyString => None
            | String _ r => package_on_disk r
            end
  end.

(** ['-{}={}'.format(key, value)] *)
Definition option_flag (kv : string * string) : string :=
  "-" ++ fst kv ++ "=" ++ snd kv.

Section Methods.

Variable env : Env.
Variable self : Target.

(** [str(self)] *)
Definition name : string := package self ++ "/" ++ executable self.

(** Modelled from the spec: [Host.error], which is not part of the
    sources.  Precondition failures are "fatal to the current command":
    the lines are reported and the command exits (the tests expect
    [SystemExit]). *)
Definition host_error {A} (lines : list string) : M A := raise (HostError lines).

(** The [output] property. *)
Definition output : M string :=
  o <- gets _output ;;
  match o with
  | Some (String c r) => ret (String c r)
  | _ =>
      let path := buildenv_abspath env ("//local/" ++ package self ++ "_" ++ executable self) in
      modify (with_output (Some path)) ;;
      ret path
  end.

Definition is_resolved : M bool :=
  reachable <- ask (device_reachable env) ;;
  if negb reachable then ret false else
  pp <- gets _package_path ;;
  if truthy pp then ret true else
  (* Check if fuzzer built using '--with-base'. *)
  let base_cmx := ns_base_abspath env ("meta/" ++ executable self ++ ".cmx") in
  emit (DevIsfile base_cmx) ;;
  isfile <- ask (device_isfile env) ;;
  if isfile then
    modify (with_package_path (Some (ns_base_abspath env ""))) ;;
    ret true
  else
  (* Check if fuzzer built using '--with'. *)
  let cmd := ["pkgctl"; "pkg-status"; package_url self] in
  emit (DevSshPopen cmd) ;;
  emit ProcCommunicate ;;
  r <- ask (proc_communicate env) ;;
  let (returncode, out) := r : Z * string in
  (* Exit code 2 means "pkg in tuf repo but not on disk". *)
  if negb ((returncode =? 0)%Z || (returncode =? 2)%Z) then
    raise (CalledProcessError returncode (Text.join_spaces cmd) out)
  else
  match package_on_disk out with
  | None => ret false
  | Some path =>
      modify (with_package_path (Some path)) ;;
      ret true
  end.

(** Modelled from the spec: [Device.v1_component_is_running], which is
    not part of the sources.  "A liveness query result is cached until
    an explicit refresh is requested": the device is asked when nothing
    is cached or when [refresh] is set, and the answer is kept. *)
Definition v1_component_is_running (url : string) (refresh : bool) : M bool :=
  cached <- gets run_state ;;
  match cached, refresh with
  | Some running, false => ret running
  | _, _ =>
      emit (DevRunningQuery url) ;;
      running <- ask (remote_running env) ;;
      modify (with_run_state (Some running)) ;;
      ret running
  end.

Definition is_running (refresh : bool) : M bool :=
  v1_component_is_running (executable_url self) refresh.

Definition require_stopped : M unit :=
  running <- is_running true ;;
  if running
  then host_error [name ++ " is running and must be stopped first."]
  else ret tt.

(** The loop of [_launch]: wait for the fuzzer to open its log, or exit. *)
Fixpoint wait_for_log (fuel : nat) (logs : string) : M unit :=
  match fuel with
  | O => out_of_fuel
  | S fuel' =>
      emit ProcPoll ;;
      code <- ask (proc_poll env) ;;
      match code with
      | Some _ => ret tt
      | None =>
          emit (NsLs logs) ;;
          listing <- ask (remote_ls env) ;;
          match listing with
          | [] => emit (HostSleep 500) ;; wait_for_log fuel' logs
          | _ :: _ => ret tt
          end
      end
  end.

Definition _launch (fuel : nat) : M Proc :=
  foreground <- gets _foreground ;;
  when (negb foreground) (modify (fun w => with_options (dict_set "jobs" "1" (_options w)) w)) ;;
  for_each DEBUG_OPTIONS (fun option =>
    debug <- gets _debug ;;
    when debug (modify (fun w => with_options (dict_set option "0" (_options w)) w))) ;;
  modify (fun w => with_options (dict_update (_options w) (_libfuzzer_opts w)) w) ;;
  options <- gets _options ;;
  inputs <- gets _libfuzzer_inputs ;;
  subprocess_args <- gets _subprocess_args ;;
  let fuzz_cmd :=
    (["run"; executable_url self]
     ++ map option_flag (sorted_items options)
     ++ inputs
     ++ match subprocess_args with [] => [] | _ :: _ => "--" :: subprocess_args end)%list in
  (* Start the process *)
  out <- output ;;
  emit (HostMkdir out) ;;
  modify (with_last_known_pid 0) ;;
  emit (DevSshPopen fuzz_cmd) ;;
  let proc := {| proc_cmd := fuzz_cmd; stderr_piped := foreground |} in
  if foreground then ret proc else
  (* Wait for either the fuzzer to start and open its log, or exit. *)
  let logs := ns_data LOG_PATTERN in
  wait_for_log fuel logs ;;
  emit (NsLs logs) ;;
  listing <- ask (remote_ls env) ;;
  match listing with
  | [] => host_error [name ++ " failed to start."]
  | _ :: _ => ret proc
  end.

Definition logfile (job_num : nat) : M string :=
  logbase <- gets _logbase ;;
  base <- (match logbase with
           | Some (String c r) => ret (String c r)
           | _ =>
               emit ClockNow ;;
               now <- ask (clock_strftime env) ;;
               modify (with_logbase (Some now)) ;;
               ret now
           end) ;;
  out <- output ;;
  ret (Text.os_path_join out ("fuzz-" ++ base ++ "-" ++ Text.str (Z.of_nat job_num) ++ ".log")).

(** One turn of the loop of [_symbolize_log_impl]. *)
Definition symbolize_line (fd_out : string) (echo : bool) (line : string)
    (v : LogVars) : M LogVars :=
  let pid_match := Text.pid_pattern line in
  let mut_match := Text.mut_pattern line in
  let art_match := Text.art_pattern line in
  v <- (match pid_match with
        | Some group =>
            let p := Text.int group in
            modify (with_last_known_pid p) ;;
            ret (mkVars p (sym v) (artifacts v))
        | None => ret v
        end) ;;
  v <- (if mut_match then
          p <- (if (pid v <=? 0)%Z
                then emit DevGuessPid ;; ask (dev_guess_pid env)
                else ret (pid v)) ;;
          if negb (truthy (sym v)) then
            emit (DevDumpLog ["--pid"; Text.str p]) ;;
            raw <- ask (dev_dump_log env) ;;
            emit (BuildSymbolize raw) ;;
            s <- ask (build_symbolize env) ;;
            emit (FdWrite fd_out s) ;;
            when echo (emit (HostEcho (Text.strip s))) ;;
            ret (mkVars p (Some s) (artifacts v))
          else ret (mkVars p (sym v) (artifacts v))
        else ret v) ;;
  v <- (match art_match with
        | Some group => ret (mkVars (pid v) (sym v) (artifacts v ++ [group]))
        | None => ret v
        end) ;;
  emit (FdWrite fd_out line) ;;
  when echo (emit (HostEcho (Text.strip line))) ;;
  ret v.

Fixpoint symbolize_lines (fd_out : string) (echo : bool) (lines : list string)
    (v : LogVars) : M LogVars :=
  match lines with
  | [] => ret v
  | line :: rest =>
      v' <- symbolize_line fd_out echo line v ;;
      symbolize_lines fd_out echo rest v'
  end.

(** Implementation of symbolize_log that takes file-like objects:
    [fd_in] is what its [readline()] returns, call after call, and
    [fd_out] is named by its path. *)
Definition _symbolize_log_impl (fd_in : list string) (fd_out : string)
    (echo : bool) : M bool :=
  v <- symbolize_lines fd_out echo (Text.iter_readline fd_in) (mkVars (-1) None []) ;;
  match artifacts v with
  | [] => ret tt
  | _ :: _ => out <- output ;; emit (NsFetch out (artifacts v))
  end ;;
  ret (match sym v with None => false | Some _ => true end).

Definition symbolize_log (fd_in : list string) (job_num : nat) (echo : bool) : M bool :=
  filename_out <- logfile job_num ;;
  emit (HostOpen filename_out "w") ;;
  found <- _symbolize_log_impl fd_in filename_out echo ;;
  out <- output ;;
  emit (HostLink filename_out (Text.os_path_join out "fuzz-latest.log")) ;;
  ret found.

(** [start], once the fuzzer is known to be stopped. *)
Definition start_stopped (fuel : nat) : M Proc :=
  (* Add dictionary *)
  dict <- ask (dictionary_nspath env) ;;
  match dict with
  | Some (String c r) =>
      modify (fun w => with_options (dict_set "dict" (String c r) (_options w)) w)
  | _ => ret tt
  end ;;
  (* Add corpus *)
  corpus <- ask (corpus_nspaths env) ;;
  modify (with_libfuzzer_inputs corpus) ;;
  (* Prep output *)
  let logs := ns_data LOG_PATTERN in
  emit (NsRemove logs) ;;
  proc <- _launch fuel ;;
  foreground <- gets _foreground ;;
  when foreground
    (fd_in <- ask (proc_stderr env) ;;
     symbolize_log fd_in 0 true ;;
     emit ProcWait) ;;
  ret proc.

Definition start (fuel : nat) : M Proc :=
  require_stopped ;;
  start_stopped fuel.



(** [device.ssh(cmd).check_call()] *)
Definition check_call (cmd : list string) : M unit :=
  emit (DevSshCheckCall cmd) ;;
  rc <- ask (check_call_rc env) ;;
  if (rc =? 0)%Z then ret tt
  else raise (CalledProcessError rc (Text.join_spaces cmd) "").

Definition stop : M unit :=
  running <- is_running false ;;
  if running then check_call ["killall"; executable self ++ ".cmx"] else ret tt.

(** [repro], once the fuzzer is known to be stopped. *)
Definition repro_stopped (fuel : nat) : M unit :=
  inputs <- gets _libfuzzer_inputs ;;
  emit (NsStore (ns_data "") inputs) ;;
  stored <- ask (remote_store env) ;;
  stored <- lift stored ;;
  modify (with_libfuzzer_inputs stored) ;;
  (* Default to repro-ing in the foreground *)
  modify (with_foreground true) ;;
  proc <- _launch fuel ;;
  fd_in <- ask (proc_stderr env) ;;
  symbolize_log fd_in 0 true ;;
  emit ProcWait ;;
  rc <- ask (proc_wait env) ;;
  if (rc =? 0)%Z then ret tt else
  (* The process exited uncleanly: go looking for a stacktrace. *)
  p <- gets _last_known_pid ;;
  p <- (if (p <=? 0)%Z then emit DevGuessPid ;; ask (dev_guess_pid env) else ret p) ;;
  emit (DevDumpLog ["--pid"; Text.str p]) ;;
  raw <- ask (dev_dump_log env) ;;
  emit (BuildSymbolize raw) ;;
  s <- ask (build_symbolize env) ;;
  emit (HostEcho (Text.strip s)).

Definition repro (fuel : nat) : M unit :=
  inputs <- gets _libfuzzer_inputs ;;
  match inputs with
  | [] => host_error ["No units provided.";
                      "Try " ++ double_quote ++ "fx fuzz help" ++ double_quote ++ "."]
  | _ :: _ => ret tt
  end ;;
  require_stopped ;;
  repro_stopped fuel.

(** *** What the methods compute, without the effects *)

(** The value of the [output] property in a world. *)
Definition output_path (w : World) : string :=
  match _output w with
  | Some (String c r) => String c r
  | _ => buildenv_abspath env ("//local/" ++ package self ++ "_" ++ executable self)
  end.

(** The options [_launch] ends up with. *)
Definition launch_options (w : World) : Dict :=
  let jobs := if _foreground w then _options w else dict_set "jobs" "1" (_options w) in
  let debug := if _debug w
               then fold_left (fun d option => dict_set option "0" d) DEBUG_OPTIONS jobs
               else jobs in
  dict_update debug (_libfuzzer_opts w).

(** The command [_launch] starts. *)
Definition fuzz_cmd (w : World) : list string :=
  (["run"; executable_url self]
   ++ map option_flag (sorted_items (launch_options w))
   ++ _libfuzzer_inputs w
   ++ match _subprocess_args w with [] => [] | _ :: _ => "--" :: _subprocess_args w end)%list.

(** The world in which [_launch] has just started the process. *)
Definition launched (w : World) : World :=
  with_trace (trace w ++ [HostMkdir (output_path w); DevSshPopen (fuzz_cmd w)])%list
    (with_last_known_pid 0
       (with_output (Some (output_path w))
          (with_options (launch_options w) w))).

(** The events of [n] unsuccessful turns of the loop of [_launch]. *)
Fixpoint launch_polls (n : nat) : list Event :=
  match n with
  | O => []
  | S n' => ProcPoll :: NsLs (ns_data LOG_PATTERN) :: HostSleep 500 :: launch_polls n'
  end.

(** The events of [n] turns of the loop of [monitor]. *)
Fixpoint monitor_polls (n : nat) : list Event :=
  match n with
  | O => []
  | S n' => DevRunningQuery (executable_url self) :: HostSleep 2000 :: monitor_polls n'
  end.


(** The name [logfile] gives the symbolized log of a job. *)
Definition logfile_path (out base : string) (job_num : nat) : string :=
  Text.os_path_join out ("fuzz-" ++ base ++ "-" ++ Text.str (Z.of_nat job_num) ++ ".log").

End Methods.

End Fuzzer.

(* ================================================================= *)
(** ** Views of a history *)

Module View.

(** The fetch requests, each with its destination and its sources. *)
Definition fetch_requests (evs : list Event) : list (string * list string) :=
  flat_map (fun e => match e with NsFetch d s => [(d, s)] | _ => [] end) evs.

(** How many times a path is named as a source of a fetch request. *)
Definition fetched_times (p : string) (evs : list Event) : nat :=
  list_sum (map (fun r => count_occ string_dec (snd r) p) (fetch_requests evs)).

(** The symbol dumps asked from the device, each with its arguments. *)
Definition dump_requests (evs : list Event) : list (list string) :=
  flat_map (fun e => match e with DevDumpLog a => [a] | _ => [] end) evs.

(** The text handed to the symbolizer, call by call. *)
Definition symbolizer_runs (evs : list Event) : list string :=
  flat_map (fun e => match e with BuildSymbolize r => [r] | _ => [] end) evs.

(** The texts written to the symbolized log, in order. *)
Definition written (evs : list Event) : list string :=
  flat_map (fun e => match e with FdWrite _ t => [t] | _ => [] end) evs.

(** The commands started on the device. *)
Definition launches (evs : list Event) : list (list string) :=
  flat_map (fun e => match e with DevSshPopen c => [c] | _ => [] end) evs.

(** The liveness queries that reached the device. *)
Definition running_queries (evs : list Event) : list string :=
  flat_map (fun e => match e with DevRunningQuery u => [u] | _ => [] end) evs.

(** The commands run to completion on the device. *)
Definition check_calls (evs : list Event) : list (list string) :=
  flat_map (fun e => match e with DevSshCheckCall c => [c] | _ => [] end) evs.

(** The patterns removed from the device. *)
Definition remote_removes (evs : list Event) : list string :=
  flat_map (fun e => match e with NsRemove p => [p] | _ => [] end) evs.

(** The events the symbolizing loop can add. *)
Definition loop_event (e : Event) : bool :=
  match e with
  | FdWrite _ _ | HostEcho _ | DevGuessPid | DevDumpLog _ | BuildSymbolize _ => true
  | _ => false
  end.

(** The paths the artifact markers of a stream name, in stream order. *)
Definition artifact_paths (lines : list string) : list string :=
  flat_map (fun l => match Text.art_pattern l with Some g => [g] | None => [] end) lines.

(** The pid of the last pid marker of a stream, [p0] without any. *)
Definition last_pid (p0 : Z) (lines : list string) : Z :=
  fold_left (fun p l => match Text.pid_pattern l with
                        | Some g => Text.int g
                        | None => p
                        end) lines p0.




(** The fetch that ends [_symbolize_log_impl]. *)
Definition artifact_fetch (out : string) (lines : list string) : list Event :=
  match artifact_paths lines with
  | [] => []
  | a :: l => [NsFetch out (a :: l)]
  end.

Definition is_some {A} (o : option A) : bool :=
  match o with Some _ => true | None => false end.

(** A computation that only adds to the history. *)
Definition grows {A} (m : M A) : Prop :=
  forall w, exists evs, trace (snd (m w)) = (trace w ++ evs)%list.

End View.

(* ================================================================= *)
(** ** A concrete target and concrete surroundings *)

Module Sample.

Definition target : Target := {|
  package        := "fake-package1";
  executable     := "fake-target1";
  package_url    := "fuchsia-pkg://fuchsia.com/fake-package1";
  executable_url := "fuchsia-pkg://fuchsia.com/fake-package1#meta/fake-target1.cmx"
|}.

(** The attributes as [__init__] sets them, nothing done yet. *)
Definition init : World := {|
  trace             := [];
  run_state         := None;
  _package_path     := None;
  _options          := [("artifact_prefix", Fuzzer.ns_data "")];
  _libfuzzer_opts   := [];
  _libfuzzer_inputs := [];
  _subprocess_args  := [];
  _debug            := false;
  _foreground       := false;
  _output           := None;
  _logbase          := None;
  _last_known_pid   := 0
|}.

(** A line of text with its newline. *)
Definition line (s : string) : string := s ++ String Text.NL EmptyString.

(** How many times the host has slept so far. *)
Definition sleeps (h : History) : nat :=
  List.length (filter (fun e => match e with HostSleep _ => true | _ => false end) h).

(** Surroundings that differ in what the device, the process, the
    symbolizer and the file listings answer; the guessed pid is 7. *)
Definition make (running : History -> bool) (poll : History -> option Z)
    (wait : History -> Z) (communicate : History -> Z * string)
    (stderr : History -> list string) (symbolize : History -> string)
    (ls glob readlines : History -> list string) : Env := {|
  device_reachable  := fun _ => true;
  device_isfile     := fun _ => false;
  remote_running    := running;
  proc_poll         := poll;
  proc_wait         := wait;
  proc_communicate  := communicate;
  proc_stderr       := stderr;
  check_call_rc     := fun _ => 0%Z;
  dev_guess_pid     := fun _ => 7%Z;
  dev_dump_log      := fun _ => "raw";
  build_symbolize   := symbolize;
  remote_ls         := ls;
  remote_store      := fun h => match last h ClockNow with
                                | NsStore dst srcs => Ok (map (fun s => dst ++ s) srcs)
                                | _ => Ok []
                                end;
  host_glob         := glob;
  host_readlines    := readlines;
  clock_strftime    := fun _ => "2019-01-01-0000";
  dictionary_nspath := fun _ => None;
  corpus_nspaths    := fun _ => ["data/corpus"];
  buildenv_abspath  := fun p => "/fuchsia" ++ Text.drop 1 p;
  ns_base_abspath   := fun p => "/pkgfs/packages/fake-package1/0/" ++ p
|}.

Definition no_output : History -> list string := fun _ => [].
Definition symbolized : History -> string := fun _ => "[[symbolizer output]]".
Definition not_on_disk : History -> Z * string := fun _ => (2%Z, "Package on disk: no").

(** Nothing runs, nothing is stored, the process exits at once. *)
Definition quiet : Env :=
  make (fun _ => false) (fun _ => Some 0%Z) (fun _ => 0%Z) not_on_disk
       no_output symbolized no_output no_output no_output.

(** The same with a symbolizer that prints nothing. *)
Definition silent_symbolizer : Env :=
  make (fun _ => false) (fun _ => Some 0%Z) (fun _ => 0%Z) not_on_disk
       no_output (fun _ => "") no_output no_output no_output.

(** The status query exits with 2 and yet reports a path. *)
Definition odd_status : Env :=
  make (fun _ => false) (fun _ => Some 0%Z) (fun _ => 0%Z)
       (fun _ => (2%Z, "Package on disk: yes (path=/pkgfs/versions/deadbeef)"))
       no_output symbolized no_output no_output no_output.

(** The target is running. *)
Definition busy : Env :=
  make (fun _ => true) (fun _ => None) (fun _ => 0%Z) not_on_disk
       no_output symbolized no_output no_output no_output.

(** The process prints a pid and exits with 77. *)
Definition crashing : Env :=
  make (fun _ => false) (fun _ => None) (fun _ => 77%Z) not_on_disk
       (fun _ => [line "==123== INFO: libFuzzer starting."])
       (fun _ => "symbolized") no_output no_output no_output.

(** The process prints a mutation marker and exits with 0. *)
Definition marker_then_clean_exit : Env :=
  make (fun _ => false) (fun _ => None) (fun _ => 0%Z) not_on_disk
       (fun _ => [line "MS: 0 ; base unit: 0000000000000000000000000000000000000000"])
       symbolized no_output no_output no_output.

(** The process exits after two polls and never opens a log. *)
Definition never_starts : Env :=
  make (fun _ => false)
       (fun h => if (sleeps h <? 2)%nat then None else Some 1%Z) (fun _ => 1%Z)
       not_on_disk no_output symbolized no_output no_output no_output.



(** The fuzzer starts and opens its log at once. *)
Definition logging : Env :=
  make (fun _ => false) (fun _ => None) (fun _ => 0%Z) not_on_disk
       no_output symbolized (fun _ => ["data/fuzz-0.log"]) no_output no_output.

(** A fuzzer started with [--debug]. *)
Definition init_debug : World :=
  mkWorld [] None None [("artifact_prefix", Fuzzer.ns_data "")] [] [] [] true false
          None None 0.

(** The log of [test_symbolize_log_pid_from_stacktrace]. *)
Definition stacktrace_log : list string :=
  [line "A line";
   line "Another line";
   line "==12345== INFO: libfuzzer stack trace:";
   line "MS: 1 SomeMutation; base unit: foo";
   line "Yet another line";
   line "artifact_prefix='data/'; Test unit written to data/crash-bbbb"].

(** A fuzzer given units to reproduce. *)
Definition with_units : World :=
  with_libfuzzer_inputs ["crash-deadbeef"; "oom-feedface"] init.

End Sample.

(* ================================================================= *)
(** ** The rest of the class: names, packages, build files *)

Module Names.

(** [needle in hay] *)
Fixpoint contains (needle hay : string) : bool :=
  if prefix needle hay then true
  else match hay with
       | EmptyString => false
       | String _ r => contains needle r
       end.

(** [s.count(c)] for one character. *)
Fixpoint count (c : ascii) (s : string) : nat :=
  match s with
  | EmptyString => O
  | String d r => if Ascii.eqb d c then S (count c r) else count c r
  end.

(** [s.split(sep)] for a separator of one character. *)
Fixpoint split (sep : ascii) (s : string) : list string :=
  match s with
  | EmptyString => [EmptyString]
  | String c r =>
      if Ascii.eqb c sep then EmptyString :: split sep r
      else match split sep r with
           | [] => [String c EmptyString]
           | x :: xs => String c x :: xs
           end
  end.

(** The built-in exceptions the methods raise themselves. *)
Inductive PyError : Type :=
| ValueError (msg : string)
| IndexError.

Inductive Checked (A : Type) : Type :=
| Done (a : A)
| Fails (e : PyError).
Arguments Done {A} a.
Arguments Fails {A} e.

(** [re.sub(r'_test$', '', s)]: the end of the text is also matched just
    before a newline that ends it. *)
Fixpoint sub_test_suffix (s : string) : string :=
  match s with
  | EmptyString => EmptyString
  | String c r =>
      if (s =? "_test")%string then EmptyString
      else if (s =? "_test" ++ String Text.NL EmptyString)%string
           then String Text.NL EmptyString
           else String c (sub_test_suffix r)
  end.

(** [re.sub(r'_test\.cmx$', '.cmx', s)] *)
Fixpoint sub_test_manifest (s : string) : string :=
  match s with
  | EmptyString => EmptyString
  | String c r =>
      if (s =? "_test.cmx")%string then ".cmx"
      else if (s =? "_test.cmx" ++ String Text.NL EmptyString)%string
           then ".cmx" ++ String Text.NL EmptyString
           else String c (sub_test_manifest r)
  end.

(** [re.sub(r'.cmx', '_test.cmx', s)], as [generate_coverage_report]
    writes it: the dot is not escaped, so every [cmx] that follows a
    character other than a newline is replaced together with that
    character, from left to right. *)
Fixpoint sub_cmx (s : string) : string :=
  match s with
  | String c (String "c"%char (String "m"%char (String "x"%char r))) =>
      if Ascii.eqb c Text.NL
      then String c (String "c"%char (String "m"%char (String "x"%char (sub_cmx r))))
      else "_test.cmx" ++ sub_cmx r
  | String c r => String c (sub_cmx r)
  | EmptyString => EmptyString
  end.

(** The part of [fuzz_spec] that names the binary: the keys [fuzzer] and
    [manifest], or else [fuzzer_test] and [test_manifest]. *)
Inductive Built : Type :=
| AsFuzzer (fuzzer manifest : string)
| AsFuzzerTest (fuzzer_test test_manifest : string).

(** What [__init__] keeps of it: [_executable], [_executable_url] and
    [_is_test]. *)
Definition init_executable (b : Built) : string :=
  match b with
  | AsFuzzer fuzzer _ => fuzzer
  | AsFuzzerTest fuzzer_test _ => sub_test_suffix fuzzer_test
  end.

Definition init_manifest (b : Built) : string :=
  match b with
  | AsFuzzer _ manifest => manifest
  | AsFuzzerTest _ test_manifest => sub_test_manifest test_manifest
  end.

Definition init_is_test (b : Built) : bool :=
  match b with
  | AsFuzzer _ _ => false
  | AsFuzzerTest _ _ => true
  end.

Definition init_target (package package_url : string) (b : Built) : Target := {|
  package        := package;
  executable     := init_executable b;
  package_url    := package_url;
  executable_url := package_url ++ "#meta/" ++ init_manifest b
|}.

Section Methods.

Variable self : Target.
Variable is_test : bool.

Definition __lt__ (other : Target) : bool :=
  String.ltb (Fuzzer.name self) (Fuzzer.name other).

(** [matches(name)]; [None] is Python's [None]. *)
Definition matches (name : option string) : Checked bool :=
  match name with
  | None => Done true
  | Some EmptyString => Done true
  | Some name =>
      (* If this object is currently built as a fuzzer test, check against that, too. *)
      let executable := if is_test then executable self ++ "_test" else executable self in
      if negb (contains "/" name)
      then Done (contains name (package self) || contains name executable)
      else match split "/"%char name with
           | [pkg; exe] => Done (contains pkg (package self) && contains exe executable)
           | _ => Fails (ValueError ("Malformed fuzzer name: " ++ name))
           end
  end.

End Methods.

End Names.

Module Package.

Section Methods.

Variable env : Env.
Variable self : Target.

Definition resolve : M unit :=
  resolved <- Fuzzer.is_resolved env self ;;
  if resolved then ret tt else
  let cmd := ["pkgctl"; "resolve"; package_url self] in
  Fuzzer.check_call env cmd ;;
  resolved <- Fuzzer.is_resolved env self ;;
  if resolved then ret tt else
  Fuzzer.host_error ["Failed to resolve package: " ++ package self].

(** The [package_path] property. *)
Definition package_path : M (option string) :=
  path <- gets _package_path ;;
  when (negb (truthy path)) resolve ;;
  gets _package_path.

End Methods.

End Package.

Module BuildFile.

(** [len(line) - len(line.lstrip(' '))] *)
Fixpoint leading_spaces (s : string) : nat :=
  match s with
  | String " "%char r => S (leading_spaces r)
  | _ => O
  end.

(** [' ' * n] *)
Fixpoint spaces (n : nat) : string :=
  match n with
  | O => EmptyString
  | S n' => String " "%char (spaces n')
  end.

(** The local variables of the loop of [add_corpus_to_buildfile]. *)
Record Scan : Type := mkScan {
  found           : bool;
  matching_target : bool;
  nested_scopes   : Z;
  lines_out       : list string
}.

(** ['{}  corpus = "{}"'.format(indent, corpus_dir)], [indent] being
    the leading spaces of the line that closes the target. *)
Definition corpus_line (line corpus_dir : string) : string :=
  spaces (leading_spaces line) ++ "  corpus = " ++ Fuzzer.double_quote
  ++ corpus_dir ++ Fuzzer.double_quote.

(** One turn of the loop. *)
Definition scan_line (fuzzer_target corpus_dir : string) (st : Scan) (raw : string) : Scan :=
  let line := Text.rstrip raw in
  let matching :=
    if negb (found st) && Names.contains fuzzer_target line then true
    else matching_target st in
  if negb matching
  then mkScan (found st) matching (nested_scopes st) (lines_out st ++ [line])%list
  else
    let nested := (nested_scopes st + Z.of_nat (Names.count "{" line)
                   - Z.of_nat (Names.count "}" line))%Z in
    let closes := (nested =? 0)%Z in
    let out := if closes then (lines_out st ++ [corpus_line line corpus_dir])%list
               else lines_out st in
    let out := if Names.contains "corpus =" line then out else (out ++ [line])%list in
    mkScan (if closes then true else found st)
           (if closes then false else matching) nested out.

Definition scan (fuzzer_target corpus_dir : string) (lines : list string) : Scan :=
  fold_left (scan_line fuzzer_target corpus_dir) lines (mkScan false false 0 []).

(** A line that sets no corpus. *)
Definition plain (line : string) : bool := negb (Names.contains "corpus =" line).

(** The braces a line opens, less those it closes. *)
Definition depth (line : string) : Z :=
  (Z.of_nat (Names.count "{" line) - Z.of_nat (Names.count "}" line))%Z.

(** From nesting [d], no line brings the nesting back to zero. *)
Fixpoint stays_open (d : Z) (lines : list string) : bool :=
  match lines with
  | [] => true
  | l :: r => negb (d + depth l =? 0)%Z && stays_open (d + depth l)%Z r
  end.

Definition depth_after (d : Z) (lines : list string) : Z :=
  fold_left (fun d l => (d + depth l)%Z) lines d.

Section Methods.

Variable env : Env.
(** [self._label], and what the host and [os.path] answer. *)
Variable label : string.
Variable host_isfile : History -> bool.
Variable relpath : string -> string -> string.
Variable fuchsia_dir : string.

Definition add_corpus_to_buildfile (corpus_label : string) : M (Names.Checked bool) :=
  if prefix "//generated" label then
    emit (HostEcho "Fuzzer metadata out of date; please re-run `fx set`.") ;;
    ret (Names.Done false)
  else
  let parts := Names.split ":"%char label in
  let build_gn_dir := buildenv_abspath env (nth 0 parts EmptyString) in
  let build_gn := Text.os_path_join build_gn_dir "BUILD.gn" in
  isfile <- ask host_isfile ;;
  if negb isfile then
    emit (HostEcho ("No such file: " ++ build_gn)) ;;
    ret (Names.Done false)
  else
  let corpus_dir := buildenv_abspath env corpus_label in
  let corpus_dir :=
    if prefix build_gn_dir corpus_dir then relpath corpus_dir build_gn_dir
    else "//" ++ relpath corpus_dir fuchsia_dir in
  match nth_error parts 1 with
  | None => ret (Names.Fails Names.IndexError)
  | Some target_name =>
      let fuzzer_target :=
        "fuzzer(" ++ Fuzzer.double_quote ++ target_name ++ Fuzzer.double_quote ++ ")" in
      emit (HostOpen build_gn "r") ;;
      gn <- ask (host_readlines env) ;;
      let st := scan fuzzer_target corpus_dir (Text.iter_readline gn) in
      if found st then
        emit (HostOpen build_gn "w") ;;
        emit (FdWrite build_gn (String.concat (String Text.NL EmptyString) (lines_out st))) ;;
        ret (Names.Done true)
      else
        emit (HostEcho ("Unable to find '" ++ fuzzer_target ++ "' in " ++ build_gn)) ;;
        ret (Names.Done false)
  end.

End Methods.

End BuildFile.

Module Options.

(** [d.get(k)] *)
Fixpoint dict_get (k : string) (d : Dict) : option string :=
  match d with
  | [] => None
  | (k', v) :: d' => if (k' =? k)%string then Some v else dict_get k d'
  end.

End Options.

(* ================================================================= *)
(** ** More views of a history *)

Module Stream.

(** The texts written, each with the file it went to. *)
Definition writes (evs : list Event) : list (string * string) :=
  flat_map (fun e => match e with FdWrite p t => [(p, t)] | _ => [] end) evs.

(** The texts shown to the user. *)
Definition echoes (evs : list Event) : list string :=
  flat_map (fun e => match e with HostEcho t => [t] | _ => [] end) evs.

(** The files opened, each with its mode. *)
Definition opens (evs : list Event) : list (string * string) :=
  flat_map (fun e => match e with HostOpen p m => [(p, m)] | _ => [] end) evs.


(** The text holds no newline. *)
Fixpoint one_line (s : string) : bool :=
  match s with
  | EmptyString => true
  | String c r => negb (Ascii.eqb c Text.NL) && one_line r
  end.

(** No character of the text is white space. *)
Fixpoint no_space (s : string) : bool :=
  match s with
  | EmptyString => true
  | String c r => negb (Text.is_space c) && no_space r
  end.

End Stream.

(* ================================================================= *)
(** ** More concrete surroundings *)

Module Cases.

(** The build file of [test_add_corpus_to_buildfile_replace_existing]. *)
Definition build_gn : list string :=
  map Sample.line
    ["fuzzer(" ++ Fuzzer.double_quote ++ "fake-target1" ++ Fuzzer.double_quote ++ ") {";
     "  sources = [ " ++ Fuzzer.double_quote ++ "fuzzer.cc" ++ Fuzzer.double_quote ++ " ]";
     "  deps = [ " ++ Fuzzer.double_quote ++ ":my-lib" ++ Fuzzer.double_quote ++ " ]";
     "  corpus = " ++ Fuzzer.double_quote ++ "//corpus/label" ++ Fuzzer.double_quote;
     "}"].

Definition with_build_gn : Env :=
  Sample.make (fun _ => false) (fun _ => Some 0%Z) (fun _ => 0%Z) Sample.not_on_disk
    Sample.no_output Sample.symbolized Sample.no_output Sample.no_output
    (fun _ => build_gn).

Definition label : string := "//src/fake/package1:fake-target1".

(** [os.path.relpath] for the paths of the test. *)
Definition relpath (path start : string) : string :=
  Text.drop (S (String.length start)) path.

(** A fuzzer given [-jobs=4] by the user. *)
Definition user_jobs : World :=
  mkWorld [] None None [("artifact_prefix", Fuzzer.ns_data "")] [("jobs", "4")] [] []
          false false None None 0.

End Cases.

(* ================================================================= *)
(** * Properties *)

Import Text Fuzzer View.
Local Open Scope list_scope.

(** ** Text *)

Lemma append_inv_head (a b c : string) : (a ++ b = a ++ c)%string -> b = c.
Proof.
  induction a as [|x a IH]; cbn [String.append]; [auto|].
  intros H. injection H as H. auto.
Qed.

Lemma append_inv_tail (a b : string) (s : string) :
  String.length a = String.length b -> (a ++ s = b ++ s)%string -> a = b.
Proof.
  revert b. induction a as [|x a IH]; intros [|y b] Hlen H; cbn in *;
    try discriminate; [reflexivity|].
  injection H as -> H. f_equal. apply IH; [lia|exact H].
Qed.

Lemma length_append (a b : string) :
  String.length (a ++ b) = String.length a + String.length b.
Proof. induction a; cbn; [reflexivity|now rewrite IHa]. Qed.

Arguments Text.str : simpl never.
Arguments Text.strip : simpl never.
Arguments Text.int : simpl never.
Arguments Text.os_path_join : simpl never.
Arguments String.append : simpl never.
Arguments events_since : simpl never.
Arguments Text.pid_pattern : simpl never.
Arguments Text.mut_pattern : simpl never.
Arguments Text.art_pattern : simpl never.

(** ** The tests of the repository, replayed *)

Example test_start :
  launches (events_since Sample.init (snd (start Sample.logging Sample.target 3 Sample.init)))
  = [["run"; "fuchsia-pkg://fuchsia.com/fake-package1#meta/fake-target1.cmx";
      "-artifact_prefix=data/"; "-jobs=1"; "data/corpus"]].
Proof. vm_compute. reflexivity. Qed.

Example test_start_debug :
  launches (events_since Sample.init_debug
              (snd (start Sample.logging Sample.target 3 Sample.init_debug)))
  = [["run"; "fuchsia-pkg://fuchsia.com/fake-package1#meta/fake-target1.cmx";
      "-artifact_prefix=data/"; "-handle_abrt=0"; "-handle_bus=0"; "-handle_fpe=0";
      "-handle_ill=0"; "-handle_segv=0"; "-jobs=1"; "data/corpus"]].
Proof. vm_compute. reflexivity. Qed.

Example test_symbolize_log_pid_from_stacktrace :
  let run := symbolize_log Sample.quiet Sample.target Sample.stacktrace_log 0 false
               Sample.init in
  fst run = Ok true
  /\ written (events_since Sample.init (snd run))
     = firstn 3 Sample.stacktrace_log ++ ["[[symbolizer output]]"]
       ++ skipn 3 Sample.stacktrace_log
  /\ dump_requests (events_since Sample.init (snd run)) = [["--pid"; "12345"]]
  /\ fetch_requests (events_since Sample.init (snd run))
     = [("/fuchsia/local/fake-package1_fake-target1", ["data/crash-bbbb"])].
Proof. vm_compute. repeat split. Qed.

Example test_symbolize_log_no_mutation_sequence :
  let log := [Sample.line "A line"; Sample.line "Another line";
              Sample.line "Yet another line"] in
  let run := symbolize_log Sample.quiet Sample.target log 0 false Sample.init in
  fst run = Ok false /\ written (events_since Sample.init (snd run)) = log.
Proof. vm_compute. repeat split. Qed.

Example test_repro :
  let run := repro Sample.crashing Sample.target 0 Sample.with_units in
  launches (events_since Sample.with_units (snd run))
  = [["run"; "fuchsia-pkg://fuchsia.com/fake-package1#meta/fake-target1.cmx";
      "-artifact_prefix=data/"; "data/crash-deadbeef"; "data/oom-feedface"]]
  /\ dump_requests (events_since Sample.with_units (snd run)) = [["--pid"; "123"]].
Proof. vm_compute. repeat split. Qed.

(** ** Running a computation *)

Lemma bind_ok {A B} (m : M A) (k : A -> M B) w a w' :
  m w = (Ok a, w') -> bind m k w = k a w'.
Proof. intros H. unfold bind. now rewrite H. Qed.

Lemma bind_raise {A B} (m : M A) (k : A -> M B) w e w' :
  m w = (Raise e, w') -> bind m k w = (Raise e, w').
Proof. intros H. unfold bind. now rewrite H. Qed.

Lemma bind_assoc {A B C} (m : M A) (f : A -> M B) (g : B -> M C) w :
  bind (bind m f) g w = bind m (fun x => bind (f x) g) w.
Proof. unfold bind. destruct (m w) as [[a| |] w1]; reflexivity. Qed.

Lemma bind_emit {B} e (k : unit -> M B) w :
  bind (emit e) k w = k tt (with_trace (trace w ++ [e]) w).
Proof. reflexivity. Qed.

Lemma bind_ask {A B} (f : History -> A) (k : A -> M B) w :
  bind (ask f) k w = k (f (trace w)) w.
Proof. reflexivity. Qed.

Lemma bind_gets {A B} (f : World -> A) (k : A -> M B) w :
  bind (gets f) k w = k (f w) w.
Proof. reflexivity. Qed.

Lemma bind_modify {B} f (k : unit -> M B) w :
  bind (modify f) k w = k tt (f w).
Proof. reflexivity. Qed.

Lemma bind_ret {A B} (a : A) (k : A -> M B) w : bind (ret a) k w = k a w.
Proof. reflexivity. Qed.

Lemma events_since_app w w' evs :
  trace w' = trace w ++ evs -> events_since w w' = evs.
Proof.
  intros H. unfold events_since. rewrite H.
  rewrite skipn_app, skipn_all, Nat.sub_diag. reflexivity.
Qed.

Lemma flat_map_loop_events {B} (f : Event -> list B) evs :
  (forall e, loop_event e = true -> f e = []) ->
  Forall (fun e => loop_event e = true) evs -> flat_map f evs = [].
Proof.
  intros Hf H. induction H as [|e evs He _ IH]; cbn; [reflexivity|].
  now rewrite (Hf e He), IH.
Qed.

Section Symbolizer.

Variable env : Env.
Variable self : Target.

(** One line: the loop body always completes, adds loop events only,
    keeps every artifact path and asks for a dump exactly when the line
    is a mutation marker and [sym] is still false. *)
Lemma symbolize_line_spec fd_out echo line v w :
  exists v' evs,
    symbolize_line env fd_out echo line v w =
      (Ok v', with_trace (trace w ++ evs)
                (with_last_known_pid (last_pid (_last_known_pid w) [line]) w))
    /\ Forall (fun e => loop_event e = true) evs
    /\ artifacts v' = artifacts v ++ artifact_paths [line]
    /\ (mut_pattern line && negb (truthy (sym v)) = false ->
        sym v' = sym v /\ dump_requests evs = [])
    /\ (mut_pattern line && negb (truthy (sym v)) = true ->
        exists h p, sym v' = Some (build_symbolize env h)
                    /\ dump_requests evs = [["--pid"; Text.str p]]).
Proof.
  destruct w.
  unfold symbolize_line, artifact_paths, last_pid. cbn [fold_left flat_map].
  destruct (pid_pattern line) as [g|]; destruct (mut_pattern line);
    destruct (art_pattern line) as [a|]; destruct echo; cbn.
  all: try (destruct (Text.int g <=? 0)%Z; cbn).
  all: try (destruct (pid v <=? 0)%Z; cbn).
  all: destruct (truthy (sym v)); cbn.
  all: rewrite <- ?app_assoc; cbn [app].
  all: eexists; eexists; split; [reflexivity|].
  all: repeat split; cbn; rewrite ?app_nil_r; try reflexivity; try discriminate.
  all: try (repeat constructor).
  all: try (intros _; eexists; eexists; split; reflexivity).
Qed.

Lemma artifact_paths_cons l ls :
  artifact_paths (l :: ls) = artifact_paths [l] ++ artifact_paths ls.
Proof. unfold artifact_paths. cbn [flat_map]. now rewrite app_nil_r. Qed.

Lemma last_pid_cons p l ls : last_pid p (l :: ls) = last_pid (last_pid p [l]) ls.
Proof. reflexivity. Qed.

Lemma symbolize_lines_spec fd_out echo lines : forall v w,
  exists v' evs,
    symbolize_lines env fd_out echo lines v w =
      (Ok v', with_trace (trace w ++ evs)
                (with_last_known_pid (last_pid (_last_known_pid w) lines) w))
    /\ Forall (fun e => loop_event e = true) evs
    /\ artifacts v' = artifacts v ++ artifact_paths lines
    /\ is_some (sym v') = is_some (sym v) || existsb mut_pattern lines
    /\ (existsb mut_pattern lines = false -> dump_requests evs = [])
    /\ (sym v = None -> existsb mut_pattern lines = true -> dump_requests evs <> [])
    /\ ((forall h, build_symbolize env h <> EmptyString) ->
        sym v = None \/ truthy (sym v) = true ->
        (sym v' = None \/ truthy (sym v') = true)
        /\ List.length (dump_requests evs) <= if is_some (sym v) then 0 else 1).
Proof.
  induction lines as [|line lines IH]; intros v w.
  - exists v, []. destruct w; cbn. rewrite !app_nil_r, orb_false_r.
    repeat split; auto; try discriminate. destruct (is_some (sym v)); lia.
  - destruct (symbolize_line_spec fd_out echo line v w)
      as (v1 & e1 & Hrun & Hloop & Hart & Hno & Hyes).
    destruct (IH v1 (with_trace (trace w ++ e1)
                (with_last_known_pid (last_pid (_last_known_pid w) [line]) w)))
      as (v2 & e2 & Hrun2 & Hloop2 & Hart2 & Hsym2 & Hnone2 & Hsome2 & Honce2).
    exists v2, (e1 ++ e2). split.
    { cbn [symbolize_lines]. rewrite (bind_ok _ _ _ _ _ Hrun), Hrun2.
      destruct w; cbn. now rewrite <- app_assoc. }
    split; [now apply Forall_app|].
    split.
    { rewrite Hart2, Hart, <- app_assoc, <- artifact_paths_cons. reflexivity. }
    assert (Happ : dump_requests (e1 ++ e2) = dump_requests e1 ++ dump_requests e2)
      by apply flat_map_app.
    rewrite Happ. cbn [existsb].
    destruct (mut_pattern line && negb (truthy (sym v))) eqn:Hcase.
    + destruct (Hyes eq_refl) as (h & p & Hs & Hd).
      apply andb_prop in Hcase. destruct Hcase as [Hm Ht].
      rewrite Hm, Hd. cbn [orb].
      split; [rewrite Hsym2, Hs; cbn; now rewrite orb_true_r|].
      split; [discriminate|]. split; [intros _ _; discriminate|].
      intros Hprint Hinv.
      assert (Hnew : truthy (Some (build_symbolize env h)) = true)
        by (specialize (Hprint h); destruct (build_symbolize env h);
            [now elim Hprint|reflexivity]).
      rewrite Hs in Honce2.
      destruct (Honce2 Hprint (or_intror Hnew)) as [Hi Hl]. split; [exact Hi|].
      cbn in Hl. cbn [List.length app].
      destruct Hinv as [Hv | Hv]; [rewrite Hv; cbn; lia|].
      rewrite Hv in Ht. discriminate.
    + destruct (Hno eq_refl) as [Hs Hd]. rewrite Hd. cbn [app]. rewrite Hs in *.
      split.
      { rewrite Hsym2. destruct (mut_pattern line); cbn [orb]; [|reflexivity].
        cbn in Hcase. destruct (sym v) as [[|c s]|]; try discriminate; reflexivity. }
      split.
      { intros H. apply Hnone2. apply orb_false_elim in H. apply H. }
      split.
      { intros Hv Hex. apply Hsome2; [exact Hv|].
        rewrite Hv in Hcase. cbn in Hcase. rewrite andb_true_r in Hcase.
        now rewrite Hcase in Hex. }
      intros Hprint Hinv. exact (Honce2 Hprint Hinv).
Qed.

Lemma output_spec w :
  output env self w =
    (Ok (output_path env self w), with_output (Some (output_path env self w)) w).
Proof.
  destruct w as [t rs pp o lo li sa d f [[|c r]|] lb lk]; reflexivity.
Qed.

Lemma output_path_with_output w :
  output_path env self (with_output (Some (output_path env self w)) w)
  = output_path env self w.
Proof.
  destruct w as [t rs pp o lo li sa d f [[|c r]|] lb lk];
    unfold output_path; cbn; try reflexivity;
    destruct (buildenv_abspath env _); reflexivity.
Qed.

Lemma logfile_spec job w :
  exists w1 clock base,
    logfile env self job w = (Ok (logfile_path (output_path env self w) base job), w1)
    /\ trace w1 = trace w ++ clock
    /\ (clock = [] \/ clock = [ClockNow])
    /\ output_path env self w1 = output_path env self w
    /\ _last_known_pid w1 = _last_known_pid w.
Proof.
  unfold logfile, output, logfile_path, output_path.
  destruct w as [t rs pp o lo li sa d f [[|c r]|] [[|c' r']|] lk]; cbn;
    try destruct (buildenv_abspath env _) eqn:Hp; cbn.
  all: eexists; eexists; eexists; split; [reflexivity|]; cbn.
  all: split; [first [reflexivity | symmetry; apply app_nil_r]|].
  all: rewrite ?Hp; repeat split; auto.
Qed.

Lemma impl_spec fd_in fd_out echo w :
  let lines := iter_readline fd_in in
  exists w1 loop,
    _symbolize_log_impl env self fd_in fd_out echo w
      = (Ok (existsb mut_pattern lines), w1)
    /\ trace w1 = trace w ++ loop ++ artifact_fetch (output_path env self w) lines
    /\ Forall (fun e => loop_event e = true) loop
    /\ (existsb mut_pattern lines = true <-> dump_requests loop <> [])
    /\ output_path env self w1 = output_path env self w
    /\ _last_known_pid w1 = last_pid (_last_known_pid w) lines
    /\ ((forall h, build_symbolize env h <> EmptyString) ->
        List.length (dump_requests loop) <= 1).
Proof.
  intros lines. unfold _symbolize_log_impl. fold lines.
  destruct (symbolize_lines_spec fd_out echo lines (mkVars (-1) None []) w)
    as (v & loop & Hrun & Hloop & Hart & Hsym & Hnone & Hsome & Honce).
  assert (Hone : (forall h, build_symbolize env h <> EmptyString) ->
                 List.length (dump_requests loop) <= 1)
    by (intros Hprint; now apply (Honce Hprint (or_introl eq_refl))).
  rewrite (bind_ok _ _ _ _ _ Hrun).
  assert (Hfound : match sym v with None => false | Some _ => true end
                   = existsb mut_pattern lines) by apply Hsym.
  assert (Hdump : existsb mut_pattern lines = true <-> dump_requests loop <> []).
  { split; [now apply Hsome|].
    intros Hd. destruct (existsb mut_pattern lines); [reflexivity|].
    now elim Hd; apply Hnone. }
  cbn [artifacts app] in Hart. unfold artifact_fetch. rewrite <- Hart.
  destruct (artifacts v) as [|a l].
  - eexists; exists loop. unfold bind, ret. rewrite Hfound.
    split; [reflexivity|]. destruct w; cbn. rewrite app_nil_r. repeat split; auto; apply Hdump.
  - rewrite (bind_ok _ _ _ _ _ (bind_ok _ _ _ _ _ (output_spec _))).
    eexists; exists loop. unfold bind, ret, emit, modify. rewrite Hfound.
    split; [reflexivity|].
    destruct w as [t rs pp o lo li sa d f [[|c r]|] lb lk]; cbn;
      rewrite <- ?app_assoc; unfold output_path; cbn; repeat split; auto;
      try apply Hdump; destruct (buildenv_abspath env _); reflexivity.
Qed.


(** [symbolize_log] always completes; what it adds to the history is
    the clock reading of a first [logfile], the opening of the symbolized
    log, the loop events, the artifact fetch and the link. *)
Lemma symbolize_log_spec fd_in job echo w :
  let lines := iter_readline fd_in in
  let out := output_path env self w in
  exists w1 clock base loop,
    symbolize_log env self fd_in job echo w = (Ok (existsb mut_pattern lines), w1)
    /\ trace w1 = trace w ++ clock ++ [HostOpen (logfile_path out base job) "w"]
                    ++ loop ++ artifact_fetch out lines
                    ++ [HostLink (logfile_path out base job)
                                 (os_path_join out "fuzz-latest.log")]
    /\ (clock = [] \/ clock = [ClockNow])
    /\ Forall (fun e => loop_event e = true) loop
    /\ (existsb mut_pattern lines = true <-> dump_requests loop <> [])
    /\ output_path env self w1 = output_path env self w
    /\ _last_known_pid w1 = last_pid (_last_known_pid w) lines
    /\ ((forall h, build_symbolize env h <> EmptyString) ->
        List.length (dump_requests loop) <= 1).
Proof.
  intros lines out. unfold symbolize_log.
  destruct (logfile_spec job w) as (w1 & clock & base & Hrun1 & Ht1 & Hclock & Ho1 & Hk1).
  rewrite (bind_ok _ _ _ _ _ Hrun1). fold out.
  set (path := logfile_path out base job).
  unfold bind at 1. unfold emit at 1, modify at 1.
  set (w2 := with_trace (trace w1 ++ [HostOpen path "w"]) w1).
  destruct (impl_spec fd_in path echo w2)
    as (w3 & loop & Hrun3 & Ht3 & Hloop & Hdump & Ho3 & Hk3 & Hone).
  fold lines in Hrun3, Ht3, Hdump, Hk3.
  rewrite (bind_ok _ _ _ _ _ Hrun3), (bind_ok _ _ _ _ _ (output_spec _)).
  unfold bind, emit, modify, ret.
  eexists; exists clock, base, loop. split; [reflexivity|].
  assert (Ho2 : output_path env self w2 = out) by (subst w2 out; rewrite <- Ho1; reflexivity).
  split.
  { cbn [trace with_trace with_output]. rewrite Ht3, Ho3, Ho2. subst w2.
    cbn [trace with_trace]. rewrite Ht1, <- !app_assoc. reflexivity. }
  split; [exact Hclock|]. split; [exact Hloop|]. split; [exact Hdump|].
  split.
  { transitivity (output_path env self w3); [|now rewrite Ho3].
    apply (output_path_with_output (with_trace _ w3)). }
  split; [|exact Hone].
  cbn. rewrite Hk3. subst w2. cbn. now rewrite Hk1.
Qed.

End Symbolizer.


Section SymbolizerClaims.

Variable env : Env.
Variable self : Target.

Lemma fetch_requests_loop loop :
  Forall (fun e => loop_event e = true) loop -> fetch_requests loop = [].
Proof. apply flat_map_loop_events. now intros []. Qed.

Lemma fetch_requests_symbolize_log out base job clock loop lines :
  (clock = [] \/ clock = [ClockNow]) ->
  Forall (fun e => loop_event e = true) loop ->
  fetch_requests (clock ++ [HostOpen (logfile_path out base job) "w"]
                    ++ loop ++ artifact_fetch out lines
                    ++ [HostLink (logfile_path out base job)
                                 (os_path_join out "fuzz-latest.log")])
  = match artifact_paths lines with
    | [] => []
    | a :: l => [(out, a :: l)]
    end.
Proof.
  intros Hclock Hloop. unfold fetch_requests.
  rewrite !flat_map_app. fold (fetch_requests loop).
  rewrite (fetch_requests_loop _ Hloop). unfold artifact_fetch.
  destruct Hclock as [-> | ->]; destruct (artifact_paths lines); reflexivity.
Qed.

Lemma dump_requests_symbolize_log out base job clock loop lines :
  (clock = [] \/ clock = [ClockNow]) ->
  dump_requests (clock ++ [HostOpen (logfile_path out base job) "w"]
                    ++ loop ++ artifact_fetch out lines
                    ++ [HostLink (logfile_path out base job)
                                 (os_path_join out "fuzz-latest.log")])
  = dump_requests loop.
Proof.
  intros Hclock. unfold dump_requests.
  rewrite !flat_map_app. unfold artifact_fetch.
  destruct Hclock as [-> | ->]; destruct (artifact_paths lines); cbn;
    now rewrite app_nil_r.
Qed.

(** C1, amended: artifact references are not deduplicated.  Every path
    captured from a "Test unit written to" marker is kept, in stream order
    and with its repetitions; when at least one was captured, all of them
    are passed to one fetch request made after the last line, so a path
    reported k times is named k times in it; when none was captured, no
    fetch is made. *)
Theorem symbolize_log_fetches_every_reported_path fd_in job_num echo w :
  let lines := iter_readline fd_in in
  exists found w',
    symbolize_log env self fd_in job_num echo w = (Ok found, w')
    /\ fetch_requests (events_since w w')
       = match artifact_paths lines with
         | [] => []
         | a :: l => [(output_path env self w, a :: l)]
         end
    /\ forall p, fetched_times p (events_since w w')
                 = count_occ string_dec (artifact_paths lines) p.
Proof.
  intros lines.
  destruct (symbolize_log_spec env self fd_in job_num echo w)
    as (w' & clock & base & loop & Hrun & Ht & Hclock & Hloop & _).
  fold lines in Hrun, Ht.
  exists (existsb mut_pattern lines), w'. split; [exact Hrun|].
  rewrite (events_since_app _ _ _ Ht).
  assert (Hf := fetch_requests_symbolize_log (output_path env self w) base job_num
                  clock loop lines Hclock Hloop).
  split; [exact Hf|].
  intros p. unfold fetched_times. rewrite Hf.
  destruct (artifact_paths lines); [reflexivity|].
  cbn [map list_sum snd]. apply Nat.add_0_r.
Qed.

(** C7: [symbolize_log] returns true exactly when some line of the stream
    is a mutation-sequence marker, which is exactly when a symbol dump
    was asked for and spliced; no exit code takes part in it. *)
Theorem symbolize_log_found_iff_mutation_marker fd_in job_num echo w :
  let lines := iter_readline fd_in in
  exists found w',
    symbolize_log env self fd_in job_num echo w = (Ok found, w')
    /\ (found = true <-> exists line, In line lines /\ mut_pattern line = true)
    /\ (found = true <-> dump_requests (events_since w w') <> []).
Proof.
  intros lines.
  destruct (symbolize_log_spec env self fd_in job_num echo w)
    as (w' & clock & base & loop & Hrun & Ht & Hclock & Hloop & Hdump & _).
  fold lines in Hrun, Ht, Hdump.
  exists (existsb mut_pattern lines), w'. split; [exact Hrun|].
  split; [apply existsb_exists|].
  rewrite (events_since_app _ _ _ Ht), dump_requests_symbolize_log by exact Hclock.
  exact Hdump.
Qed.

(** With a symbolizer that never prints the empty text, the dump is
    fetched once, at the first mutation marker, and never again. *)
Lemma dump_fetched_once_when_symbolizer_prints fd_in job_num echo w :
  (forall h, build_symbolize env h <> EmptyString) ->
  let lines := iter_readline fd_in in
  List.length (dump_requests (events_since w (snd (symbolize_log env self fd_in job_num echo w))))
  = if existsb mut_pattern lines then 1 else 0.
Proof.
  intros Hprint lines.
  destruct (symbolize_log_spec env self fd_in job_num echo w)
    as (w' & clock & base & loop & Hrun & Ht & Hclock & Hloop & Hdump & _ & _ & Hone).
  fold lines in Hrun, Ht, Hdump. rewrite Hrun. cbn [snd].
  rewrite (events_since_app _ _ _ Ht), dump_requests_symbolize_log by exact Hclock.
  specialize (Hone Hprint).
  destruct (existsb mut_pattern lines).
  - destruct (dump_requests loop) as [|d [|d' l]]; cbn in *;
      [now elim (proj1 Hdump eq_refl)|reflexivity|lia].
  - destruct (dump_requests loop) as [|d l]; [reflexivity|].
    assert (false = true) by (apply Hdump; discriminate). discriminate.
Qed.

End SymbolizerClaims.

(** C1 as stated fails: the same marker line twice makes the one fetch
    request name the path twice. *)
Lemma duplicate_artifact_is_fetched_twice :
  let marker := Sample.line "Test unit written to data/crash-X" in
  let w' := snd (symbolize_log Sample.quiet Sample.target [marker; marker] 0 false
                   Sample.init) in
  artifact_paths [marker; marker] = ["data/crash-X"; "data/crash-X"]
  /\ fetch_requests (events_since Sample.init w')
     = [("/fuchsia/local/fake-package1_fake-target1", ["data/crash-X"; "data/crash-X"])]
  /\ fetched_times "data/crash-X" (events_since Sample.init w') <> 1.
Proof. vm_compute. repeat split; discriminate. Qed.

(** C3 at the failing input: two mutation markers and a symbolizer that
    prints nothing.  [sym] is the empty string after the first marker, the
    test [not sym] holds again at the second, and the dump is fetched and
    symbolized a second time. *)
Theorem empty_symbol_dump_is_fetched_again :
  let w' := snd (symbolize_log Sample.silent_symbolizer Sample.target
                   [Sample.line "MS: 1 SomeMutation; base unit: foo";
                    Sample.line "MS: 2 SomeMutation; base unit: bar"] 0 false
                   Sample.init) in
  dump_requests (events_since Sample.init w') = [["--pid"; "7"]; ["--pid"; "7"]]
  /\ symbolizer_runs (events_since Sample.init w') = ["raw"; "raw"].
Proof. vm_compute. split; reflexivity. Qed.


(** ** Histories only grow *)

Lemma grows_ret {A} (a : A) : grows (ret a).
Proof. intros w. exists []. cbn. now rewrite app_nil_r. Qed.

Lemma grows_bind {A B} (m : M A) (k : A -> M B) :
  grows m -> (forall a, grows (k a)) -> grows (bind m k).
Proof.
  intros Hm Hk w. unfold bind. destruct (Hm w) as [e1 He1].
  destruct (m w) as [[a| |] w1]; cbn in He1.
  - destruct (Hk a w1) as [e2 He2]. exists (e1 ++ e2).
    now rewrite He2, He1, app_assoc.
  - now exists e1.
  - now exists e1.
Qed.

Lemma grows_emit e : grows (emit e).
Proof. intros w. now exists [e]. Qed.

Lemma grows_modify f : (forall w, trace (f w) = trace w) -> grows (modify f).
Proof. intros H w. exists []. cbn. now rewrite H, app_nil_r. Qed.

Lemma grows_gets {A} (f : World -> A) : grows (gets f).
Proof. intros w. exists []. cbn. now rewrite app_nil_r. Qed.

Lemma grows_raise {A} e : grows (@raise A e).
Proof. intros w. exists []. cbn. now rewrite app_nil_r. Qed.

Lemma grows_lift {A} (r : Result A) : grows (lift r).
Proof. intros w. exists []. cbn. now rewrite app_nil_r. Qed.

Lemma grows_out_of_fuel {A} : grows (@out_of_fuel A).
Proof. intros w. exists []. cbn. now rewrite app_nil_r. Qed.

Lemma grows_when b m : grows m -> grows (when b m).
Proof. destruct b; [auto|intros _; apply grows_ret]. Qed.

Lemma grows_for_each {A} (xs : list A) body :
  (forall x, grows (body x)) -> grows (for_each xs body).
Proof.
  intros H. induction xs; cbn [for_each]; [apply grows_ret|].
  apply grows_bind; auto.
Qed.

Create HintDb grows.

Ltac grow :=
  repeat first
    [ solve [auto 1 with grows nocore]
    | simple apply grows_ret | simple apply grows_emit | simple apply grows_gets
    | simple apply grows_raise | simple apply grows_lift | simple apply grows_out_of_fuel
    | simple apply grows_modify; intros []; reflexivity
    | simple apply grows_when | simple apply grows_for_each; intros ?
    | simple apply grows_bind; [|intros ?]
    | match goal with
      | |- grows (match ?x with _ => _ end) => destruct x
      | |- grows (let (_, _) := ?x in _) => destruct x
      end ].

Section Growth.

Variable env : Env.
Variable self : Target.

Lemma grows_output : grows (output env self).
Proof. unfold output. grow. Qed.
#[local] Hint Resolve grows_output : grows.

Lemma grows_is_running refresh : grows (is_running env self refresh).
Proof. unfold is_running, v1_component_is_running, ask. grow. Qed.
#[local] Hint Resolve grows_is_running : grows.

Lemma grows_require_stopped : grows (require_stopped env self).
Proof.
  unfold require_stopped, host_error. grow.
Qed.
#[local] Hint Resolve grows_require_stopped : grows.

Lemma grows_wait_for_log fuel logs : grows (wait_for_log env fuel logs).
Proof.
  induction fuel; cbn [wait_for_log]; unfold ask; grow.
Qed.
#[local] Hint Resolve grows_wait_for_log : grows.

Lemma grows_launch fuel : grows (_launch env self fuel).
Proof.
  unfold _launch, host_error, ask. grow.
Qed.
#[local] Hint Resolve grows_launch : grows.

Lemma grows_symbolize_log fd_in job echo : grows (symbolize_log env self fd_in job echo).
Proof.
  intros w.
  destruct (symbolize_log_spec env self fd_in job echo w)
    as (w' & clock & base & loop & Hrun & Ht & _).
  rewrite Hrun. eexists. exact Ht.
Qed.
#[local] Hint Resolve grows_symbolize_log : grows.

Lemma grows_start_stopped fuel : grows (start_stopped env self fuel).
Proof. unfold start_stopped, ask. grow. Qed.

Lemma grows_repro_stopped fuel : grows (repro_stopped env self fuel).
Proof. unfold repro_stopped, ask. grow. Qed.

End Growth.


Section Liveness.

Variable env : Env.
Variable self : Target.

Local Abbreviation url := (executable_url self).

(** A forced check asks the device whatever is cached, and keeps the answer. *)
Lemma is_running_forced w :
  let asked := trace w ++ [DevRunningQuery url] in
  is_running env self true w
  = (Ok (remote_running env asked),
     with_run_state (Some (remote_running env asked)) (with_trace asked w)).
Proof.
  destruct w as [t [[|]|] pp o lo li sa d f out lb lk]; reflexivity.
Qed.

(** An unforced check asks the device only when nothing is cached. *)
Lemma is_running_unforced w :
  let asked := trace w ++ [DevRunningQuery url] in
  is_running env self false w
  = match run_state w with
    | Some running => (Ok running, w)
    | None => (Ok (remote_running env asked),
               with_run_state (Some (remote_running env asked)) (with_trace asked w))
    end.
Proof.
  destruct w as [t [[|]|] pp o lo li sa d f out lb lk]; reflexivity.
Qed.

Lemma require_stopped_spec w :
  let asked := trace w ++ [DevRunningQuery url] in
  require_stopped env self w
  = (if remote_running env asked
     then Raise (HostError [(name self ++ " is running and must be stopped first.")%string])
     else Ok tt,
     with_run_state (Some (remote_running env asked)) (with_trace asked w)).
Proof.
  intros asked. unfold require_stopped.
  rewrite (bind_ok _ _ _ _ _ (is_running_forced w)). fold asked.
  destruct (remote_running env asked); reflexivity.
Qed.

(** C2, amended: the reproduce preflight never acts on a cached liveness
    result, [stop] does.  [require_stopped] asks the device whatever is
    cached and decides on the fresh answer.  [stop] does not force a
    refresh: it takes the cached result when there is one and asks the
    device only when nothing is cached, and it issues the kill-by-name
    command if and only if the result it took says the process runs. *)
Theorem stop_consults_cache_preflight_refreshes w :
  let asked := trace w ++ [DevRunningQuery url] in
  let fresh := remote_running env asked in
  let consulted := match run_state w with Some cached => cached | None => fresh end in
  (events_since w (snd (require_stopped env self w)) = [DevRunningQuery url]
   /\ fst (require_stopped env self w)
      = if fresh
        then Raise (HostError [(name self ++ " is running and must be stopped first.")%string])
        else Ok tt)
  /\ running_queries (events_since w (snd (stop env self w)))
     = match run_state w with Some _ => [] | None => [url] end
  /\ check_calls (events_since w (snd (stop env self w)))
     = if consulted then [["killall"; (executable self ++ ".cmx")%string]] else [].
Proof.
  intros asked fresh consulted. split.
  - rewrite require_stopped_spec. fold asked fresh. cbn [fst snd]. split; [|reflexivity].
    now apply events_since_app.
  - unfold stop. subst consulted fresh asked. unfold is_running, v1_component_is_running, check_call.
    destruct w as [t [[|]|] pp o lo li sa d f out lb lk]; cbn;
      try destruct (remote_running env _); cbn;
      try destruct (check_call_rc env _ =? 0)%Z; cbn.
    all: erewrite events_since_app
      by (cbn; rewrite <- ?app_assoc; first [reflexivity | symmetry; apply app_nil_r]).
    all: split; reflexivity.
Qed.

End Liveness.

(** C2 as stated fails for [stop]: with "running" cached and nothing
    running on the device, [stop] asks nothing and issues the kill. *)
Lemma stop_acts_on_cached_liveness :
  let w := with_run_state (Some true) Sample.init in
  let w' := snd (stop Sample.quiet Sample.target w) in
  remote_running Sample.quiet (trace w ++ [DevRunningQuery (executable_url Sample.target)]) = false
  /\ running_queries (events_since w w') = []
  /\ check_calls (events_since w w') = [["killall"; "fake-target1.cmx"]].
Proof. vm_compute. repeat split. Qed.


Section Preflight.

Variable env : Env.
Variable self : Target.

Local Abbreviation url := (executable_url self).

Lemma after_require_stopped {A} (k : M A) w :
  grows k ->
  let asked := trace w ++ [DevRunningQuery url] in
  (exists rest, events_since w (snd ((require_stopped env self ;; k) w))
                = DevRunningQuery url :: rest)
  /\ (remote_running env asked = true ->
      fst ((require_stopped env self ;; k) w)
      = Raise (HostError [(name self ++ " is running and must be stopped first.")%string])
      /\ events_since w (snd ((require_stopped env self ;; k) w)) = [DevRunningQuery url]).
Proof.
  intros Hk asked. unfold bind. rewrite require_stopped_spec.
  fold url. fold asked.
  destruct (remote_running env asked).
  - split; [exists []|intros _; split; [reflexivity|]];
      now apply events_since_app.
  - split; [|discriminate].
    destruct (Hk (with_run_state (Some false) (with_trace asked w))) as [rest Hrest].
    exists rest. apply events_since_app. rewrite Hrest. subst asked. cbn.
    now rewrite <- app_assoc.
Qed.

(** C9: [start] and [repro] refresh the liveness of the target with a
    forced query before anything else reaches the device; when the
    answer is "running" they stop there with an error that names the
    target, and no command is launched.  ([repro] without units gives up
    even earlier, before any call.) *)
Theorem start_and_repro_require_stopped fuel w :
  let asked := trace w ++ [DevRunningQuery url] in
  let busy := HostError [(name self ++ " is running and must be stopped first.")%string] in
  (exists rest, events_since w (snd (start env self fuel w)) = DevRunningQuery url :: rest)
  /\ (remote_running env asked = true ->
      fst (start env self fuel w) = Raise busy
      /\ events_since w (snd (start env self fuel w)) = [DevRunningQuery url]
      /\ launches (events_since w (snd (start env self fuel w))) = [])
  /\ (_libfuzzer_inputs w <> [] ->
      exists rest, events_since w (snd (repro env self fuel w)) = DevRunningQuery url :: rest)
  /\ (_libfuzzer_inputs w <> [] -> remote_running env asked = true ->
      fst (repro env self fuel w) = Raise busy
      /\ events_since w (snd (repro env self fuel w)) = [DevRunningQuery url]
      /\ launches (events_since w (snd (repro env self fuel w))) = [])
  /\ (_libfuzzer_inputs w = [] ->
      events_since w (snd (repro env self fuel w)) = []).
Proof.
  intros asked busy.
  destruct (after_require_stopped _ w (grows_start_stopped env self fuel)) as [Hs1 Hs2].
  destruct (after_require_stopped _ w (grows_repro_stopped env self fuel)) as [Hr1 Hr2].
  fold asked in Hs2, Hr2. fold (start env self fuel) in Hs1, Hs2.
  assert (Hrepro : _libfuzzer_inputs w <> [] ->
            repro env self fuel w
            = (require_stopped env self ;; repro_stopped env self fuel) w).
  { intros Hin. unfold repro. destruct w as [t rs pp o lo [|i li] sa d f out lb lk];
      [now elim Hin|reflexivity]. }
  split; [exact Hs1|]. split.
  { intros Hrun. destruct (Hs2 Hrun) as [Hf He]. split; [exact Hf|].
    split; [exact He|]. now rewrite He. }
  split; [intros Hin; rewrite (Hrepro Hin); exact Hr1|].
  split.
  { intros Hin Hrun. rewrite (Hrepro Hin). destruct (Hr2 Hrun) as [Hf He].
    split; [exact Hf|]. split; [exact He|]. now rewrite He. }
  intros Hin. unfold repro.
  destruct w as [t rs pp o lo [|i li] sa d f out lb lk]; [|discriminate].
  apply events_since_app. cbn. now rewrite app_nil_r.
Qed.


End Preflight.

Lemma start_and_repro_require_stopped_witness :
  fst (start Sample.busy Sample.target 3 Sample.init)
  = Raise (HostError ["fake-package1/fake-target1 is running and must be stopped first."])
  /\ launches (events_since Sample.init (snd (start Sample.busy Sample.target 3 Sample.init)))
     = []
  /\ fst (repro Sample.busy Sample.target 3 Sample.with_units)
     = Raise (HostError ["fake-package1/fake-target1 is running and must be stopped first."])
  /\ launches (events_since Sample.with_units
                 (snd (repro Sample.busy Sample.target 3 Sample.with_units)))
     = [].
Proof.
  destruct (start_and_repro_require_stopped Sample.busy Sample.target 3 Sample.init)
    as (_ & Hstart & _).
  destruct (start_and_repro_require_stopped Sample.busy Sample.target 3 Sample.with_units)
    as (_ & _ & _ & Hrepro & _).
  destruct (Hstart eq_refl) as (Hs1 & _ & Hs2).
  destruct (Hrepro ltac:(discriminate) eq_refl) as (Hr1 & _ & Hr2).
  repeat split; assumption.
Defined.




Section Launch.

Variable env : Env.
Variable self : Target.

Local Abbreviation logs := (ns_data LOG_PATTERN).

(** [_launch] up to [popen()], and what follows in the background. *)
Lemma launch_unfold fuel w :
  _launch env self fuel w
  = (let proc := {| proc_cmd := fuzz_cmd self w; stderr_piped := _foreground w |} in
     if _foreground w then ret proc
     else
       wait_for_log env fuel logs ;;
       emit (NsLs logs) ;;
       listing <- ask (remote_ls env) ;;
       match listing with
       | [] => host_error [(name self ++ " failed to start.")%string]
       | _ :: _ => ret proc
       end) (launched env self w).
Proof.
  destruct w as [t rs pp o lo li sa [|] [|] [[|c r]|] lb lk];
    unfold _launch, launched, output, output_path, fuzz_cmd, launch_options;
    cbn; unfold with_trace; cbn; rewrite <- app_assoc; reflexivity.
Qed.

Lemma launch_polls_app n m :
  launch_polls (n + m) = launch_polls n ++ launch_polls m.
Proof. induction n; cbn; [reflexivity|now rewrite IHn]. Qed.

Lemma launch_polls_S n :
  launch_polls (S n) = launch_polls n ++ [ProcPoll; NsLs logs; HostSleep 500].
Proof. now rewrite <- Nat.add_1_r, launch_polls_app. Qed.

(** The loop of [_launch] leaves at the first poll that finds the
    process gone, if no listing before it showed a log. *)
Lemma wait_for_log_exit n : forall fuel w code,
  n < fuel ->
  (forall i, i < n ->
     proc_poll env (trace w ++ launch_polls i ++ [ProcPoll]) = None
     /\ remote_ls env (trace w ++ launch_polls i ++ [ProcPoll; NsLs logs]) = []) ->
  proc_poll env (trace w ++ launch_polls n ++ [ProcPoll]) = Some code ->
  wait_for_log env fuel logs w
  = (Ok tt, with_trace (trace w ++ launch_polls n ++ [ProcPoll]) w).
Proof.
  induction n as [|n IH]; intros fuel w code Hfuel Hquiet Hexit;
    (destruct fuel as [|fuel]; [lia|]); cbn [wait_for_log].
  - cbn in Hexit. unfold bind, emit, modify, ask, gets. cbn. now rewrite Hexit.
  - destruct (Hquiet 0 ltac:(lia)) as [Hp Hl]. cbn in Hp, Hl.
    unfold bind at 1 2, emit at 1, modify at 1, ask at 1, gets at 1. cbn [trace with_trace].
    rewrite Hp.
    unfold bind at 1 2, emit at 1, modify at 1, ask at 1, gets at 1. cbn [trace with_trace].
    rewrite <- app_assoc. cbn [app]. rewrite Hl.
    unfold bind at 1, emit at 1, modify at 1. cbn [trace with_trace].
    rewrite <- app_assoc. cbn [app].
    rewrite (IH fuel _ code).
    + destruct w; cbn. now rewrite <- !app_assoc.
    + lia.
    + intros i Hi. destruct (Hquiet (S i) ltac:(lia)) as [Hp' Hl'].
      cbn [trace with_trace]. rewrite <- !app_assoc. exact (conj Hp' Hl').
    + cbn [trace with_trace]. rewrite <- !app_assoc. exact Hexit.
Qed.

(** What a background launch does when the process is found gone
    before any listing showed a log. *)
Lemma launch_exit_spec fuel w n code :
  _foreground w = false ->
  let started := trace (launched env self w) in
  (forall i, i < n ->
     proc_poll env (started ++ launch_polls i ++ [ProcPoll]) = None
     /\ remote_ls env (started ++ launch_polls i ++ [ProcPoll; NsLs logs]) = []) ->
  proc_poll env (started ++ launch_polls n ++ [ProcPoll]) = Some code ->
  remote_ls env (started ++ launch_polls n ++ [ProcPoll; NsLs logs]) = [] ->
  n < fuel ->
  _launch env self fuel w
  = (Raise (HostError [(name self ++ " failed to start.")%string]),
     with_trace (started ++ launch_polls n ++ [ProcPoll; NsLs logs])
       (launched env self w)).
Proof.
  intros Hbg started Hquiet Hexit Hnone Hfuel.
  rewrite launch_unfold, Hbg. cbv zeta.
  rewrite (bind_ok _ _ _ _ _ (wait_for_log_exit n fuel _ code Hfuel Hquiet Hexit)).
  fold started. rewrite bind_emit, bind_ask.
  cbn [trace with_trace]. rewrite <- !app_assoc. cbn [app].
  rewrite Hnone. destruct w; reflexivity.
Qed.

(** C5: in the background [_launch] watches, every half second, for
    the process to exit or a log matching the pattern to be listed.  If
    the process is found gone at a poll before any listing showed a log,
    and the listing made right after shows none either, the launch fails
    with the "failed to start" error that names the target. *)
Theorem launch_fails_when_exit_precedes_log fuel w n code :
  _foreground w = false ->
  let started := trace (launched env self w) in
  (forall i, i < n ->
     proc_poll env (started ++ launch_polls i ++ [ProcPoll]) = None
     /\ remote_ls env (started ++ launch_polls i ++ [ProcPoll; NsLs logs]) = []) ->
  proc_poll env (started ++ launch_polls n ++ [ProcPoll]) = Some code ->
  remote_ls env (started ++ launch_polls n ++ [ProcPoll; NsLs logs]) = [] ->
  n < fuel ->
  fst (_launch env self fuel w)
  = Raise (HostError [(name self ++ " failed to start.")%string])
  /\ events_since w (snd (_launch env self fuel w))
     = [HostMkdir (output_path env self w); DevSshPopen (fuzz_cmd self w)]
       ++ launch_polls n ++ [ProcPoll; NsLs logs].
Proof.
  intros Hbg started Hquiet Hexit Hnone Hfuel.
  rewrite (launch_exit_spec fuel w n code Hbg Hquiet Hexit Hnone Hfuel).
  split; [reflexivity|].
  apply events_since_app. cbn [snd trace with_trace launched].
  now rewrite <- !app_assoc.
Qed.

End Launch.

Lemma launch_fails_when_exit_precedes_log_witness :
  fst (_launch Sample.never_starts Sample.target 5 Sample.init)
  = Raise (HostError ["fake-package1/fake-target1 failed to start."])
  /\ events_since Sample.init (snd (_launch Sample.never_starts Sample.target 5 Sample.init))
     = [HostMkdir (output_path Sample.never_starts Sample.target Sample.init);
        DevSshPopen (fuzz_cmd Sample.target Sample.init)]
       ++ launch_polls 2 ++ [ProcPoll; NsLs (ns_data LOG_PATTERN)].
Proof.
  apply (launch_fails_when_exit_precedes_log Sample.never_starts Sample.target 5
           Sample.init 2 1%Z).
  - reflexivity.
  - intros i Hi. destruct i as [|[|i]]; [split; reflexivity|split; reflexivity|lia].
  - reflexivity.
  - reflexivity.
  - lia.
Defined.


Section Monitor.

Variable env : Env.
Variable self : Target.

Local Abbreviation url := (executable_url self).
Local Abbreviation logs := (ns_data LOG_PATTERN).

Lemma monitor_polls_S n :
  monitor_polls self (S n) = monitor_polls self n ++ [DevRunningQuery url; HostSleep 2000].
Proof. induction n; cbn; [reflexivity|]. cbn in IHn. now rewrite IHn. Qed.










End Monitor.



Lemma bind_lift_ok {A B} (a : A) (k : A -> M B) w : bind (lift (Ok a)) k w = k a w.
Proof. reflexivity. Qed.

Section Repro.

Variable env : Env.
Variable self : Target.

Local Abbreviation url := (executable_url self).

Lemma launch_foreground fuel w :
  _foreground w = true ->
  _launch env self fuel w
  = (Ok {| proc_cmd := fuzz_cmd self w; stderr_piped := true |}, launched env self w).
Proof. intros Hfg. rewrite launch_unfold, Hfg. reflexivity. Qed.

(** C4, amended: a reproduce run that reaches the wait of its process.
    The output is symbolized first, and that alone fetches a symbol dump
    when, and only when, the output holds a mutation marker.  If the wait
    returns zero nothing more is done.  If it returns non-zero, the last
    pid seen in the output when it is positive, and otherwise a best
    guess asked from the device, is used to fetch a symbol dump, which is
    symbolized and displayed whatever the output held. *)
Theorem repro_dumps_after_unclean_exit fuel w stored :
  _libfuzzer_inputs w <> [] ->
  let asked := trace w ++ [DevRunningQuery url] in
  remote_running env asked = false ->
  let stored_at := asked ++ [NsStore (ns_data "") (_libfuzzer_inputs w)] in
  remote_store env stored_at = Ok stored ->
  let ready := with_foreground true
                 (with_libfuzzer_inputs stored
                    (with_trace stored_at (with_run_state (Some false) w))) in
  let started := trace (launched env self ready) in
  let lines := iter_readline (proc_stderr env started) in
  exists w' shown,
    let waited := started ++ shown ++ [ProcWait] in
    let rc := proc_wait env waited in
    let seen := last_pid 0 lines in
    let guess := if (seen <=? 0)%Z then [DevGuessPid] else [] in
    let p := if (seen <=? 0)%Z then dev_guess_pid env (waited ++ [DevGuessPid]) else seen in
    let dump := DevDumpLog ["--pid"; Text.str p] in
    let raw := dev_dump_log env (waited ++ guess ++ [dump]) in
    let text := build_symbolize env (waited ++ guess ++ [dump; BuildSymbolize raw]) in
    repro env self fuel w = (Ok tt, w')
    /\ trace w' = waited ++ (if (rc =? 0)%Z then []
                             else guess ++ [dump; BuildSymbolize raw;
                                            HostEcho (Text.strip text)])
    /\ (dump_requests shown <> [] <->
        exists line, In line lines /\ mut_pattern line = true).
Proof.
  intros Hunits asked Hstopped stored_at Hstored ready started lines.
  unfold repro. rewrite bind_gets.
  destruct (_libfuzzer_inputs w) as [|unit units] eqn:Hin; [now elim Hunits|].
  rewrite bind_ret.
  pose proof (require_stopped_spec env self w) as Hreq. cbv zeta in Hreq.
  fold url in Hreq. fold asked in Hreq. rewrite Hstopped in Hreq.
  rewrite (bind_ok _ _ _ _ _ Hreq). clear Hreq.
  unfold repro_stopped.
  rewrite bind_gets, bind_emit, bind_ask.
  cbn [trace with_trace with_run_state _libfuzzer_inputs].
  rewrite Hin. fold stored_at. rewrite Hstored, bind_lift_ok, !bind_modify.
  match goal with
  | |- context [bind (_launch env self fuel) ?k ?W] =>
      assert (HW : W = ready)
        by (subst ready; destruct w; cbn in *; subst; reflexivity);
      rewrite HW; clear HW
  end.
  rewrite (bind_ok _ _ _ _ _ (launch_foreground fuel ready eq_refl)).
  rewrite bind_ask. fold started.
  destruct (symbolize_log_spec env self (proc_stderr env started) 0 true
              (launched env self ready))
    as (w1 & clock & base & loop & Hrun & Ht & Hclock & Hloop & Hdump & _ & Hpid & _).
  fold lines in Hrun, Ht, Hdump, Hpid. fold started in Ht.
  rewrite (bind_ok _ _ _ _ _ Hrun), bind_emit, bind_ask.
  cbn [trace with_trace]. rewrite Ht.
  match type of Ht with _ = started ++ ?evs => set (shown := evs) in * end.
  change (_last_known_pid (launched env self ready)) with 0%Z in Hpid.
  exists (snd ((bind (ret (proc_wait env ((started ++ shown) ++ [ProcWait])))
                 (fun rc => if (rc =? 0)%Z then ret tt else
    p <- gets _last_known_pid ;;
    p <- (if (p <=? 0)%Z then emit DevGuessPid ;; ask (dev_guess_pid env) else ret p) ;;
    emit (DevDumpLog ["--pid"; Text.str p]) ;;
    raw <- ask (dev_dump_log env) ;;
    emit (BuildSymbolize raw) ;;
    s <- ask (build_symbolize env) ;;
    emit (HostEcho (Text.strip s))))
    (with_trace ((started ++ shown) ++ [ProcWait]) w1))), shown.
  cbv zeta. rewrite bind_ret. rewrite <- !app_assoc.
  assert (Hshown : dump_requests shown <> [] <->
                   exists line, In line lines /\ mut_pattern line = true).
  { subst shown. rewrite dump_requests_symbolize_log by exact Hclock.
    rewrite <- Hdump. apply existsb_exists. }
  destruct (proc_wait env _ =? 0)%Z.
  - split; [reflexivity|]. split; [|exact Hshown].
    reflexivity.
  - rewrite bind_gets. cbn [_last_known_pid with_trace]. rewrite Hpid.
    destruct (last_pid 0 lines <=? 0)%Z.
    + rewrite bind_assoc, bind_emit, bind_ask, bind_emit, bind_ask, bind_emit, bind_ask.
      unfold emit, modify. cbn [trace snd with_trace]. rewrite <- !app_assoc. cbn [app].
      split; [reflexivity|]. split; [reflexivity|exact Hshown].
    + rewrite bind_ret, bind_emit, bind_ask, bind_emit, bind_ask.
      unfold emit, modify. cbn [trace snd with_trace]. rewrite <- !app_assoc. cbn [app].
      split; [reflexivity|]. split; [reflexivity|exact Hshown].
Qed.

End Repro.

Lemma repro_dumps_after_unclean_exit_witness :
  exists w' shown,
    repro Sample.crashing Sample.target 0 Sample.with_units = (Ok tt, w')
    /\ dump_requests shown = []
    /\ dump_requests (events_since Sample.with_units w') = [["--pid"; "123"]]
    /\ symbolizer_runs (events_since Sample.with_units w') = ["raw"].
Proof.
  destruct (repro_dumps_after_unclean_exit Sample.crashing Sample.target 0
              Sample.with_units ["data/crash-deadbeef"; "data/oom-feedface"])
    as (w' & shown & Hrun & Ht & Hdump).
  - discriminate.
  - reflexivity.
  - reflexivity.
  - exists w', shown. split; [exact Hrun|]. split.
    + destruct (dump_requests shown) as [|d ds] eqn:Hd; [reflexivity|].
      destruct Hdump as [Hdump _].
      destruct Hdump as (marker & [<-|[]] & Hm); [discriminate|]. discriminate Hm.
    + assert (Hw : w' = snd (repro Sample.crashing Sample.target 0 Sample.with_units))
        by (now rewrite Hrun).
      rewrite Hw. split; vm_compute; reflexivity.
Defined.

(** C4 as stated fails: the output holds a mutation marker, the wait
    returns zero, and yet a symbol dump was fetched, by [symbolize_log]. *)
Lemma clean_exit_after_marker_still_dumps :
  let env := Sample.marker_then_clean_exit in
  let w' := snd (repro env Sample.target 0 Sample.with_units) in
  fst (repro env Sample.target 0 Sample.with_units) = Ok tt
  /\ proc_wait env (trace w') = 0%Z
  /\ last (trace w') ClockNow = ProcWait
  /\ dump_requests (events_since Sample.with_units w') = [["--pid"; "7"]].
Proof. vm_compute. repeat split. Qed.


Import Glob.

(** ** The log pattern *)







Lemma os_path_join_inj out a b :
  prefix "/" a = false -> prefix "/" b = false ->
  os_path_join out a = os_path_join out b -> a = b.
Proof.
  unfold os_path_join. intros -> ->.
  destruct ((out =? "")%string || ends_with_slash out); intros H.
  - now apply append_inv_head in H.
  - apply append_inv_head in H. now apply (append_inv_head "/") in H.
Qed.





(* ================================================================= *)
(** * More of the class *)

(** ** Numbers in text *)

Lemma int_acc_uint_pos d : forall acc,
  Text.int_acc (Z.pos acc) (NilEmpty.string_of_uint d) = Z.pos (Pos.of_uint_acc d acc).
Proof.
  induction d; intros acc; cbn [NilEmpty.string_of_uint Text.int_acc Pos.of_uint_acc];
    try reflexivity; rewrite <- IHd; f_equal;
    match goal with
    | |- context [Z.of_nat (Text.code ?c)] =>
        let v := eval vm_compute in (Z.of_nat (Text.code c)) in
        change (Z.of_nat (Text.code c)) with v
    end; lia.
Qed.

Lemma int_acc_uint d :
  Text.int_acc 0 (NilEmpty.string_of_uint d) = Z.of_N (Pos.of_uint d).
Proof.
  induction d; cbn [NilEmpty.string_of_uint Text.int_acc Pos.of_uint];
    try reflexivity; try exact IHd; apply int_acc_uint_pos.
Qed.

(** [int(str(n)) == n] for a pid. *)
Lemma int_str n : (0 <= n)%Z -> Text.int (Text.str n) = n.
Proof.
  intros Hn. unfold Text.int, Text.str. destruct n as [|p|p]; [reflexivity| |lia].
  cbn [Z.to_int NilZero.string_of_int]. unfold NilZero.string_of_uint.
  pose proof (DecimalPos.Unsigned.to_uint_nonnil p) as Hnil.
  pose proof (DecimalPos.Unsigned.of_to p) as Hof.
  destruct (Pos.to_uint p) eqn:Hd; [now elim Hnil| ..];
    rewrite int_acc_uint, Hof; reflexivity.
Qed.

Lemma str_inj n m : (0 <= n)%Z -> (0 <= m)%Z -> Text.str n = Text.str m -> n = m.
Proof.
  intros Hn Hm H. rewrite <- (int_str n Hn), <- (int_str m Hm). now rewrite H.
Qed.

Lemma span_digits_uint d rest :
  match rest with String c _ => Text.is_digit c = false | EmptyString => True end ->
  Text.span Text.is_digit (NilEmpty.string_of_uint d ++ rest)%string
  = (NilEmpty.string_of_uint d, rest).
Proof.
  intros Hrest.
  induction d; cbn [NilEmpty.string_of_uint];
    try (change (String ?c ?s ++ rest)%string with (String c (s ++ rest)%string);
         cbn [Text.span]; rewrite IHd; reflexivity).
  change (EmptyString ++ rest)%string with rest.
  destruct rest as [|c r]; [reflexivity|]. cbn [Text.span]. now rewrite Hrest.
Qed.

Lemma str_uint n : (0 <= n)%Z ->
  exists d, Text.str n = NilEmpty.string_of_uint d /\ d <> Decimal.Nil.
Proof.
  intros Hn. unfold Text.str. destruct n as [|p|p]; [| |lia].
  - exists (Decimal.D0 Decimal.Nil). split; [reflexivity|discriminate].
  - exists (Pos.to_uint p). cbn [Z.to_int NilZero.string_of_int].
    pose proof (DecimalPos.Unsigned.to_uint_nonnil p) as Hnil. split; [|exact Hnil].
    unfold NilZero.string_of_uint. destruct (Pos.to_uint p); [now elim Hnil|reflexivity..].
Qed.

(** A pid line as the sanitizers print it is read back. *)
Lemma pid_pattern_str n rest : (0 <= n)%Z ->
  Text.pid_pattern ("==" ++ Text.str n ++ "==" ++ rest)%string = Some (Text.str n).
Proof.
  intros Hn. destruct (str_uint n Hn) as (d & Hd & Hnil). rewrite Hd.
  unfold Text.pid_pattern.
  change ("==" ++ rest)%string with (String "="%char (String "="%char rest)).
  change ("==" ++ ?x)%string with (String "="%char (String "="%char x)).
  cbv iota beta.
  rewrite (span_digits_uint d (String "="%char (String "="%char rest))) by reflexivity.
  destruct d; [now elim Hnil|cbn [NilEmpty.string_of_uint]; cbn; destruct rest; reflexivity..].
Qed.

(** ** The symbolized log *)

Import Stream.

Lemma same_events w a b X Y :
  with_trace (trace w ++ a) X = with_trace (trace w ++ b) Y -> a = b.
Proof.
  intros H. apply (f_equal trace) in H. cbn in H. now apply app_inv_head in H.
Qed.


Section Stream.

Variable env : Env.
Variable self : Target.

(** One line, in full: what is written and shown, and the pid a dump
    is asked for. *)
Lemma symbolize_line_texts fd_out echo line v w :
  let p1 := match pid_pattern line with Some g => Text.int g | None => pid v end in
  let fire := mut_pattern line && negb (truthy (sym v)) in
  exists v' evs,
    symbolize_line env fd_out echo line v w =
      (Ok v', with_trace (trace w ++ evs)
                (with_last_known_pid (last_pid (_last_known_pid w) [line]) w))
    /\ writes evs = map (pair fd_out)
                      ((if fire then match sym v' with Some s => [s] | None => [] end
                        else []) ++ [line])
    /\ echoes evs = (if echo then map Text.strip (map snd (writes evs)) else [])
    /\ (fire = false -> sym v' = sym v /\ dump_requests evs = [])
    /\ (fire = true -> exists h, sym v' = Some (build_symbolize env h))
    /\ (mut_pattern line = false -> pid v' = p1)
    /\ (fire = true -> dump_requests evs = [["--pid"; Text.str (pid v')]])
    /\ (mut_pattern line = true -> (0 < p1)%Z -> pid v' = p1)
    /\ (mut_pattern line = true -> (p1 <= 0)%Z ->
        exists h, pid v' = dev_guess_pid env (h ++ [DevGuessPid])).
Proof.
  destruct w.
  unfold symbolize_line, last_pid. cbn [fold_left].
  destruct (pid_pattern line) as [g|]; destruct (mut_pattern line);
    destruct (art_pattern line) as [a|]; destruct echo; cbn.
  all: try (destruct (Text.int g <=? 0)%Z eqn:Hp; cbn).
  all: try (destruct (pid v <=? 0)%Z eqn:Hp; cbn).
  all: destruct (truthy (sym v)); cbn.
  all: rewrite <- ?app_assoc; cbn [app].
  all: eexists; eexists; split; [reflexivity|].
  all: cbn.
  all: repeat (split; [try reflexivity; try discriminate|]); try discriminate.
  all: try (intros _; eexists; reflexivity).
  all: try (intros _; split; reflexivity).
  all: try reflexivity.
  all: try (intros _ H; apply Z.leb_gt in Hp; lia).
  all: try (intros _ H; apply Z.leb_le in Hp; lia).
  all: try (intros _ _; eexists; reflexivity).
Qed.



(** The loop writes to [fd_out] only, and shows what it writes. *)
Lemma symbolize_lines_echo fd_out echo lines : forall v w,
  exists v' evs,
    symbolize_lines env fd_out echo lines v w =
      (Ok v', with_trace (trace w ++ evs)
                (with_last_known_pid (last_pid (_last_known_pid w) lines) w))
    /\ Forall (fun pt => fst pt = fd_out) (writes evs)
    /\ echoes evs = (if echo then map Text.strip (map snd (writes evs)) else []).
Proof.
  induction lines as [|line lines IH]; intros v w.
  - exists v, []. destruct w; cbn. rewrite app_nil_r.
    split; [reflexivity|]. split; [constructor|]. now destruct echo.
  - destruct (symbolize_line_texts fd_out echo line v w)
      as (v1 & e1 & Hrun & Hw & He & _).
    destruct (IH v1 (with_trace (trace w ++ e1)
                (with_last_known_pid (last_pid (_last_known_pid w) [line]) w)))
      as (v2 & e2 & Hrun2 & Hw2 & He2).
    exists v2, (e1 ++ e2). split.
    { cbn [symbolize_lines]. rewrite (bind_ok _ _ _ _ _ Hrun), Hrun2.
      destruct w; cbn. now rewrite <- app_assoc. }
    unfold writes, echoes in *. rewrite !flat_map_app. split.
    + apply Forall_app. split; [|exact Hw2]. rewrite Hw.
      apply Forall_forall. intros pt Hin. apply in_map_iff in Hin.
      destruct Hin as (t & <- & _). reflexivity.
    + rewrite He, He2. destruct echo; [|reflexivity]. now rewrite !map_app.
Qed.




Lemma symbolize_log_loop fd_in job echo w :
  let lines := iter_readline fd_in in
  let out := output_path env self w in
  exists w1 w2 base v loop,
    symbolize_log env self fd_in job echo w = (Ok (existsb mut_pattern lines), w1)
    /\ (trace w2 = trace w ++ [HostOpen (logfile_path out base job) "w"]
        \/ trace w2 = trace w ++ [ClockNow; HostOpen (logfile_path out base job) "w"])
    /\ symbolize_lines env (logfile_path out base job) echo lines (mkVars (-1) None []) w2
       = (Ok v, with_trace (trace w2 ++ loop)
                  (with_last_known_pid (last_pid (_last_known_pid w2) lines) w2))
    /\ Forall (fun e => loop_event e = true) loop
    /\ trace w1 = trace w2 ++ loop ++ artifact_fetch out lines
                    ++ [HostLink (logfile_path out base job)
                                 (os_path_join out "fuzz-latest.log")].
Proof.
  intros lines out. unfold symbolize_log.
  destruct (logfile_spec env self job w) as (w1 & clock & base & Hrun1 & Ht1 & Hclock & Ho1 & Hk1).
  rewrite (bind_ok _ _ _ _ _ Hrun1). fold out.
  set (path := logfile_path out base job).
  unfold bind at 1. unfold emit at 1, modify at 1.
  set (w2 := with_trace (trace w1 ++ [HostOpen path "w"]) w1).
  unfold _symbolize_log_impl. fold lines.
  destruct (symbolize_lines_spec env path echo lines (mkVars (-1) None []) w2)
    as (v & loop & Hrun & Hloop & Hart & Hsym & _).
  assert (Ho2 : output_path env self w2 = out) by (subst w2 out; rewrite <- Ho1; reflexivity).
  assert (Hfound : match sym v with None => false | Some _ => true end
                   = existsb mut_pattern lines) by apply Hsym.
  rewrite !bind_assoc, (bind_ok _ _ _ _ _ Hrun).
  cbn [artifacts app] in Hart. unfold artifact_fetch. rewrite <- Hart.
  set (w3 := with_trace (trace w2 ++ loop)
               (with_last_known_pid (last_pid (_last_known_pid w2) lines) w2)) in *.
  assert (Ho3 : output_path env self w3 = out) by (rewrite <- Ho2; reflexivity).
  destruct (artifacts v) as [|a l].
  - rewrite bind_assoc, bind_ret, bind_ret, (bind_ok _ _ _ _ _ (output_spec env self _)).
    rewrite Ho3, Hfound.
    unfold bind, emit, modify, ret.
    eexists; exists w2, base, v, loop. split; [reflexivity|].
    split.
    { subst w2. cbn [trace with_trace]. rewrite Ht1.
      destruct Hclock as [-> | ->]; [left|right]; now rewrite <- ?app_assoc. }
    split; [exact Hrun|]. split; [exact Hloop|].
    cbn [trace with_trace with_output]. subst w3. cbn [trace with_trace].
    now rewrite <- !app_assoc.
  - rewrite !bind_assoc, (bind_ok _ _ _ _ _ (output_spec env self _)).
    rewrite Ho3. rewrite bind_emit, bind_ret.
    match goal with
    | |- context [bind (output env self) ?k ?w'] =>
        rewrite (bind_ok _ k w' _ _ (output_spec env self w'))
    end.
    assert (Ho4 : forall t, output_path env self
                    (with_trace t (with_output (Some out) w3)) = out).
    { intros t. change (output_path env self (with_output (Some out) w3) = out).
      rewrite <- Ho3 at 1. rewrite (output_path_with_output env self w3). exact Ho3. }
    unfold emit at 1, modify at 1. rewrite Ho4.
    unfold bind, emit, modify, ret. rewrite Hfound.
    eexists; exists w2, base, v, loop. split; [reflexivity|].
    split.
    { subst w2. cbn [trace with_trace]. rewrite Ht1.
      destruct Hclock as [-> | ->]; [left|right]; now rewrite <- ?app_assoc. }
    split; [exact Hrun|]. split; [exact Hloop|].
    cbn [trace with_trace with_output]. subst w3. cbn [trace with_trace].
    rewrite <- !app_assoc. reflexivity.
Qed.


(** What [symbolize_log] adds to the history, seen through any view that
    ignores the clock and the link. *)
Lemma symbolize_log_view fd_in job echo w :
  let lines := iter_readline fd_in in
  let out := output_path env self w in
  exists w2 base v loop,
    let path := logfile_path out base job in
    symbolize_lines env path echo lines (mkVars (-1) None []) w2
      = (Ok v, with_trace (trace w2 ++ loop)
                 (with_last_known_pid (last_pid (_last_known_pid w2) lines) w2))
    /\ Forall (fun e => loop_event e = true) loop
    /\ forall B (f : Event -> list B),
         f ClockNow = [] -> (forall a b, f (HostLink a b) = []) ->
         flat_map f (events_since w (snd (symbolize_log env self fd_in job echo w)))
         = f (HostOpen path "w") ++ flat_map f loop
           ++ flat_map f (artifact_fetch out lines).
Proof.
  intros lines out.
  destruct (symbolize_log_loop fd_in job echo w)
    as (w1 & w2 & base & v & loop & Hrun & Ht2 & Hlines & Hloop & Ht1).
  exists w2, base, v, loop. split; [exact Hlines|]. split; [exact Hloop|].
  intros B f Hclock Hlink.
  rewrite Hrun. cbn [snd].
  destruct Ht2 as [Ht2 | Ht2]; rewrite Ht2 in Ht1; rewrite <- !app_assoc in Ht1;
    rewrite (events_since_app _ _ _ Ht1); cbn [app flat_map];
    rewrite ?Hclock; cbn [app]; rewrite !flat_map_app; cbn [flat_map];
    rewrite Hlink, !app_nil_r; reflexivity.
Qed.



(** X2: [symbolize_log] shows the user exactly what it writes to the
    symbolized log, text by text and stripped of surrounding white
    space, when [echo] is set, and nothing at all when it is not. *)
Theorem symbolize_log_echoes_what_it_writes fd_in job_num echo w :
  let evs := events_since w (snd (symbolize_log env self fd_in job_num echo w)) in
  echoes evs = if echo then map Text.strip (written evs) else [].
Proof.
  destruct (symbolize_log_view fd_in job_num echo w)
    as (w2 & base & v & loop & Hlines & Hloop & Hview).
  set (path := logfile_path (output_path env self w) base job_num) in *.
  destruct (symbolize_lines_echo path echo (iter_readline fd_in)
              (mkVars (-1) None []) w2)
    as (v3 & evs & Hrun & _ & He).
  rewrite Hlines in Hrun. apply (f_equal snd) in Hrun. cbn [snd] in Hrun.
  apply same_events in Hrun. subst evs.
  cbv zeta. unfold echoes, written, writes in *.
  rewrite !Hview by reflexivity. rewrite He. unfold artifact_fetch.
  assert (Hsnd : forall l, map snd (flat_map (fun e => match e with
                                               | FdWrite p t => [(p, t)]
                                               | _ => []
                                               end) l)
                           = flat_map (fun e => match e with
                                                | FdWrite _ t => [t]
                                                | _ => []
                                                end) l).
  { induction l as [|[] l IH]; cbn; congruence. }
  rewrite Hsnd.
  destruct (artifact_paths _); cbn [flat_map app]; now rewrite !app_nil_r.
Qed.


Lemma last_pid_app p a b : last_pid p (a ++ b) = last_pid (last_pid p a) b.
Proof. unfold last_pid. apply fold_left_app. Qed.

Lemma last_pid_none post : forall p,
  forallb (fun l => negb (is_some (pid_pattern l))) post = true ->
  last_pid p post = p.
Proof.
  induction post as [|l post IH]; intros p H; [reflexivity|].
  cbn [forallb] in H. apply andb_prop in H. destruct H as [Hl H].
  rewrite last_pid_cons, (IH _ H). unfold last_pid. cbn [fold_left].
  now destruct (pid_pattern l).
Qed.

(** X4: a pid line [==<n>==...] that no other pid line follows in
    the stream leaves [n] as the last known pid of the fuzzer, whatever
    was known before. *)
Theorem symbolize_log_records_last_pid_line fd_in job_num echo w pre n rest post :
  iter_readline fd_in
    = pre ++ ("==" ++ Text.str (Z.of_nat n) ++ "==" ++ rest)%string :: post ->
  forallb (fun l => negb (is_some (pid_pattern l))) post = true ->
  _last_known_pid (snd (symbolize_log env self fd_in job_num echo w)) = Z.of_nat n.
Proof.
  intros Hsplit Hpost.
  destruct (symbolize_log_spec env self fd_in job_num echo w)
    as (w1 & clock & base & loop & Hrun & _ & _ & _ & _ & _ & Hpid & _).
  rewrite Hrun. cbn [snd]. rewrite Hpid, Hsplit.
  rewrite last_pid_app, last_pid_cons, (last_pid_none _ _ Hpost).
  unfold last_pid at 1. cbn [fold_left].
  rewrite pid_pattern_str by lia. apply int_str. lia.
Qed.

Lemma no_space_span s :
  no_space (fst (Text.span (fun c => negb (Text.is_space c)) s)) = true.
Proof.
  induction s as [|c s IH]; [reflexivity|]. cbn [Text.span].
  destruct (negb (Text.is_space c)) eqn:Hc; [|reflexivity].
  destruct (Text.span _ s). cbn [fst no_space] in *. now rewrite Hc, IH.
Qed.

Lemma art_pattern_shape line g :
  art_pattern line = Some g -> prefix "data/" g && no_space g = true.
Proof.
  induction line as [|c line IH].
  - unfold art_pattern. cbn. discriminate.
  - intros H.
    assert (Hstep : art_pattern (String c line)
                    = if prefix art_marker (String c line)
                      then Some ("data/" ++ fst (Text.span (fun c => negb (Text.is_space c))
                                                  (Text.drop 26 (String c line))))%string
                      else art_pattern line) by reflexivity.
    rewrite Hstep in H. destruct (prefix art_marker (String c line)); [|now apply IH].
    injection H as <-.
    set (tail := fst _). 
    assert (Htail : no_space tail = true) by apply no_space_span.
    change ("data/" ++ tail)%string
      with (String "d" (String "a" (String "t" (String "a" (String "/" tail))))).
    cbn. destruct tail; exact Htail.
Qed.

Lemma artifact_paths_shape lines :
  forallb (fun p => prefix "data/" p && no_space p) (artifact_paths lines) = true.
Proof.
  unfold artifact_paths.
  induction lines as [|line lines IH]; [reflexivity|].
  cbn [flat_map]. rewrite forallb_app, IH, andb_true_r.
  destruct (art_pattern line) as [g|] eqn:Hg; [|reflexivity].
  cbn [forallb]. now rewrite (art_pattern_shape _ _ Hg).
Qed.

(** X5: every artifact [symbolize_log] fetches is a path under
    [data/] without white space, and it is fetched into the output
    directory of the fuzzer. *)
Theorem symbolize_log_fetches_data_paths_only fd_in job_num echo w :
  forallb (fun r => (fst r =? output_path env self w)%string
                    && forallb (fun p => prefix "data/" p && no_space p) (snd r))
          (fetch_requests (events_since w (snd (symbolize_log env self fd_in job_num echo w))))
  = true.
Proof.
  destruct (symbolize_log_view fd_in job_num echo w)
    as (w2 & base & v & loop & Hlines & Hloop & Hview).
  unfold fetch_requests. rewrite Hview by reflexivity.
  rewrite (flat_map_loop_events _ loop) by (try exact Hloop; now intros []).
  cbn [app]. unfold artifact_fetch.
  pose proof (artifact_paths_shape (iter_readline fd_in)) as Hshape.
  destruct (artifact_paths (iter_readline fd_in)) as [|a l]; [reflexivity|].
  cbn [flat_map app forallb fst snd]. cbn [forallb] in Hshape.
  now rewrite String.eqb_refl, Hshape.
Qed.

End Stream.



Lemma symbolize_log_records_last_pid_line_witness :
  _last_known_pid
    (snd (symbolize_log Sample.quiet Sample.target
            [Sample.line "A line"; Sample.line "==123== INFO: libFuzzer starting.";
             Sample.line "Another line"]
            0 false Sample.init))
  = 123%Z.
Proof.
  apply (symbolize_log_records_last_pid_line Sample.quiet Sample.target _ 0 false
           Sample.init [Sample.line "A line"] 123
           (Sample.line " INFO: libFuzzer starting.") [Sample.line "Another line"]).
  - reflexivity.
  - reflexivity.
Defined.

(** ** Log files and launches *)

Section LogFiles.

Variable env : Env.
Variable self : Target.

Lemma logfile_path_inj out base i j :
  logfile_path out base i = logfile_path out base j -> i = j.
Proof.
  unfold logfile_path. intros H.
  apply os_path_join_inj in H; [|reflexivity..].
  apply (append_inv_head "fuzz-") in H. apply append_inv_head in H.
  apply (append_inv_head "-") in H.
  assert (Hlen : String.length (Text.str (Z.of_nat i))
                 = String.length (Text.str (Z.of_nat j))).
  { apply (f_equal String.length) in H. rewrite !length_append in H. lia. }
  apply append_inv_tail in H; [|exact Hlen].
  apply str_inj in H; lia.
Qed.

(** X6: when the clock never prints an empty time stamp, the
    stamp is taken once: after a first [logfile], a second one for
    another job reads no clock and changes nothing, and the two jobs get
    different files in the same output directory. *)
Theorem logfile_gives_each_job_its_own_file i j w :
  (forall h, clock_strftime env h <> EmptyString) ->
  i <> j ->
  exists base w1,
    let out := output_path env self w in
    logfile env self i w = (Ok (logfile_path out base i), w1)
    /\ logfile env self j w1 = (Ok (logfile_path out base j), w1)
    /\ logfile_path out base i <> logfile_path out base j.
Proof.
  intros Hclock Hij.
  assert (Hne : forall out base, logfile_path out base i <> logfile_path out base j)
    by (intros out base H; apply Hij; exact (logfile_path_inj _ _ _ _ H)).
  unfold logfile, output, output_path.
  destruct w as [t rs pp o lo li sa d f [[|c r]|] [[|c' r']|] lk]; cbn;
    try (pose proof (Hclock (t ++ [ClockNow])) as Hc;
         destruct (clock_strftime env (t ++ [ClockNow])) as [|c0 r0] eqn:Hnow;
         [now elim Hc|]);
    try destruct (buildenv_abspath env _) eqn:Hp; cbn.
  all: eexists; eexists; split; [reflexivity|]; cbn; rewrite ?Hp; cbn.
  all: split; [reflexivity|apply Hne].
Qed.

End LogFiles.

Lemma logfile_gives_each_job_its_own_file_witness :
  exists base w1,
    let out := output_path Sample.quiet Sample.target Sample.init in
    logfile Sample.quiet Sample.target 0 Sample.init = (Ok (logfile_path out base 0), w1)
    /\ logfile Sample.quiet Sample.target 1 w1 = (Ok (logfile_path out base 1), w1)
    /\ logfile_path out base 0 <> logfile_path out base 1.
Proof.
  apply (logfile_gives_each_job_its_own_file Sample.quiet Sample.target 0 1 Sample.init).
  - intros h. vm_compute. discriminate.
  - lia.
Defined.

Import Options.

Lemma dict_set_get_eq k v d : dict_get k (dict_set k v d) = Some v.
Proof.
  induction d as [|[k' v'] d IH]; cbn; [now rewrite String.eqb_refl|].
  destruct (k' =? k)%string eqn:Hk; cbn; [now rewrite String.eqb_refl|].
  now rewrite Hk.
Qed.

Lemma dict_set_get_neq k k' v d :
  k' <> k -> dict_get k' (dict_set k v d) = dict_get k' d.
Proof.
  intros Hne.
  assert (Hkk : (k =? k')%string = false) by (apply String.eqb_neq; congruence).
  induction d as [|[k0 v0] d IH]; cbn.
  - now rewrite Hkk.
  - destruct (k0 =? k)%string eqn:Hk; cbn.
    + apply String.eqb_eq in Hk. subst k0. now rewrite Hkk.
    + destruct (k0 =? k')%string; [reflexivity|exact IH].
Qed.

Lemma dict_get_in k v d : dict_get k d = Some v -> In (k, v) d.
Proof.
  induction d as [|[k0 v0] d IH]; cbn; [discriminate|].
  destruct (k0 =? k)%string eqn:Hk.
  - apply String.eqb_eq in Hk. intros [= ->]. left. now subst.
  - intros H. right. now apply IH.
Qed.

Lemma dict_get_none k d : dict_get k d = None -> ~ In k (map fst d).
Proof.
  induction d as [|[k0 v0] d IH]; cbn; [tauto|].
  destruct (k0 =? k)%string eqn:Hk; [discriminate|].
  apply String.eqb_neq in Hk. intros H [Heq|Hin]; [now apply Hk|now apply IH].
Qed.

Lemma in_dict_get k v d : NoDup (map fst d) -> In (k, v) d -> dict_get k d = Some v.
Proof.
  induction d as [|[k0 v0] d IH]; cbn; [tauto|].
  intros Hnd [Heq|Hin].
  - injection Heq as -> ->. now rewrite String.eqb_refl.
  - inversion Hnd as [|? ? Hnot Hnd']; subst.
    destruct (k0 =? k)%string eqn:Hk; [|now apply IH].
    apply String.eqb_eq in Hk. subst k0. elim Hnot.
    apply in_map_iff. now exists (k, v).
Qed.

Lemma dict_set_keys k v d :
  In k (map fst d) /\ map fst (dict_set k v d) = map fst d
  \/ ~ In k (map fst d) /\ map fst (dict_set k v d) = map fst d ++ [k].
Proof.
  induction d as [|[k0 v0] d IH]; cbn; [right; tauto|].
  destruct (k0 =? k)%string eqn:Hk; cbn.
  - apply String.eqb_eq in Hk. subst. left. tauto.
  - apply String.eqb_neq in Hk.
    destruct IH as [[Hin ->] | [Hnot ->]]; [left; tauto|right].
    split; [|reflexivity]. intros [H|H]; [now apply Hk|now apply Hnot].
Qed.

Lemma dict_set_nodup k v d : NoDup (map fst d) -> NoDup (map fst (dict_set k v d)).
Proof.
  intros Hnd. destruct (dict_set_keys k v d) as [[_ ->] | [Hnot ->]]; [exact Hnd|].
  apply NoDup_app; [exact Hnd|repeat constructor; intros []|].
  intros x Hx [<-|[]]. now apply Hnot.
Qed.

Lemma dict_update_nodup other : forall d,
  NoDup (map fst d) -> NoDup (map fst (dict_update d other)).
Proof.
  unfold dict_update.
  induction other as [|[k v] other IH]; intros d Hnd; [exact Hnd|].
  cbn [fold_left fst snd]. apply IH. now apply dict_set_nodup.
Qed.

Lemma dict_update_keeps k other : forall d,
  ~ In k (map fst other) -> dict_get k (dict_update d other) = dict_get k d.
Proof.
  unfold dict_update.
  induction other as [|[k0 v0] other IH]; intros d Hnot; [reflexivity|].
  cbn [fold_left fst snd]. cbn in Hnot. rewrite IH by tauto.
  apply dict_set_get_neq. intros ->. tauto.
Qed.

(** [d.update(other)] lets the bindings of [other] win. *)
Lemma dict_update_wins k v other : forall d,
  NoDup (map fst other) -> In (k, v) other ->
  dict_get k (dict_update d other) = Some v.
Proof.
  induction other as [|[k0 v0] other IH]; intros d Hnd Hin; [destruct Hin|].
  inversion Hnd as [|? ? Hnot Hnd']; subst.
  change (dict_update d ((k0, v0) :: other))
    with (dict_update (dict_set k0 v0 d) other).
  destruct Hin as [Heq|Hin].
  - injection Heq as -> ->. rewrite dict_update_keeps by exact Hnot.
    apply dict_set_get_eq.
  - now apply IH.
Qed.

Lemma insert_item_in x a l : In x (insert_item a l) <-> x = a \/ In x l.
Proof.
  induction l as [|b l IH]; cbn; [intuition congruence|].
  destruct (item_leb a b); cbn; [intuition congruence|].
  rewrite IH. intuition congruence.
Qed.

(** [sorted] keeps the items. *)
Lemma sorted_items_in x d : In x (sorted_items d) <-> In x d.
Proof.
  unfold sorted_items. induction d as [|a d IH]; cbn; [tauto|].
  rewrite insert_item_in, IH. intuition congruence.
Qed.

Section Launching.

Variable env : Env.
Variable self : Target.

Local Abbreviation logs := (ns_data LOG_PATTERN).

(** The loop of [_launch] leaves at the first listing that shows a
    log, if no poll before it found the process gone. *)
Lemma wait_for_log_found n : forall fuel w,
  n < fuel ->
  (forall i, i < n ->
     proc_poll env (trace w ++ launch_polls i ++ [ProcPoll]) = None
     /\ remote_ls env (trace w ++ launch_polls i ++ [ProcPoll; NsLs logs]) = []) ->
  proc_poll env (trace w ++ launch_polls n ++ [ProcPoll]) = None ->
  remote_ls env (trace w ++ launch_polls n ++ [ProcPoll; NsLs logs]) <> [] ->
  wait_for_log env fuel logs w
  = (Ok tt, with_trace (trace w ++ launch_polls n ++ [ProcPoll; NsLs logs]) w).
Proof.
  induction n as [|n IH]; intros fuel w Hfuel Hquiet Hpoll Hlog;
    (destruct fuel as [|fuel]; [lia|]); cbn [wait_for_log].
  - cbn in Hpoll, Hlog. unfold bind at 1 2, emit at 1, modify at 1, ask at 1, gets at 1.
    cbn [trace with_trace]. rewrite Hpoll.
    unfold bind at 1 2, emit at 1, modify at 1, ask at 1, gets at 1. cbn [trace with_trace].
    rewrite <- app_assoc. cbn [app].
    destruct (remote_ls env (trace w ++ [ProcPoll; NsLs logs])); [now elim Hlog|].
    destruct w; reflexivity.
  - destruct (Hquiet 0 ltac:(lia)) as [Hp Hl]. cbn in Hp, Hl.
    unfold bind at 1 2, emit at 1, modify at 1, ask at 1, gets at 1. cbn [trace with_trace].
    rewrite Hp.
    unfold bind at 1 2, emit at 1, modify at 1, ask at 1, gets at 1. cbn [trace with_trace].
    rewrite <- app_assoc. cbn [app]. rewrite Hl.
    unfold bind at 1, emit at 1, modify at 1. cbn [trace with_trace].
    rewrite <- app_assoc. cbn [app].
    rewrite (IH fuel _).
    + destruct w; cbn. now rewrite <- !app_assoc.
    + lia.
    + intros i Hi. destruct (Hquiet (S i) ltac:(lia)) as [Hp' Hl'].
      cbn [trace with_trace]. rewrite <- !app_assoc. exact (conj Hp' Hl').
    + cbn [trace with_trace]. rewrite <- !app_assoc. exact Hpoll.
    + cbn [trace with_trace]. rewrite <- !app_assoc. exact Hlog.
Qed.

(** X7: a background launch whose process is still alive when a
    listing first shows a log, and whose log is still listed right
    after, succeeds: it returns the process it started, having slept
    half a second after each listing that showed nothing. *)
Theorem launch_succeeds_when_log_precedes_exit fuel w n :
  _foreground w = false ->
  let started := trace (launched env self w) in
  (forall i, i < n ->
     proc_poll env (started ++ launch_polls i ++ [ProcPoll]) = None
     /\ remote_ls env (started ++ launch_polls i ++ [ProcPoll; NsLs logs]) = []) ->
  proc_poll env (started ++ launch_polls n ++ [ProcPoll]) = None ->
  remote_ls env (started ++ launch_polls n ++ [ProcPoll; NsLs logs]) <> [] ->
  remote_ls env (started ++ launch_polls n ++ [ProcPoll; NsLs logs; NsLs logs]) <> [] ->
  n < fuel ->
  fst (_launch env self fuel w)
  = Ok {| proc_cmd := fuzz_cmd self w; stderr_piped := false |}
  /\ events_since w (snd (_launch env self fuel w))
     = [HostMkdir (output_path env self w); DevSshPopen (fuzz_cmd self w)]
       ++ launch_polls n ++ [ProcPoll; NsLs logs; NsLs logs].
Proof.
  intros Hbg started Hquiet Hpoll Hlog Hstill Hfuel.
  rewrite launch_unfold, Hbg. cbv zeta.
  rewrite (bind_ok _ _ _ _ _ (wait_for_log_found n fuel _ Hfuel Hquiet Hpoll Hlog)).
  fold started. rewrite bind_emit, bind_ask.
  cbn [trace with_trace]. rewrite <- !app_assoc. cbn [app].
  destruct (remote_ls env (started ++ launch_polls n ++ [ProcPoll; NsLs logs; NsLs logs]))
    as [|l ls]; [now elim Hstill|].
  split; [reflexivity|].
  apply events_since_app. subst started. cbn [snd ret trace with_trace launched].
  now rewrite <- !app_assoc.
Qed.

(** Whatever becomes of it, [_launch] starts one process, by the
    command made of the options, the inputs and the arguments, and then
    only polls, lists and sleeps. *)
Lemma wait_for_log_trace fuel : forall w,
  exists r rest,
    wait_for_log env fuel logs w = (r, with_trace (trace w ++ rest) w)
    /\ launches rest = [] /\ remote_removes rest = [].
Proof.
  induction fuel as [|fuel IH]; intros w; cbn [wait_for_log].
  - exists OutOfFuel, []. destruct w; cbn. now rewrite app_nil_r.
  - unfold bind at 1 2, emit at 1, modify at 1, ask at 1, gets at 1. cbn [trace with_trace].
    destruct (proc_poll env (trace w ++ [ProcPoll])).
    + exists (Ok tt), [ProcPoll]. destruct w; repeat split; reflexivity.
    + unfold bind at 1 2, emit at 1, modify at 1, ask at 1, gets at 1.
      cbn [trace with_trace].
      destruct (remote_ls env _).
      * unfold bind at 1, emit at 1, modify at 1. cbn [trace with_trace].
        destruct (IH (with_trace (((trace w ++ [ProcPoll]) ++ [NsLs logs]) ++ [HostSleep 500])
                        (with_trace ((trace w ++ [ProcPoll]) ++ [NsLs logs])
                           (with_trace (trace w ++ [ProcPoll]) w))))
          as (r & rest & Hrun & Hl & Hr).
        rewrite Hrun. exists r, ([ProcPoll; NsLs logs; HostSleep 500] ++ rest).
        split; [|split; [exact Hl|exact Hr]]. destruct w; cbn. now rewrite <- !app_assoc.
      * exists (Ok tt), [ProcPoll; NsLs logs]. split; [|split; reflexivity].
        destruct w; cbn. now rewrite <- !app_assoc.
Qed.

Lemma launch_spec fuel w :
  exists r rest,
    _launch env self fuel w
    = (r, with_trace (trace (launched env self w) ++ rest) (launched env self w))
    /\ launches rest = [] /\ remote_removes rest = [].
Proof.
  rewrite launch_unfold.
  destruct (_foreground w).
  - eexists; exists []. unfold ret. rewrite app_nil_r.
    split; [|split; reflexivity]. destruct w; reflexivity.
  - cbv zeta.
    destruct (wait_for_log_trace fuel (launched env self w)) as (r & rest & Hrun & Hl & Hr).
    unfold bind at 1. rewrite Hrun.
    destruct r as [[]| |].
    + rewrite bind_emit, bind_ask. cbn [trace with_trace].
      destruct (remote_ls env _); eexists; exists (rest ++ [NsLs logs]);
        (split; [unfold host_error, raise, ret; rewrite app_assoc;
                 destruct w; reflexivity|]);
        unfold launches, remote_removes in *; rewrite !flat_map_app, ?Hl, ?Hr;
        split; reflexivity.
    + eexists; exists rest. split; [reflexivity|]. split; assumption.
    + eexists; exists rest. split; [reflexivity|]. split; assumption.
Qed.

Lemma launch_starts_one_command fuel w :
  launches (events_since w (snd (_launch env self fuel w))) = [fuzz_cmd self w].
Proof.
  destruct (launch_spec fuel w) as (r & rest & Hrun & Hl & _).
  rewrite Hrun. cbn [snd].
  rewrite (events_since_app w _
             ([HostMkdir (output_path env self w); DevSshPopen (fuzz_cmd self w)] ++ rest)).
  - unfold launches in *. rewrite flat_map_app, Hl. reflexivity.
  - cbn [trace with_trace launched]. now rewrite <- !app_assoc.
Qed.

(** X8: the libFuzzer options of the user are applied last, so
    they win over the options the launch sets itself: an option the
    user gave is passed to the one process the launch starts, with the
    user's value, and with no other value when the options the fuzzer
    already held name no key twice. *)
Theorem launch_passes_user_options fuel w k v :
  NoDup (map fst (_libfuzzer_opts w)) ->
  In (k, v) (_libfuzzer_opts w) ->
  exists cmd,
    launches (events_since w (snd (_launch env self fuel w))) = [cmd]
    /\ In (option_flag (k, v)) cmd
    /\ (NoDup (map fst (_options w)) ->
        forall v', In (k, v') (launch_options w) -> v' = v).
Proof.
  intros Hnd Hin. exists (fuzz_cmd self w).
  split; [apply launch_starts_one_command|].
  assert (Hget : dict_get k (launch_options w) = Some v)
    by (unfold launch_options; now apply dict_update_wins).
  split.
  - unfold fuzz_cmd. apply in_or_app. right. apply in_or_app. left.
    apply in_map. apply sorted_items_in. now apply dict_get_in.
  - intros Hopts v' Hv'.
    assert (Hall : NoDup (map fst (launch_options w))).
    { unfold launch_options. apply dict_update_nodup.
      assert (Hjobs : NoDup (map fst (if _foreground w then _options w
                                      else dict_set "jobs" "1" (_options w))))
        by (destruct (_foreground w); [exact Hopts|now apply dict_set_nodup]).
      destruct (_debug w); [|exact Hjobs].
      cbn [fold_left DEBUG_OPTIONS]. now repeat apply dict_set_nodup. }
    pose proof (in_dict_get k v' _ Hall Hv') as Hget'. congruence.
Qed.

(** X9: where the user gave no value, the launch passes its
    own: [-jobs=1] in the background, and [-handle_...=0] for each of
    the five signal options when debugging. *)
Theorem launch_passes_defaults_unless_overridden fuel w k v :
  dict_get k (_libfuzzer_opts w) = None ->
  (k = "jobs" /\ v = "1" /\ _foreground w = false
   \/ In k DEBUG_OPTIONS /\ v = "0" /\ _debug w = true)%string ->
  exists cmd,
    launches (events_since w (snd (_launch env self fuel w))) = [cmd]
    /\ In (option_flag (k, v)) cmd.
Proof.
  intros Hnone Hcase. exists (fuzz_cmd self w).
  split; [apply launch_starts_one_command|].
  unfold fuzz_cmd. apply in_or_app. right. apply in_or_app. left.
  apply in_map. apply sorted_items_in. apply dict_get_in.
  unfold launch_options. rewrite dict_update_keeps by now apply dict_get_none.
  destruct Hcase as [(-> & -> & ->) | (Hk & -> & ->)].
  - destruct (_debug w); cbn [fold_left DEBUG_OPTIONS];
      repeat first [apply dict_set_get_eq
                   | rewrite dict_set_get_neq by discriminate].
  - cbn [fold_left DEBUG_OPTIONS].
    destruct Hk as [<-|[<-|[<-|[<-|[<-|[]]]]]];
      repeat first [apply dict_set_get_eq
                   | rewrite dict_set_get_neq by discriminate].
Qed.

End Launching.

Lemma launch_succeeds_when_log_precedes_exit_witness :
  fst (_launch Sample.logging Sample.target 1 Sample.init)
  = Ok {| proc_cmd := fuzz_cmd Sample.target Sample.init; stderr_piped := false |}
  /\ events_since Sample.init (snd (_launch Sample.logging Sample.target 1 Sample.init))
     = [HostMkdir (output_path Sample.logging Sample.target Sample.init);
        DevSshPopen (fuzz_cmd Sample.target Sample.init)]
       ++ launch_polls 0 ++ [ProcPoll; NsLs (ns_data LOG_PATTERN); NsLs (ns_data LOG_PATTERN)].
Proof.
  apply (launch_succeeds_when_log_precedes_exit Sample.logging Sample.target 1
           Sample.init 0).
  - reflexivity.
  - intros i Hi. lia.
  - reflexivity.
  - vm_compute. discriminate.
  - vm_compute. discriminate.
  - lia.
Defined.

Lemma launch_passes_user_options_witness :
  exists cmd,
    launches (events_since Cases.user_jobs
                (snd (_launch Sample.logging Sample.target 1 Cases.user_jobs))) = [cmd]
    /\ In "-jobs=4"%string cmd
    /\ (NoDup (map fst (_options Cases.user_jobs)) ->
        forall v', In ("jobs"%string, v') (launch_options Cases.user_jobs) -> v' = "4"%string).
Proof.
  apply (launch_passes_user_options Sample.logging Sample.target 1 Cases.user_jobs
           "jobs" "4").
  - repeat constructor. intros [].
  - left. reflexivity.
Defined.

Lemma launch_passes_defaults_unless_overridden_witness :
  exists cmd,
    launches (events_since Sample.init_debug
                (snd (_launch Sample.logging Sample.target 1 Sample.init_debug))) = [cmd]
    /\ In "-handle_segv=0"%string cmd.
Proof.
  apply (launch_passes_defaults_unless_overridden Sample.logging Sample.target 1
           Sample.init_debug "handle_segv" "0").
  - reflexivity.
  - right. split; [left; reflexivity|]. split; reflexivity.
Defined.

(** ** Packages *)

Lemma prefix_append a b : prefix a (a ++ b)%string = true.
Proof.
  induction a as [|c a IH]; [now destruct b|].
  change (String c a ++ b)%string with (String c (a ++ b)%string).
  cbn [prefix]. destruct (ascii_dec c c); [exact IH|congruence].
Qed.

Lemma prefix_refl a : prefix a a = true.
Proof.
  induction a as [|c a IH]; [reflexivity|].
  cbn [prefix]. destruct (ascii_dec c c); [exact IH|congruence].
Qed.

Lemma path_group_line p rest :
  one_line p = true ->
  match rest with EmptyString => True | String c _ => c = Text.NL end ->
  path_group (p ++ ")" ++ rest)%string = Some p.
Proof.
  intros Hp Hrest. induction p as [|c p IH].
  - change (EmptyString ++ ")" ++ rest)%string with (String ")"%char rest).
    cbn [path_group]. change (Ascii.eqb ")" Text.NL) with false. cbv iota.
    destruct rest as [|c r]; [reflexivity|]. subst c.
    cbn [path_group]. rewrite Ascii.eqb_refl. reflexivity.
  - change (String c p ++ ")" ++ rest)%string with (String c (p ++ ")" ++ rest)%string).
    cbn [one_line] in Hp. apply andb_prop in Hp. destruct Hp as [Hc Hp].
    cbn [path_group]. apply negb_true_iff in Hc. rewrite Hc, (IH Hp). reflexivity.
Qed.

(** The status reply as [pkgctl] prints it is read back. *)
Lemma package_on_disk_reply p rest :
  one_line p = true ->
  match rest with EmptyString => True | String c _ => c = Text.NL end ->
  package_on_disk ("Package on disk: yes (path=" ++ p ++ ")" ++ rest)%string = Some p.
Proof.
  intros Hp Hrest.
  assert (Hstep : forall out, package_on_disk out
            = match (if prefix on_disk_marker out
                     then path_group (Text.drop 27 out) else None) with
              | Some g => Some g
              | None => match out with
                        | EmptyString => None
                        | String _ r => package_on_disk r
                        end
              end) by (intros [|c r]; reflexivity).
  rewrite Hstep. fold on_disk_marker. rewrite prefix_append.
  change (Text.drop 27 (on_disk_marker ++ p ++ ")" ++ rest)%string)
    with (p ++ ")" ++ rest)%string.
  now rewrite path_group_line.
Qed.

Section Packages.

Variable env : Env.
Variable self : Target.

Local Abbreviation base_cmx :=
  (ns_base_abspath env ("meta/" ++ executable self ++ ".cmx")%string).
Local Abbreviation status_cmd := (["pkgctl"; "pkg-status"; package_url self]).
Local Abbreviation resolve_cmd := (["pkgctl"; "resolve"; package_url self]).

(** [is_resolved], case by case. *)
Lemma is_resolved_cases w :
  is_resolved env self w =
    if negb (device_reachable env (trace w)) then (Ok false, w)
    else if truthy (_package_path w) then (Ok true, w)
    else
      let t1 := trace w ++ [DevIsfile base_cmx] in
      if device_isfile env t1
      then (Ok true, with_package_path (Some (ns_base_abspath env EmptyString))
                       (with_trace t1 w))
      else
        let t3 := trace w ++ [DevIsfile base_cmx; DevSshPopen status_cmd; ProcCommunicate] in
        let rc := fst (proc_communicate env t3) in
        let out := snd (proc_communicate env t3) in
        if negb ((rc =? 0)%Z || (rc =? 2)%Z)
        then (Raise (CalledProcessError rc (Text.join_spaces status_cmd) out),
              with_trace t3 w)
        else match package_on_disk out with
             | None => (Ok false, with_trace t3 w)
             | Some path => (Ok true, with_package_path (Some path) (with_trace t3 w))
             end.
Proof.
  unfold is_resolved.
  destruct w as [t rs pp o lo li sa d f ou lb lk]; cbn.
  unfold bind, ask, gets, emit, modify, ret; cbn.
  destruct (device_reachable env t); cbn; [|reflexivity].
  destruct (truthy pp); cbn; [reflexivity|].
  destruct (device_isfile env _); cbn; [reflexivity|].
  rewrite <- !app_assoc; cbn [app].
  destruct (proc_communicate env _) as [rc out]; cbn.
  destruct ((rc =? 0)%Z || (rc =? 2)%Z); cbn; [|reflexivity].
  destruct (package_on_disk out); reflexivity.
Qed.

(** What every outcome of [is_resolved] has in common. *)
Lemma is_resolved_spec w :
  exists r w1 evs,
    is_resolved env self w = (r, w1)
    /\ trace w1 = trace w ++ evs
    /\ check_calls evs = []
    /\ r <> OutOfFuel
    /\ (r = Ok true -> _package_path w1 <> None)
    /\ (r <> Ok true -> _package_path w1 = _package_path w).
Proof.
  rewrite is_resolved_cases.
  destruct (negb (device_reachable env (trace w))).
  { exists (Ok false), w, []. rewrite app_nil_r.
    repeat split; try discriminate; reflexivity. }
  destruct (truthy (_package_path w)) eqn:Hpp.
  { exists (Ok true), w, []. rewrite app_nil_r.
    repeat split; try discriminate; try reflexivity.
    intros _ H. now rewrite H in Hpp. }
  cbv zeta. destruct (device_isfile env _).
  { eexists; eexists; exists [DevIsfile base_cmx]. split; [reflexivity|].
    repeat split; try discriminate. intros H. now elim H. }
  destruct (negb _).
  { eexists; eexists; exists [DevIsfile base_cmx; DevSshPopen status_cmd; ProcCommunicate].
    split; [reflexivity|]. repeat split; discriminate. }
  destruct (package_on_disk _).
  - eexists; eexists; exists [DevIsfile base_cmx; DevSshPopen status_cmd; ProcCommunicate].
    split; [reflexivity|]. repeat split; try discriminate. intros H. now elim H.
  - eexists; eexists; exists [DevIsfile base_cmx; DevSshPopen status_cmd; ProcCommunicate].
    split; [reflexivity|]. repeat split; discriminate.
Qed.

(** X12: a status reply [Package on disk: yes (path=<path>)], with
    exit code 0 or 2, the path on one line and the line ending after
    the closing parenthesis, makes [is_resolved] answer true and record
    exactly that path. *)
Theorem is_resolved_records_reported_path w rc p rest :
  device_reachable env (trace w) = true ->
  truthy (_package_path w) = false ->
  device_isfile env (trace w ++ [DevIsfile base_cmx]) = false ->
  let asked := trace w ++ [DevIsfile base_cmx; DevSshPopen status_cmd; ProcCommunicate] in
  proc_communicate env asked
    = (rc, ("Package on disk: yes (path=" ++ p ++ ")" ++ rest)%string) ->
  rc = 0%Z \/ rc = 2%Z ->
  one_line p = true ->
  match rest with EmptyString => True | String c _ => c = Text.NL end ->
  is_resolved env self w
  = (Ok true, with_package_path (Some p) (with_trace asked w)).
Proof.
  intros Hreach Hpp Hfile asked Hreply Hrc Hp Hrest.
  rewrite is_resolved_cases, Hreach, Hpp. cbn [negb]. cbv zeta. rewrite Hfile.
  fold asked. rewrite Hreply. cbn [fst snd].
  rewrite (package_on_disk_reply p rest Hp Hrest).
  destruct Hrc as [-> | ->]; reflexivity.
Qed.

(** [resolve], by the answer of its first check. *)
Lemma resolve_spec w :
  exists r w1 evs,
    Package.resolve env self w = (r, w1)
    /\ trace w1 = trace w ++ evs
    /\ check_calls evs = match fst (is_resolved env self w) with
                         | Ok false => [resolve_cmd]
                         | _ => []
                         end
    /\ (r = Ok tt -> _package_path w1 <> None)
    /\ (_package_path w <> None -> _package_path w1 <> None).
Proof.
  unfold Package.resolve.
  destruct (is_resolved_spec w) as (r1 & w1 & e1 & Hrun1 & Ht1 & Hc1 & Hf1 & Hyes1 & Hno1).
  rewrite Hrun1. cbn [fst]. unfold bind at 1. rewrite Hrun1.
  assert (Hkeep1 : _package_path w <> None -> _package_path w1 <> None).
  { intros H. destruct r1 as [[|]| |]; try (rewrite Hno1 by discriminate; exact H).
    now apply Hyes1. }
  destruct r1 as [[|]| |].
  - exists (Ok tt), w1, e1. repeat split; auto.
  - unfold check_call. rewrite bind_assoc, bind_emit, bind_assoc, bind_ask.
    cbn [trace with_trace].
    set (w2 := with_trace (trace w1 ++ [DevSshCheckCall resolve_cmd]) w1).
    destruct (check_call_rc env (trace w1 ++ [DevSshCheckCall resolve_cmd]) =? 0)%Z.
    + rewrite bind_ret.
      destruct (is_resolved_spec w2) as (r3 & w3 & e3 & Hrun3 & Ht3 & Hc3 & Hf3 & Hyes3 & Hno3).
      unfold bind. rewrite Hrun3.
      assert (Htrace : trace w3 = trace w ++ e1 ++ [DevSshCheckCall resolve_cmd] ++ e3).
      { rewrite Ht3. subst w2. cbn [trace with_trace]. rewrite Ht1.
        now rewrite <- !app_assoc. }
      assert (Hcalls : check_calls (e1 ++ [DevSshCheckCall resolve_cmd] ++ e3)
                       = [resolve_cmd]).
      { unfold check_calls in *. rewrite !flat_map_app, Hc1, Hc3. reflexivity. }
      assert (Hkeep3 : _package_path w <> None -> _package_path w3 <> None).
      { intros H. destruct r3 as [[|]| |];
          try (rewrite Hno3 by discriminate; subst w2; cbn; now apply Hkeep1).
        now apply Hyes3. }
      destruct r3 as [[|]| |].
      * exists (Ok tt), w3, (e1 ++ [DevSshCheckCall resolve_cmd] ++ e3).
        repeat split; auto.
      * eexists; exists w3, (e1 ++ [DevSshCheckCall resolve_cmd] ++ e3).
        split; [reflexivity|]. repeat split; auto; discriminate.
      * eexists; exists w3, (e1 ++ [DevSshCheckCall resolve_cmd] ++ e3).
        split; [reflexivity|]. repeat split; auto; discriminate.
      * now elim Hf3.
    + eexists; exists w2, (e1 ++ [DevSshCheckCall resolve_cmd]).
      split; [reflexivity|]. split.
      { subst w2. cbn [trace with_trace]. now rewrite Ht1, <- app_assoc. }
      split.
      { unfold check_calls in *. now rewrite flat_map_app, Hc1. }
      split; [discriminate|]. intros H. subst w2. cbn. now apply Hkeep1.
  - eexists; exists w1, e1. split; [reflexivity|]. repeat split; auto; discriminate.
  - now elim Hf1.
Qed.

(** X13: [resolve] runs [pkgctl resolve <package url>] at most
    once: once when its first check answers that the package is not
    resolved, and not at all when that check answers that it is, or
    fails.  When [resolve] returns, a package path is recorded. *)
Theorem resolve_runs_pkgctl_only_when_unresolved w :
  let r := Package.resolve env self w in
  check_calls (events_since w (snd r))
  = match fst (is_resolved env self w) with
    | Ok false => [resolve_cmd]
    | _ => []
    end
  /\ match fst r with
     | Ok _ => _package_path (snd r) <> None
     | _ => True
     end.
Proof.
  destruct (resolve_spec w) as (r & w1 & evs & Hrun & Ht & Hc & Hok & _).
  cbv zeta. rewrite Hrun. cbn [fst snd].
  rewrite (events_since_app _ _ _ Ht). split; [exact Hc|].
  destruct r as [[]| |]; auto.
Qed.

(** X14: the [package_path] property never answers [None]: it
    answers the recorded path, without a call, when that path is not
    empty; otherwise it resolves the package, and then either raises or
    answers the path just recorded. *)
Theorem package_path_is_never_none w :
  match fst (Package.package_path env self w) with
  | Ok None => False
  | _ => True
  end
  /\ (truthy (_package_path w) = true ->
      Package.package_path env self w = (Ok (_package_path w), w)).
Proof.
  unfold Package.package_path. rewrite bind_gets.
  destruct (truthy (_package_path w)) eqn:Hpp; cbn [negb when].
  - rewrite bind_ret. unfold gets. cbn [fst]. split; [|reflexivity].
    destruct (_package_path w); [exact I|discriminate].
  - split; [|discriminate].
    destruct (resolve_spec w) as (r & w1 & evs & Hrun & _ & _ & Hok & _).
    unfold bind. rewrite Hrun. destruct r as [[]| |]; cbn; try exact I.
    specialize (Hok eq_refl). now destruct (_package_path w1).
Qed.

End Packages.

Lemma is_resolved_records_reported_path_witness :
  is_resolved Sample.odd_status Sample.target Sample.init
  = (Ok true,
     with_package_path (Some "/pkgfs/versions/deadbeef")
       (with_trace
          [DevIsfile "/pkgfs/packages/fake-package1/0/meta/fake-target1.cmx";
           DevSshPopen ["pkgctl"; "pkg-status"; "fuchsia-pkg://fuchsia.com/fake-package1"];
           ProcCommunicate] Sample.init)).
Proof.
  apply (is_resolved_records_reported_path Sample.odd_status Sample.target Sample.init
           2 "/pkgfs/versions/deadbeef" "").
  - reflexivity.
  - reflexivity.
  - reflexivity.
  - reflexivity.
  - right. reflexivity.
  - reflexivity.
  - exact I.
Defined.

(** ** Names *)

Lemma prefix_empty s : prefix EmptyString s = true.
Proof. now destruct s. Qed.

Lemma contains_refl s : Names.contains s s = true.
Proof. destruct s; cbn [Names.contains]; now rewrite prefix_refl. Qed.

Lemma contains_prefix a b : Names.contains a (a ++ b)%string = true.
Proof.
  destruct (a ++ b)%string eqn:H; cbn [Names.contains]; rewrite <- H;
    now rewrite prefix_append.
Qed.

Lemma contains_char c d r :
  Names.contains (String c EmptyString) (String d r)
  = if Ascii.eqb d c then true else Names.contains (String c EmptyString) r.
Proof.
  cbn [Names.contains prefix]. rewrite prefix_empty.
  destruct (ascii_dec c d) as [->|Hne]; [now rewrite Ascii.eqb_refl|].
  destruct (Ascii.eqb_spec d c); [congruence|reflexivity].
Qed.

Lemma contains_count c s :
  Names.contains (String c EmptyString) s = negb (Names.count c s =? 0)%nat.
Proof.
  induction s as [|d r IH]; [reflexivity|].
  rewrite contains_char. cbn [Names.count].
  destruct (Ascii.eqb d c); [reflexivity|exact IH].
Qed.

Lemma split_length sep s : List.length (Names.split sep s) = S (Names.count sep s).
Proof.
  induction s as [|d r IH]; [reflexivity|]. cbn [Names.split Names.count].
  destruct (Ascii.eqb d sep); cbn [List.length]; [now rewrite IH|].
  destruct (Names.split sep r); cbn in *; lia.
Qed.

Lemma split_none sep s : Names.count sep s = 0 -> Names.split sep s = [s].
Proof.
  induction s as [|d r IH]; [reflexivity|]. cbn [Names.split Names.count].
  destruct (Ascii.eqb d sep); [discriminate|]. intros H. now rewrite (IH H).
Qed.

Lemma split_at sep x y :
  Names.count sep x = 0 ->
  Names.split sep (x ++ String sep y)%string = x :: Names.split sep y.
Proof.
  induction x as [|d r IH]; intros H.
  - change (EmptyString ++ String sep y)%string with (String sep y).
    cbn [Names.split]. now rewrite Ascii.eqb_refl.
  - change (String d r ++ String sep y)%string with (String d (r ++ String sep y)%string).
    cbn [Names.split Names.count] in *.
    destruct (Ascii.eqb d sep); [discriminate|]. now rewrite (IH H).
Qed.

Lemma count_append c a b :
  Names.count c (a ++ b)%string = Names.count c a + Names.count c b.
Proof.
  induction a as [|d r IH]; [reflexivity|].
  change (String d r ++ b)%string with (String d (r ++ b)%string).
  cbn [Names.count]. destruct (Ascii.eqb d c); cbn; now rewrite IH.
Qed.

Section NameMatching.

Variable self : Target.
Variable is_test : bool.

Local Abbreviation slashes := (Names.count "/"%char).
Local Abbreviation built_name :=
  (if is_test then (executable self ++ "_test")%string else executable self).

(** X15: [matches] answers for a name with at most one slash and
    raises [ValueError], with the message naming the name, exactly for
    a name with two or more slashes. *)
Theorem matches_raises_exactly_on_two_slashes name :
  Names.matches self is_test (Some name)
  = if (slashes name <=? 1)%nat
    then Names.Done
           (match name with
            | EmptyString => true
            | _ =>
                match Names.split "/"%char name with
                | [pkg; exe] => Names.contains pkg (package self)
                                && Names.contains exe built_name
                | _ => Names.contains name (package self)
                       || Names.contains name built_name
                end
            end)
    else Names.Fails (Names.ValueError ("Malformed fuzzer name: " ++ name)%string).
Proof.
  destruct name as [|c r]; [reflexivity|].
  unfold Names.matches. rewrite contains_count.
  pose proof (split_length "/"%char (String c r)) as Hlen.
  destruct (slashes (String c r)) as [|[|n]] eqn:Hn.
  - cbn [Nat.eqb negb Nat.leb]. rewrite (split_none _ _ Hn). reflexivity.
  - cbn [Nat.eqb negb Nat.leb].
    destruct (Names.split "/" (String c r)) as [|a [|b [|d l]]]; cbn in Hlen;
      try lia. reflexivity.
  - cbn [Nat.eqb negb Nat.leb].
    destruct (Names.split "/" (String c r)) as [|a [|b [|d l]]]; cbn in Hlen;
      try lia. reflexivity.
Qed.

(** X16: a fuzzer whose package and executable hold no slash
    matches its own name, [package/executable], also when it is built
    as a fuzzer test. *)
Theorem matches_own_name :
  slashes (package self) = 0 ->
  slashes (executable self) = 0 ->
  Names.matches self is_test (Some (name self)) = Names.Done true.
Proof.
  intros Hp He. unfold name.
  assert (Hsplit : Names.split "/"%char (package self ++ "/" ++ executable self)%string
                   = [package self; executable self]).
  { change ("/" ++ executable self)%string with (String "/"%char (executable self)).
    rewrite (split_at _ _ _ Hp), (split_none _ _ He). reflexivity. }
  assert (Hcount : slashes (package self ++ "/" ++ executable self)%string = 1).
  { rewrite count_append, Hp.
    change ("/" ++ executable self)%string with (String "/"%char (executable self)).
    cbn [Names.count]. change (Ascii.eqb "/" "/") with true. cbv iota. now rewrite He. }
  unfold Names.matches.
  destruct (package self ++ "/" ++ executable self)%string as [|c r] eqn:Hname;
    [discriminate Hcount|].
  rewrite contains_count, Hcount, Hsplit. cbn [Nat.eqb negb].
  rewrite contains_refl. cbn [andb].
  destruct is_test; [now rewrite contains_prefix|now rewrite contains_refl].
Qed.

(** X17: when a name [x/y] matches, so do [x] and [y] on their
    own. *)
Theorem matches_pair_implies_parts x y :
  slashes x = 0 ->
  slashes y = 0 ->
  Names.matches self is_test (Some (x ++ "/" ++ y)%string) = Names.Done true ->
  Names.matches self is_test (Some x) = Names.Done true
  /\ Names.matches self is_test (Some y) = Names.Done true.
Proof.
  intros Hx Hy.
  assert (Hsplit : Names.split "/"%char (x ++ "/" ++ y)%string = [x; y]).
  { change ("/" ++ y)%string with (String "/"%char y).
    rewrite (split_at _ _ _ Hx), (split_none _ _ Hy). reflexivity. }
  assert (Hcount : slashes (x ++ "/" ++ y)%string = 1).
  { rewrite count_append, Hx. change ("/" ++ y)%string with (String "/"%char y).
    cbn [Names.count]. change (Ascii.eqb "/" "/") with true. cbv iota. now rewrite Hy. }
  unfold Names.matches at 1.
  destruct (x ++ "/" ++ y)%string as [|c r] eqn:Hname; [discriminate Hcount|].
  rewrite contains_count, Hcount, Hsplit. cbn [Nat.eqb negb].
  intros H. injection H as H. apply andb_prop in H. destruct H as [Hpx Hpy].
  unfold Names.matches. split.
  - destruct x as [|cx rx]; [reflexivity|].
    rewrite contains_count, Hx. cbn [Nat.eqb negb]. now rewrite Hpx.
  - destruct y as [|cy ry]; [reflexivity|].
    rewrite contains_count, Hy. cbn [Nat.eqb negb]. rewrite Hpy. now rewrite orb_true_r.
Qed.

End NameMatching.

Lemma matches_own_name_witness :
  Names.matches Sample.target true (Some "fake-package1/fake-target1") = Names.Done true.
Proof.
  apply (matches_own_name Sample.target true); reflexivity.
Defined.

Lemma matches_pair_implies_parts_witness :
  Names.matches Sample.target false (Some "package1") = Names.Done true
  /\ Names.matches Sample.target false (Some "target") = Names.Done true.
Proof.
  apply (matches_pair_implies_parts Sample.target false "package1" "target");
    reflexivity.
Defined.

(** X18: [__lt__] orders fuzzers by their names, strictly and
    totally: no fuzzer is below itself, the order is transitive and
    asymmetric, and of two fuzzers whose names differ one is below the
    other. *)
Theorem lt_is_a_strict_total_order_on_names (a b c : Target) :
  Names.__lt__ a a = false
  /\ (Names.__lt__ a b = true -> Names.__lt__ b c = true -> Names.__lt__ a c = true)
  /\ (Names.__lt__ a b = true -> Names.__lt__ b a = false)
  /\ (name a <> name b -> Names.__lt__ a b = true \/ Names.__lt__ b a = true).
Proof.
  unfold Names.__lt__, String.ltb.
  assert (Hlt : forall x y, (x ?= y)%string = Lt <-> String_as_OT.lt x y)
    by apply String_as_OT.cmp_lt.
  split.
  { destruct (name a ?= name a)%string eqn:H; try reflexivity.
    apply Hlt in H. exfalso. exact (String_as_OT.lt_not_eq _ _ H eq_refl). }
  split.
  { destruct (name a ?= name b)%string eqn:Hab; try discriminate.
    destruct (name b ?= name c)%string eqn:Hbc; try discriminate. intros _ _.
    apply Hlt in Hab, Hbc. pose proof (String_as_OT.lt_trans _ _ _ Hab Hbc) as Hac.
    apply Hlt in Hac. now rewrite Hac. }
  split.
  { rewrite (String.compare_antisym (name a) (name b)).
    destruct (name b ?= name a)%string; cbn; congruence. }
  intros Hne. rewrite (String.compare_antisym (name a) (name b)).
  destruct (name b ?= name a)%string eqn:Hba; cbn; auto.
  elim Hne. symmetry. now apply String.compare_eq_iff.
Qed.

(** ** Fuzzer tests *)

Lemma sub_test_suffix_strips e : Names.sub_test_suffix (e ++ "_test")%string = e.
Proof.
  induction e as [|c e IH]; [reflexivity|].
  change (String c e ++ "_test")%string with (String c (e ++ "_test")%string).
  cbn [Names.sub_test_suffix].
  assert (H1 : (String c (e ++ "_test") =? "_test")%string = false).
  { apply String.eqb_neq. intros H. apply (f_equal String.length) in H.
    cbn [String.length] in H. rewrite length_append in H. cbn in H. lia. }
  assert (H2 : (String c (e ++ "_test") =? "_test" ++ String Text.NL EmptyString)%string
               = false).
  { apply String.eqb_neq. intros H. destruct e as [|d e].
    - discriminate H.
    - apply (f_equal String.length) in H.
      change (String d e ++ "_test")%string with (String d (e ++ "_test")%string) in H.
      cbn [String.length] in H. rewrite !length_append in H. cbn in H. lia. }
  now rewrite H1, H2, IH.
Qed.

Lemma sub_test_manifest_strips m :
  Names.sub_test_manifest (m ++ "_test.cmx")%string = (m ++ ".cmx")%string.
Proof.
  induction m as [|c m IH]; [reflexivity|].
  change (String c m ++ "_test.cmx")%string with (String c (m ++ "_test.cmx")%string).
  change (String c m ++ ".cmx")%string with (String c (m ++ ".cmx")%string).
  cbn [Names.sub_test_manifest].
  assert (H1 : (String c (m ++ "_test.cmx") =? "_test.cmx")%string = false).
  { apply String.eqb_neq. intros H. apply (f_equal String.length) in H.
    cbn [String.length] in H. rewrite length_append in H. cbn in H. lia. }
  assert (H2 : (String c (m ++ "_test.cmx")
                =? "_test.cmx" ++ String Text.NL EmptyString)%string = false).
  { apply String.eqb_neq. intros H. destruct m as [|d m].
    - discriminate H.
    - apply (f_equal String.length) in H.
      change (String d m ++ "_test.cmx")%string
        with (String d (m ++ "_test.cmx")%string) in H.
      cbn [String.length] in H. rewrite !length_append in H. cbn in H. lia. }
  now rewrite H1, H2, IH.
Qed.

(** X19: for a fuzzer built as a fuzzer test [<e>_test] with the
    manifest [<m>_test.cmx], [__init__] keeps the executable [<e>] and
    the URL of the manifest [<m>.cmx], whatever [<e>] and [<m>] are, and
    [matches] compares names with [<e>_test], the name it was built
    with. *)
Theorem init_strips_test_suffixes pkg url e m name :
  let built := Names.AsFuzzerTest (e ++ "_test") (m ++ "_test.cmx") in
  let t := Names.init_target pkg url built in
  executable t = e
  /\ executable_url t = (url ++ "#meta/" ++ m ++ ".cmx")%string
  /\ Names.matches t (Names.init_is_test built) (Some name)
     = Names.matches (Names.init_target pkg url (Names.AsFuzzer (e ++ "_test") (m ++ ".cmx")))
         false (Some name).
Proof.
  cbv zeta. unfold Names.init_target, Names.matches.
  cbn [executable executable_url package Names.init_executable Names.init_manifest
       Names.init_is_test].
  rewrite sub_test_suffix_strips, sub_test_manifest_strips.
  repeat split; reflexivity.
Qed.

Lemma sub_cmx_hit c r :
  Names.sub_cmx (String c ("cmx" ++ r))%string
  = if Ascii.eqb c Text.NL then String c ("cmx" ++ Names.sub_cmx r)%string
    else ("_test.cmx" ++ Names.sub_cmx r)%string.
Proof. reflexivity. Qed.






(** ** The build file *)

Import BuildFile.

Lemma contains_skip n a s :
  Names.contains n s = true -> Names.contains n (a ++ s)%string = true.
Proof.
  intros H. induction a as [|c a IH]; [exact H|].
  change (String c a ++ s)%string with (String c (a ++ s)%string).
  cbn [Names.contains]. rewrite IH. now destruct (prefix n _).
Qed.

Lemma corpus_line_sets_corpus line dir : plain (corpus_line line dir) = false.
Proof.
  unfold plain, corpus_line. apply negb_false_iff. apply contains_skip.
  change ("  corpus = " ++ ?s)%string with ("  " ++ ("corpus =" ++ (" " ++ s)))%string.
  apply contains_skip. apply contains_prefix.
Qed.

Section BuildFiles.

Variable target dir : string.

Local Abbreviation step := (scan_line target dir).
Local Abbreviation stripped := (map Text.rstrip).

Lemma scan_line_plain st raw :
  filter plain (lines_out (step st raw))
  = filter plain (lines_out st) ++ filter plain [Text.rstrip raw].
Proof.
  unfold scan_line. cbv zeta.
  destruct (negb (if negb (found st) && Names.contains target (Text.rstrip raw)
                  then true else matching_target st)).
  - cbn [lines_out]. now rewrite filter_app.
  - cbn [lines_out].
    assert (Hline : filter plain [Text.rstrip raw]
                    = if Names.contains "corpus =" (Text.rstrip raw) then []
                      else [Text.rstrip raw]).
    { cbn [filter]. unfold plain. now destruct (Names.contains _ _). }
    rewrite Hline.
    destruct (_ =? 0)%Z; destruct (Names.contains "corpus =" (Text.rstrip raw)) eqn:Hc;
      rewrite ?filter_app; cbn [filter]; rewrite ?corpus_line_sets_corpus;
      unfold plain; rewrite ?Hc; cbn [negb]; rewrite ?app_nil_r; reflexivity.
Qed.

Lemma fold_plain lines : forall st,
  filter plain (lines_out (fold_left step lines st))
  = filter plain (lines_out st) ++ filter plain (stripped lines).
Proof.
  induction lines as [|l lines IH]; intros st; cbn [fold_left map].
  - now rewrite app_nil_r.
  - rewrite IH, scan_line_plain, <- app_assoc. f_equal.
    cbn [filter]. now destruct (plain (Text.rstrip l)).
Qed.

(** Lines that set no corpus are neither dropped, added nor reordered. *)
Lemma scan_plain_lines lines :
  filter plain (lines_out (scan target dir lines)) = filter plain (stripped lines).
Proof. unfold scan. now rewrite fold_plain. Qed.

(** Before the target: lines are copied. *)
Lemma scan_before lines : forall st,
  found st = false -> matching_target st = false ->
  forallb (fun l => negb (Names.contains target (Text.rstrip l))) lines = true ->
  fold_left step lines st
  = mkScan false false (nested_scopes st) (lines_out st ++ stripped lines).
Proof.
  induction lines as [|l lines IH]; intros [f m n out] Hf Hm Hno; cbn in Hf, Hm; subst.
  - cbn. now rewrite app_nil_r.
  - cbn [forallb] in Hno. apply andb_prop in Hno. destruct Hno as [Hl Hno].
    apply negb_true_iff in Hl. cbn [fold_left map].
    unfold scan_line at 2. cbv zeta. cbn [found matching_target nested_scopes lines_out].
    rewrite Hl. cbn [negb andb].
    rewrite IH by first [reflexivity | exact Hno].
    cbn [nested_scopes lines_out]. now rewrite <- app_assoc.
Qed.

(** After the target: lines are copied. *)
Lemma scan_after lines : forall st,
  found st = true -> matching_target st = false ->
  fold_left step lines st
  = mkScan true false (nested_scopes st) (lines_out st ++ stripped lines).
Proof.
  induction lines as [|l lines IH]; intros [f m n out] Hf Hm; cbn in Hf, Hm; subst.
  - cbn. now rewrite app_nil_r.
  - cbn [fold_left map].
    unfold scan_line at 2. cbv zeta. cbn [found matching_target nested_scopes lines_out].
    cbn [negb andb].
    rewrite IH by reflexivity.
    cbn [nested_scopes lines_out]. now rewrite <- app_assoc.
Qed.

(** Inside the target: lines that set a corpus are dropped. *)
Lemma scan_inside lines : forall st,
  found st = false -> matching_target st = true ->
  stays_open (nested_scopes st) (stripped lines) = true ->
  fold_left step lines st
  = mkScan false true (depth_after (nested_scopes st) (stripped lines))
      (lines_out st ++ filter plain (stripped lines)).
Proof.
  induction lines as [|l lines IH]; intros [f m n out] Hf Hm Hopen; cbn in Hf, Hm; subst.
  - cbn. now rewrite app_nil_r.
  - cbn [map stays_open nested_scopes] in Hopen.
    apply andb_prop in Hopen. destruct Hopen as [Hl Hopen].
    apply negb_true_iff in Hl. cbn [fold_left map].
    unfold scan_line at 2. cbv zeta. cbn [found matching_target nested_scopes lines_out].
    assert (Hm : (if negb false && Names.contains target (Text.rstrip l)
                  then true else true) = true)
      by (now destruct (negb false && _)).
    rewrite Hm. cbn [negb].
    assert (Hd : (n + Z.of_nat (Names.count "{" (Text.rstrip l))
                  - Z.of_nat (Names.count "}" (Text.rstrip l)))%Z
                 = (n + depth (Text.rstrip l))%Z) by (unfold depth; lia).
    rewrite Hd, Hl.
    rewrite IH by first [reflexivity | exact Hopen].
    cbn [nested_scopes lines_out depth_after fold_left filter]. unfold plain at 2.
    destruct (Names.contains "corpus =" (Text.rstrip l)); cbn [negb];
      rewrite <- ?app_assoc; reflexivity.
Qed.

(** The line that brings the nesting back to zero closes the target. *)
Lemma scan_close st l :
  found st = false ->
  matching_target st = true \/ Names.contains target (Text.rstrip l) = true ->
  (nested_scopes st + depth (Text.rstrip l) = 0)%Z ->
  step st l
  = mkScan true false 0
      (lines_out st ++ corpus_line (Text.rstrip l) dir :: filter plain [Text.rstrip l]).
Proof.
  destruct st as [f m n out]. cbn [found matching_target nested_scopes lines_out].
  intros -> Hm Hd.
  unfold scan_line. cbv zeta. cbn [found matching_target nested_scopes lines_out].
  assert (Hm' : (if negb false && Names.contains target (Text.rstrip l)
                 then true else m) = true).
  { cbn [negb andb]. destruct Hm as [-> | ->]; [|reflexivity].
    now destruct (Names.contains target _). }
  rewrite Hm'. cbn [negb].
  assert (Hz : (n + Z.of_nat (Names.count "{" (Text.rstrip l))
                - Z.of_nat (Names.count "}" (Text.rstrip l)))%Z = 0%Z)
    by (unfold depth in Hd; lia).
  rewrite Hz. cbn [Z.eqb filter]. unfold plain.
  destruct (Names.contains "corpus =" (Text.rstrip l)); cbn [negb];
    rewrite <- ?app_assoc; reflexivity.
Qed.

(** The first line of the target turns the matching on. *)
Lemma scan_enter st l :
  found st = false ->
  Names.contains target (Text.rstrip l) = true ->
  step st l = step (mkScan false true (nested_scopes st) (lines_out st)) l.
Proof.
  destruct st as [f m n out]. cbn [found matching_target nested_scopes lines_out].
  intros -> Hl. unfold scan_line. cbv zeta.
  cbn [found matching_target nested_scopes lines_out]. now rewrite Hl.
Qed.

(** The whole rewriting, for a target whose braces balance. *)
Lemma scan_block pre body close post :
  forallb (fun l => negb (Names.contains target (Text.rstrip l))) pre = true ->
  match body ++ [close] with
  | first :: _ => Names.contains target (Text.rstrip first) = true
  | [] => False
  end ->
  stays_open 0 (stripped body) = true ->
  depth_after 0 (stripped (body ++ [close])) = 0%Z ->
  scan target dir (pre ++ body ++ close :: post)
  = mkScan true false 0
      (stripped pre ++ filter plain (stripped body)
       ++ corpus_line (Text.rstrip close) dir :: filter plain [Text.rstrip close]
       ++ stripped post).
Proof.
  intros Hpre Hfirst Hopen Hdepth. unfold scan.
  rewrite fold_left_app, (scan_before pre) by first [reflexivity | exact Hpre].
  cbn [nested_scopes lines_out app].
  rewrite fold_left_app. cbn [fold_left].
  assert (Hclose : (depth_after 0 (stripped body) + depth (Text.rstrip close) = 0)%Z).
  { rewrite map_app in Hdepth. unfold depth_after in *.
    rewrite fold_left_app in Hdepth. exact Hdepth. }
  destruct body as [|first body].
  - cbn [fold_left app] in *. cbn [map depth_after fold_left] in Hclose.
    rewrite (scan_close _ close) by first [reflexivity | now right | exact Hclose].
    rewrite scan_after by reflexivity.
    cbn [nested_scopes lines_out map filter app]. now rewrite <- app_assoc.
  - cbn [app] in Hfirst. cbn [fold_left].
    rewrite (scan_enter _ first) by first [reflexivity | exact Hfirst].
    cbn [nested_scopes lines_out].
    change (fold_left step body (step ?st first)) with (fold_left step (first :: body) st).
    rewrite (scan_inside (first :: body)) by first [reflexivity | exact Hopen].
    cbn [nested_scopes lines_out].
    rewrite (scan_close _ close) by first [reflexivity | now left | exact Hclose].
    rewrite scan_after by reflexivity.
    cbn [nested_scopes lines_out]. now rewrite <- !app_assoc.
Qed.

End BuildFiles.

Section BuildFileMethod.

Variable env : Env.
Variable label : string.
Variable host_isfile : History -> bool.
Variable relpath : string -> string -> string.
Variable fuchsia_dir : string.

Local Abbreviation parts := (Names.split ":"%char label).
Local Abbreviation build_gn_dir := (buildenv_abspath env (nth 0 parts EmptyString)).
Local Abbreviation build_gn := (os_path_join build_gn_dir "BUILD.gn").
Local Abbreviation corpus_path corpus_label :=
  (if prefix build_gn_dir (buildenv_abspath env corpus_label)
   then relpath (buildenv_abspath env corpus_label) build_gn_dir
   else ("//" ++ relpath (buildenv_abspath env corpus_label) fuchsia_dir)%string).
Local Abbreviation fuzzer_target target_name :=
  ("fuzzer(" ++ double_quote ++ target_name ++ double_quote ++ ")")%string.
Local Abbreviation add_corpus :=
  (add_corpus_to_buildfile env label host_isfile relpath fuchsia_dir).

(** [add_corpus_to_buildfile], once the build file is known to be there. *)
Lemma add_corpus_reads corpus_label target_name w :
  prefix "//generated" label = false ->
  host_isfile (trace w) = true ->
  nth_error parts 1 = Some target_name ->
  let asked := trace w ++ [HostOpen build_gn "r"] in
  let st := scan (fuzzer_target target_name) (corpus_path corpus_label)
              (iter_readline (host_readlines env asked)) in
  add_corpus corpus_label w
  = if found st
    then (Ok (Names.Done true),
          with_trace (asked ++ [HostOpen build_gn "w";
                                FdWrite build_gn
                                  (String.concat (String NL EmptyString) (lines_out st))])
            w)
    else (Ok (Names.Done false),
          with_trace (asked ++ [HostEcho ("Unable to find '" ++ fuzzer_target target_name
                                          ++ "' in " ++ build_gn)%string])
            w).
Proof.
  intros Hgen Hfile Hname asked st. unfold add_corpus_to_buildfile.
  rewrite Hgen, bind_ask, Hfile. cbn [negb]. rewrite Hname.
  rewrite bind_emit, bind_ask. cbn [trace with_trace]. fold asked. fold st.
  destruct (found st).
  - rewrite bind_emit, bind_emit. unfold ret. destruct w; cbn.
    now rewrite <- app_assoc.
  - rewrite bind_emit. unfold ret. destruct w; reflexivity.
Qed.

(** X21: whatever the label and the build file are,
    [add_corpus_to_buildfile] writes at most once, to the build file,
    and what it writes neither drops, adds nor reorders a line that sets
    no corpus: the lines without [corpus =] of the text it writes are
    those of the file it read, stripped of trailing white space. *)
Theorem add_corpus_keeps_every_line_without_corpus corpus_label w :
  let asked := trace w ++ [HostOpen build_gn "r"] in
  let evs := events_since w (snd (add_corpus corpus_label w)) in
  writes evs = []
  \/ exists out,
       writes evs = [(build_gn, String.concat (String NL EmptyString) out)]
       /\ filter plain out
          = filter plain (map Text.rstrip (iter_readline (host_readlines env asked))).
Proof.
  cbv zeta.
  assert (Hsince : forall e w', events_since w (with_trace (trace w ++ e) w') = e)
    by (intros e w'; now apply events_since_app).
  destruct (prefix "//generated" label) eqn:Hgen.
  { left. unfold add_corpus_to_buildfile. rewrite Hgen, bind_emit. unfold ret. cbn [snd].
    now rewrite Hsince. }
  destruct (host_isfile (trace w)) eqn:Hfile.
  2:{ left. unfold add_corpus_to_buildfile. rewrite Hgen, bind_ask, Hfile. cbn [negb].
      rewrite bind_emit. unfold ret. cbn [snd]. now rewrite Hsince. }
  destruct (nth_error parts 1) as [target_name|] eqn:Hname.
  2:{ left. unfold add_corpus_to_buildfile. rewrite Hgen, bind_ask, Hfile. cbn [negb].
      rewrite Hname. unfold ret. cbn [snd].
      rewrite (events_since_app w w []); [reflexivity|now rewrite app_nil_r]. }
  rewrite (add_corpus_reads corpus_label target_name w Hgen Hfile Hname). cbv zeta.
  destruct (found _) eqn:Hfound; cbn [snd]; rewrite <- app_assoc, Hsince.
  - right. eexists. split; [reflexivity|]. apply scan_plain_lines.
  - left. reflexivity.
Qed.

(** X22: when no line of the build file names the target
    [fuzzer("<name>")], [add_corpus_to_buildfile] answers false, says
    that it was unable to find the target, and does not write the
    file. *)
Theorem add_corpus_without_target_writes_nothing corpus_label target_name w :
  prefix "//generated" label = false ->
  host_isfile (trace w) = true ->
  nth_error parts 1 = Some target_name ->
  let asked := trace w ++ [HostOpen build_gn "r"] in
  forallb (fun l => negb (Names.contains (fuzzer_target target_name) (Text.rstrip l)))
          (iter_readline (host_readlines env asked)) = true ->
  add_corpus corpus_label w
  = (Ok (Names.Done false),
     with_trace (asked ++ [HostEcho ("Unable to find '" ++ fuzzer_target target_name
                                     ++ "' in " ++ build_gn)%string])
       w).
Proof.
  intros Hgen Hfile Hname asked Hno.
  rewrite (add_corpus_reads corpus_label target_name w Hgen Hfile Hname). fold asked.
  unfold scan. rewrite scan_before by first [reflexivity | exact Hno]. reflexivity.
Qed.

(** X23: when the braces of the target balance, that is, when the
    build file is made of lines that do not name the target, then the
    lines of the target, the first of which names it and the last of
    which is the first to bring the nesting of braces back to zero, then
    any lines, [add_corpus_to_buildfile] answers true and writes the
    file anew: the lines before and after the target as they were, the
    lines of the target without those that set a corpus, and the new
    corpus line right before the line that closes the target, indented
    two spaces more than that line. *)
Theorem add_corpus_sets_corpus_of_balanced_target
    corpus_label target_name w pre body close post :
  prefix "//generated" label = false ->
  host_isfile (trace w) = true ->
  nth_error parts 1 = Some target_name ->
  let asked := trace w ++ [HostOpen build_gn "r"] in
  iter_readline (host_readlines env asked) = pre ++ body ++ close :: post ->
  forallb (fun l => negb (Names.contains (fuzzer_target target_name) (Text.rstrip l)))
          pre = true ->
  match body ++ [close] with
  | first :: _ => Names.contains (fuzzer_target target_name) (Text.rstrip first) = true
  | [] => False
  end ->
  stays_open 0 (map Text.rstrip body) = true ->
  depth_after 0 (map Text.rstrip (body ++ [close])) = 0%Z ->
  add_corpus corpus_label w
  = (Ok (Names.Done true),
     with_trace
       (asked ++
        [HostOpen build_gn "w";
         FdWrite build_gn
           (String.concat (String NL EmptyString)
              (map Text.rstrip pre ++ filter plain (map Text.rstrip body)
               ++ corpus_line (Text.rstrip close) (corpus_path corpus_label)
                  :: filter plain [Text.rstrip close]
               ++ map Text.rstrip post))])
       w).
Proof.
  intros Hgen Hfile Hname asked Hlines Hpre Hfirst Hopen Hdepth.
  rewrite (add_corpus_reads corpus_label target_name w Hgen Hfile Hname). fold asked.
  rewrite Hlines, (scan_block _ _ pre body close post Hpre Hfirst Hopen Hdepth).
  reflexivity.
Qed.

(** X24: for a label without a colon the method finds no target
    name: once the build file is found to exist it raises [IndexError],
    having read and written nothing. *)
Theorem add_corpus_needs_a_colon_in_the_label corpus_label w :
  prefix "//generated" label = false ->
  host_isfile (trace w) = true ->
  Names.count ":"%char label = 0 ->
  add_corpus corpus_label w = (Ok (Names.Fails Names.IndexError), w).
Proof.
  intros Hgen Hfile Hcolon. unfold add_corpus_to_buildfile.
  rewrite Hgen, bind_ask, Hfile. cbn [negb].
  rewrite (split_none _ _ Hcolon). reflexivity.
Qed.

End BuildFileMethod.

Lemma add_corpus_without_target_writes_nothing_witness :
  fst (add_corpus_to_buildfile Sample.quiet Cases.label (fun _ => true) Cases.relpath
         "/fuchsia" "//corpus/label" Sample.init)
  = Ok (Names.Done false)
  /\ opens (trace (snd (add_corpus_to_buildfile Sample.quiet Cases.label (fun _ => true)
                         Cases.relpath "/fuchsia" "//corpus/label" Sample.init)))
     = [("/fuchsia/src/fake/package1/BUILD.gn", "r")].
Proof.
  rewrite (add_corpus_without_target_writes_nothing Sample.quiet Cases.label
             (fun _ => true) Cases.relpath "/fuchsia" "//corpus/label" "fake-target1"
             Sample.init eq_refl eq_refl eq_refl eq_refl).
  split; reflexivity.
Defined.

Lemma add_corpus_sets_corpus_of_balanced_target_witness :
  fst (add_corpus_to_buildfile Cases.with_build_gn Cases.label (fun _ => true)
         Cases.relpath "/fuchsia" "//src/fake/package1/relative/path" Sample.init)
  = Ok (Names.Done true)
  /\ map snd (writes (trace (snd (add_corpus_to_buildfile Cases.with_build_gn Cases.label
                                    (fun _ => true) Cases.relpath "/fuchsia"
                                    "//src/fake/package1/relative/path" Sample.init))))
     = [String.concat (String NL EmptyString)
          [("fuzzer(" ++ double_quote ++ "fake-target1" ++ double_quote ++ ") {")%string;
           ("  sources = [ " ++ double_quote ++ "fuzzer.cc" ++ double_quote ++ " ]")%string;
           ("  deps = [ " ++ double_quote ++ ":my-lib" ++ double_quote ++ " ]")%string;
           ("  corpus = " ++ double_quote ++ "relative/path" ++ double_quote)%string;
           "}"%string]].
Proof.
  rewrite (add_corpus_sets_corpus_of_balanced_target Cases.with_build_gn Cases.label
             (fun _ => true) Cases.relpath "/fuchsia" "//src/fake/package1/relative/path"
             "fake-target1" Sample.init [] (firstn 4 Cases.build_gn)
             (Sample.line "}") []
             eq_refl eq_refl eq_refl eq_refl eq_refl eq_refl eq_refl eq_refl).
  split; reflexivity.
Defined.

Lemma add_corpus_needs_a_colon_in_the_label_witness :
  add_corpus_to_buildfile Sample.quiet "//src/fake/package1" (fun _ => true)
    Cases.relpath "/fuchsia" "//corpus/label" Sample.init
  = (Ok (Names.Fails Names.IndexError), Sample.init).
Proof.
  apply (add_corpus_needs_a_colon_in_the_label Sample.quiet "//src/fake/package1"
           (fun _ => true) Cases.relpath "/fuchsia" "//corpus/label" Sample.init);
    reflexivity.
Defined.

(** ** Starting *)

Section Starting.

Variable env : Env.
Variable self : Target.

Local Abbreviation url := (executable_url self).
Local Abbreviation logs := (ns_data LOG_PATTERN).

Lemma symbolize_log_starts_nothing fd_in job echo w :
  exists found w1 evs,
    symbolize_log env self fd_in job echo w = (Ok found, w1)
    /\ trace w1 = trace w ++ evs
    /\ launches evs = [] /\ remote_removes evs = [].
Proof.
  destruct (symbolize_log_spec env self fd_in job echo w)
    as (w1 & clock & base & loop & Hrun & Ht & Hclock & Hloop & _).
  eexists; exists w1; eexists. split; [exact Hrun|]. split; [exact Ht|].
  unfold launches, remote_removes. rewrite !flat_map_app.
  rewrite !(flat_map_loop_events _ loop) by (try exact Hloop; now intros []).
  unfold artifact_fetch.
  destruct Hclock as [-> | ->]; destruct (artifact_paths _); split; reflexivity.
Qed.

(** X10: a [start] that finds the fuzzer stopped removes the old
    logs from the device before it starts the process, and starts one
    process only; every corpus directory is passed to that process, and
    so is the dictionary, as [-dict=<path>], unless the user gave a
    [dict] option. *)
Theorem start_clears_logs_and_passes_corpus fuel w :
  let asked := trace w ++ [DevRunningQuery url] in
  remote_running env asked = false ->
  exists cmd rest,
    events_since w (snd (start env self fuel w))
    = [DevRunningQuery url; NsRemove logs;
       HostMkdir (output_path env self w); DevSshPopen cmd] ++ rest
    /\ launches rest = [] /\ remote_removes rest = []
    /\ incl (corpus_nspaths env asked) cmd
    /\ (forall d, dictionary_nspath env asked = Some d -> d <> EmptyString ->
        dict_get "dict" (_libfuzzer_opts w) = None ->
        In ("-dict=" ++ d)%string cmd).
Proof.
  intros asked Hstopped. unfold start.
  pose proof (require_stopped_spec env self w) as Hreq. cbv zeta in Hreq.
  fold asked in Hreq. rewrite Hstopped in Hreq.
  rewrite (bind_ok _ _ _ _ _ Hreq). clear Hreq.
  unfold start_stopped. rewrite bind_ask. cbn [trace with_trace with_run_state].
  set (opts := match dictionary_nspath env asked with
               | Some (String c r) => dict_set "dict" (String c r) (_options w)
               | _ => _options w
               end).
  set (ready := with_trace (asked ++ [NsRemove logs])
                  (with_libfuzzer_inputs (corpus_nspaths env asked)
                     (with_options opts
                        (with_run_state (Some false) (with_trace asked w))))).
  assert (Hgo : forall {A} (k : M A),
            (match dictionary_nspath env asked with
             | Some (String c r) =>
                 modify (fun w => with_options (dict_set "dict" (String c r) (_options w)) w)
             | _ => ret tt
             end ;;
             corpus <- ask (corpus_nspaths env) ;;
             modify (with_libfuzzer_inputs corpus) ;;
             emit (NsRemove logs) ;; k)
              (with_run_state (Some false) (with_trace asked w))
            = k ready).
  { intros A k. subst ready opts.
    destruct (dictionary_nspath env asked) as [[|c r]|];
      destruct w; reflexivity. }
  rewrite Hgo. clear Hgo.
  destruct (launch_spec env self fuel ready) as (res & rest & Hrun & Hl & Hr).
  assert (Hout : output_path env self ready = output_path env self w)
    by (destruct w; reflexivity).
  exists (fuzz_cmd self ready).
  assert (Hcorpus : incl (corpus_nspaths env asked) (fuzz_cmd self ready)).
  { intros d Hd. unfold fuzz_cmd. apply in_or_app. right. apply in_or_app. right.
    apply in_or_app. left. subst ready. destruct w; exact Hd. }
  assert (Hdict : forall d, dictionary_nspath env asked = Some d -> d <> EmptyString ->
            dict_get "dict" (_libfuzzer_opts w) = None ->
            In ("-dict=" ++ d)%string (fuzz_cmd self ready)).
  { intros d Hd Hne Huser. unfold fuzz_cmd. apply in_or_app. right. apply in_or_app. left.
    change ("-dict=" ++ d)%string with (option_flag ("dict"%string, d)).
    apply in_map. apply sorted_items_in. apply dict_get_in.
    unfold launch_options.
    assert (Hlo : _libfuzzer_opts ready = _libfuzzer_opts w) by (destruct w; reflexivity).
    assert (Hop : _options ready = opts) by (destruct w; reflexivity).
    rewrite Hlo, Hop, dict_update_keeps by now apply dict_get_none.
    assert (Hopts : dict_get "dict" opts = Some d).
    { subst opts. rewrite Hd. destruct d as [|c r]; [now elim Hne|].
      apply dict_set_get_eq. }
    destruct (_debug ready); destruct (_foreground ready);
      cbn [fold_left DEBUG_OPTIONS];
      repeat (rewrite dict_set_get_neq by discriminate); exact Hopts. }
  assert (Hstart : trace (launched env self ready)
                   = trace w ++ [DevRunningQuery url; NsRemove logs;
                                 HostMkdir (output_path env self w);
                                 DevSshPopen (fuzz_cmd self ready)]).
  { cbn [launched trace with_trace]. rewrite Hout. subst ready asked.
    cbn [trace with_trace]. now rewrite <- !app_assoc. }
  unfold bind at 1. rewrite Hrun.
  destruct res as [proc| |].
  - rewrite bind_gets.
    destruct (_foreground _).
    + cbn [when]. rewrite !bind_assoc, bind_ask.
      match goal with
      | |- context [symbolize_log env self ?f 0 true] =>
          destruct (symbolize_log_starts_nothing f 0 true
                      (with_trace (trace (launched env self ready) ++ rest)
                         (launched env self ready)))
            as (found & w1 & evs & Hsym & Ht & Hsl & Hsr)
      end.
      cbn [trace with_trace] in Hsym, Ht.
      rewrite !bind_assoc.
      cbn [trace with_trace].
      rewrite (bind_ok _ _ _ _ _ Hsym), bind_emit. unfold ret. cbn [snd].
      exists (rest ++ evs ++ [ProcWait]).
      split.
      { apply events_since_app. cbn [trace with_trace]. rewrite Ht, Hstart.
        now rewrite <- !app_assoc. }
      unfold launches, remote_removes in *.
      rewrite !flat_map_app, Hl, Hr, Hsl, Hsr. repeat split; auto.
    + cbn [when]. rewrite bind_ret. unfold ret. cbn [snd].
      exists rest. split.
      { apply events_since_app. cbn [trace with_trace]. rewrite Hstart.
        now rewrite <- !app_assoc. }
      repeat split; auto.
  - cbn [snd]. exists rest. split.
    { apply events_since_app. cbn [trace with_trace]. rewrite Hstart.
      now rewrite <- !app_assoc. }
    repeat split; auto.
  - cbn [snd]. exists rest. split.
    { apply events_since_app. cbn [trace with_trace]. rewrite Hstart.
      now rewrite <- !app_assoc. }
    repeat split; auto.
Qed.

(** X11: a [repro] that finds the fuzzer stopped first stores its
    units on the device, then starts one process, in the foreground,
    whose inputs are the stored copies that the device answered with,
    in place of the units it was given. *)
Theorem repro_runs_on_stored_units fuel w stored :
  _libfuzzer_inputs w <> [] ->
  let asked := trace w ++ [DevRunningQuery url] in
  remote_running env asked = false ->
  remote_store env (asked ++ [NsStore (ns_data "") (_libfuzzer_inputs w)]) = Ok stored ->
  exists rest,
    events_since w (snd (repro env self fuel w))
    = [DevRunningQuery url; NsStore (ns_data "") (_libfuzzer_inputs w);
       HostMkdir (output_path env self w);
       DevSshPopen (fuzz_cmd self (with_foreground true (with_libfuzzer_inputs stored w)))]
      ++ rest
    /\ launches rest = [].
Proof.
  intros Hunits asked Hstopped Hstored.
  unfold repro. rewrite bind_gets.
  destruct (_libfuzzer_inputs w) as [|unit units] eqn:Hin; [now elim Hunits|].
  rewrite bind_ret.
  pose proof (require_stopped_spec env self w) as Hreq. cbv zeta in Hreq.
  fold asked in Hreq. rewrite Hstopped in Hreq.
  rewrite (bind_ok _ _ _ _ _ Hreq). clear Hreq.
  unfold repro_stopped.
  rewrite bind_gets, bind_emit, bind_ask.
  cbn [trace with_trace with_run_state _libfuzzer_inputs].
  rewrite Hin, Hstored, bind_lift_ok, !bind_modify.
  set (ready := with_foreground true
                  (with_libfuzzer_inputs stored
                     (with_trace (asked ++ [NsStore (ns_data "") (unit :: units)])
                        (with_run_state (Some false) w)))).
  match goal with
  | |- context [bind (_launch env self fuel) ?k ?W] =>
      assert (HW : W = ready)
        by (subst ready; destruct w; cbn in *; subst; reflexivity);
      rewrite HW; clear HW
  end.
  rewrite (bind_ok _ _ _ _ _ (launch_foreground env self fuel ready eq_refl)).
  rewrite bind_ask.
  assert (Hcmd : fuzz_cmd self ready
                 = fuzz_cmd self (with_foreground true (with_libfuzzer_inputs stored w)))
    by (destruct w; reflexivity).
  assert (Hstart : trace (launched env self ready)
                   = trace w ++ [DevRunningQuery url; NsStore (ns_data "") (unit :: units);
                                 HostMkdir (output_path env self w);
                                 DevSshPopen (fuzz_cmd self ready)]).
  { assert (Hout : output_path env self ready = output_path env self w)
      by (destruct w; reflexivity).
    cbn [launched trace with_trace]. rewrite Hout. subst ready asked.
    cbn [trace with_trace with_foreground with_libfuzzer_inputs].
    now rewrite <- !app_assoc. }
  destruct (symbolize_log_spec env self (proc_stderr env (trace (launched env self ready)))
              0 true (launched env self ready))
    as (w1 & clock & base & loop & Hrun & Ht & Hclock & Hloop & _).
  rewrite (bind_ok _ _ _ _ _ Hrun), bind_emit, bind_ask.
  cbn [trace with_trace]. rewrite Ht, Hstart, Hcmd.
  match goal with
  | |- context [(trace w ++ ?pre) ++ ?evs] => set (shown := evs) in *
  end.
  assert (Hshown : launches shown = []).
  { subst shown. unfold launches. rewrite !flat_map_app.
    rewrite (flat_map_loop_events _ loop) by (try exact Hloop; now intros []).
    unfold artifact_fetch.
    destruct Hclock as [-> | ->]; destruct (artifact_paths _); reflexivity. }
  assert (Hfin : forall tail,
            launches tail = [] ->
            exists rest,
              events_since w
                (with_trace ((((trace w ++
                   [DevRunningQuery url; NsStore (ns_data "") (unit :: units);
                    HostMkdir (output_path env self w);
                    DevSshPopen (fuzz_cmd self
                                   (with_foreground true (with_libfuzzer_inputs stored w)))])
                   ++ shown) ++ [ProcWait]) ++ tail) w1)
              = [DevRunningQuery url; NsStore (ns_data "") (unit :: units);
                 HostMkdir (output_path env self w);
                 DevSshPopen (fuzz_cmd self
                                (with_foreground true (with_libfuzzer_inputs stored w)))]
                ++ rest
              /\ launches rest = []).
  { intros tail Htail. exists (shown ++ [ProcWait] ++ tail). split.
    - apply events_since_app. cbn [trace with_trace]. now rewrite <- !app_assoc.
    - unfold launches in *. now rewrite !flat_map_app, Hshown, Htail. }
  destruct (proc_wait env _ =? 0)%Z.
  - unfold ret. cbn [snd].
    destruct (Hfin [] eq_refl) as (rest & Hev & Hl). rewrite app_nil_r in Hev.
    exists rest. split; assumption.
  - rewrite bind_gets. cbn [_last_known_pid with_trace].
    destruct (_last_known_pid w1 <=? 0)%Z.
    + rewrite bind_assoc, bind_emit, bind_ask, bind_emit, bind_ask, bind_emit, bind_ask.
      unfold emit, modify. cbn [trace snd with_trace].
      match goal with
      | |- context [HostEcho ?t] =>
          match goal with
          | |- context [BuildSymbolize ?r] =>
              match goal with
              | |- context [DevDumpLog ?a] =>
                  destruct (Hfin [DevGuessPid; DevDumpLog a; BuildSymbolize r; HostEcho t]
                              eq_refl) as (rest & Hev & Hl)
              end
          end
      end.
      exists rest. split; [|exact Hl]. rewrite <- Hev. f_equal.
      destruct w1; cbn. now rewrite <- !app_assoc.
    + rewrite bind_ret, bind_emit, bind_ask, bind_emit, bind_ask.
      unfold emit, modify. cbn [trace snd with_trace].
      match goal with
      | |- context [HostEcho ?t] =>
          match goal with
          | |- context [BuildSymbolize ?r] =>
              match goal with
              | |- context [DevDumpLog ?a] =>
                  destruct (Hfin [DevDumpLog a; BuildSymbolize r; HostEcho t]
                              eq_refl) as (rest & Hev & Hl)
              end
          end
      end.
      exists rest. split; [|exact Hl]. rewrite <- Hev. f_equal.
      destruct w1; cbn. now rewrite <- !app_assoc.
Qed.

End Starting.

Lemma start_clears_logs_and_passes_corpus_witness :
  exists cmd rest,
    events_since Sample.init (snd (start Sample.logging Sample.target 1 Sample.init))
    = [DevRunningQuery (executable_url Sample.target); NsRemove (ns_data LOG_PATTERN);
       HostMkdir (output_path Sample.logging Sample.target Sample.init);
       DevSshPopen cmd] ++ rest
    /\ launches rest = [] /\ remote_removes rest = []
    /\ incl ["data/corpus"%string] cmd.
Proof.
  destruct (start_clears_logs_and_passes_corpus Sample.logging Sample.target 1
              Sample.init eq_refl)
    as (cmd & rest & Hev & Hl & Hr & Hc & _).
  exists cmd, rest. repeat split; assumption.
Defined.

Lemma repro_runs_on_stored_units_witness :
  exists rest,
    events_since Sample.with_units (snd (repro Sample.crashing Sample.target 0 Sample.with_units))
    = [DevRunningQuery (executable_url Sample.target);
       NsStore (ns_data "") ["crash-deadbeef"; "oom-feedface"]%string;
       HostMkdir (output_path Sample.crashing Sample.target Sample.with_units);
       DevSshPopen
         (fuzz_cmd Sample.target
            (with_foreground true
               (with_libfuzzer_inputs ["data/crash-deadbeef"; "data/oom-feedface"]%string
                  Sample.with_units)))]
      ++ rest
    /\ launches rest = [].
Proof.
  apply (repro_runs_on_stored_units Sample.crashing Sample.target 0 Sample.with_units
           ["data/crash-deadbeef"; "data/oom-feedface"]%string).
  - discriminate.
  - reflexivity.
  - reflexivity.
Defined.
